(** * The client-to-server stream engine of jackal (c2s/c2s.go)

    A shallow embedding of the per-connection stream state machine:
    the XML element and stanza values it handles, the stream context,
    the handlers of each state, and the stanza dispatch of an
    established session.  The router, the authenticators, the feature
    modules and storage are collaborators of the stream; they are
    taken as an environment of functions, and every call the stream
    makes on them (and every write on its transport) is recorded in a
    trace of events. *)

From stdpp Require Import base numbers strings list gmap.
From Stdlib Require Import ZArith NArith Ascii String.

Set Warnings "-register-all".

Local Open Scope string_scope.
Local Open Scope list_scope.

(** ** Constants of c2s.go *)

Definition streamMailboxSize : nat := 64.

Inductive State := connecting | connected | authenticating | authenticated
                 | sessionStarted | disconnected.

#[global] Instance State_eq_dec : EqDecision State.
Proof. solve_decision. Defined.

Definition jabberClientNamespace := "jabber:client".
Definition framedStreamNamespace := "urn:ietf:params:xml:ns:xmpp-framing".
Definition streamNamespace := "http://etherx.jabber.org/streams".
Definition tlsNamespace := "urn:ietf:params:xml:ns:xmpp-tls".
Definition compressProtocolNamespace := "http://jabber.org/protocol/compress".
Definition bindNamespace := "urn:ietf:params:xml:ns:xmpp-bind".
Definition sessionNamespace := "urn:ietf:params:xml:ns:xmpp-session".
Definition saslNamespace := "urn:ietf:params:xml:ns:xmpp-sasl".
Definition blockedErrorNamespace := "urn:xmpp:blocking:errors".

(** stream context keys *)
Definition usernameCtxKey := "username".
Definition domainCtxKey := "domain".
Definition resourceCtxKey := "resource".
Definition jidCtxKey := "jid".
Definition securedCtxKey := "secured".
Definition authenticatedCtxKey := "authenticated".
Definition compressedCtxKey := "compressed".
Definition presenceCtxKey := "presence".

(** once context keys *)
Definition rosterOnceCtxKey := "rosterOnce".
Definition offlineOnceCtxKey := "offlineOnce".

(** ** The xml package: elements *)

Module xml.

(** Modelled from the spec: the element type of package xml is not among
    the sources.  A tree node with a name, an attribute map that keeps
    insertion order, a text and ordered children; the namespace is the
    attribute [xmlns], which is how c2s.go itself sets it on the stream
    open (SetAttribute with key xmlns). *)
Inductive Element : Type :=
  mkElement (name : string) (attrs : list (string * string)) (text : string)
            (elems : list Element).

Definition Name (e : Element) : string := let 'mkElement n _ _ _ := e in n.
Definition Attributes (e : Element) : list (string * string) :=
  let 'mkElement _ a _ _ := e in a.
Definition Text (e : Element) : string := let 'mkElement _ _ t _ := e in t.
Definition Elements (e : Element) : list Element :=
  let 'mkElement _ _ _ c := e in c.

(** Modelled from the spec: Attributes().Get of package xml, the value of
    the first attribute with that label, the empty string when there is
    none. *)
Fixpoint Get (label : string) (attrs : list (string * string)) : string :=
  match attrs with
  | [] => ""
  | (k, v) :: rest => if bool_decide (k = label) then v else Get label rest
  end.

(** Modelled from the spec: setting an attribute of package xml; the
    attribute map keeps insertion order, so a label that is present keeps
    its place and a new one is put last. *)
Fixpoint setAttribute (label value : string) (attrs : list (string * string))
  : list (string * string) :=
  match attrs with
  | [] => [(label, value)]
  | (k, v) :: rest =>
      if bool_decide (k = label) then (k, value) :: rest
      else (k, v) :: setAttribute label value rest
  end.

(** Modelled from the spec: the typed accessors of an element, each the
    attribute of its name. *)
Definition Namespace (e : Element) : string := Get "xmlns" (Attributes e).
Definition ID (e : Element) : string := Get "id" (Attributes e).
Definition Type_ (e : Element) : string := Get "type" (Attributes e).
Definition From (e : Element) : string := Get "from" (Attributes e).
Definition To (e : Element) : string := Get "to" (Attributes e).
Definition Version (e : Element) : string := Get "version" (Attributes e).

(** Modelled from the spec: the constructors and setters of package xml
    that c2s.go calls to build what it writes. *)
Definition NewElementName (name : string) : Element := mkElement name [] "" [].

Definition SetAttribute (label value : string) (e : Element) : Element :=
  let 'mkElement n a t c := e in mkElement n (setAttribute label value a) t c.

Definition SetNamespace (ns : string) (e : Element) : Element :=
  SetAttribute "xmlns" ns e.

Definition NewElementNamespace (name ns : string) : Element :=
  SetNamespace ns (NewElementName name).

Definition SetText (text : string) (e : Element) : Element :=
  let 'mkElement n a _ c := e in mkElement n a text c.

Definition AppendElements (es : list Element) (e : Element) : Element :=
  let 'mkElement n a t c := e in mkElement n a t (c ++ es).

Definition AppendElement (child : Element) (e : Element) : Element :=
  AppendElements [child] e.

(** Modelled from the spec: Elements().Child and
    Elements().ChildNamespace of package xml, the first child of that name
    (and namespace), nil when there is none. *)
Definition Child (name : string) (es : list Element) : option Element :=
  List.find (fun c => bool_decide (Name c = name)) es.

Definition ChildNamespace (name ns : string) (es : list Element) : option Element :=
  List.find (fun c => bool_decide (Name c = name) && bool_decide (Namespace c = ns)) es.

(** ** JIDs *)

(** Modelled from the spec: the JID type of package xml is not among the
    sources.  A value (node, domain, resource); bare is "no resource",
    full-with-user is "node and resource both present", server is "node
    and resource both empty". *)
Record JID := mkJID { Node : string; Domain : string; Resource : string }.

(** Modelled from the spec: the operations of a JID, in the words of the
    data model. *)
Definition ToBareJID (j : JID) : JID := mkJID (Node j) (Domain j) "".
Definition IsBare (j : JID) : bool := bool_decide (Resource j = "").
Definition IsFullWithUser (j : JID) : bool :=
  negb (bool_decide (Node j = "")) && negb (bool_decide (Resource j = "")).
Definition IsServer (j : JID) : bool :=
  bool_decide (Node j = "") && bool_decide (Resource j = "").

(** The stringprep profiles are those of an outside library; they are
    taken as three partial normalisations. *)
Record Stringprep := {
  nodeprep : string -> option string;
  nameprep : string -> option string;
  resourceprep : string -> option string;
}.

(** Modelled from the spec: xml.NewJID is not among the sources.  With
    skipStringPrep the parts are taken as they are; otherwise each part
    must pass its stringprep profile and the domain must not be empty. *)
Definition NewJID (sp : Stringprep) (node domain resource : string)
    (skipStringPrep : bool) : option JID :=
  if skipStringPrep then Some (mkJID node domain resource)
  else
    n ← nodeprep sp node;
    d ← nameprep sp domain;
    r ← resourceprep sp resource;
    if bool_decide (d = "") then None else Some (mkJID n d r).

(** ** Stanzas *)

(** Modelled from the spec: the stanza types of package xml are not among
    the sources.  A stanza is an element with its parsed sender and
    destination; a presence also carries its priority. *)
Record IQ := mkIQ { iqElem : Element; iqFrom : JID; iqTo : JID }.
Record Presence :=
  mkPresence { prElem : Element; prFrom : JID; prTo : JID; prPriority : Z }.
Record Message := mkMessage { msgElem : Element; msgFrom : JID; msgTo : JID }.

Inductive Stanza :=
| StIQ (iq : IQ)
| StPresence (p : Presence)
| StMessage (m : Message).

(** Modelled from the spec: the interface xml.Stanza, as far as the stream
    uses it. *)
Class XStanza (T : Type) := {
  ToJID : T -> JID;
  FromJID : T -> JID;
  toElement : T -> Element;
}.

#[global] Instance IQ_stanza : XStanza IQ :=
  {| ToJID := iqTo; FromJID := iqFrom; toElement := iqElem |}.
#[global] Instance Presence_stanza : XStanza Presence :=
  {| ToJID := prTo; FromJID := prFrom; toElement := prElem |}.
#[global] Instance Message_stanza : XStanza Message :=
  {| ToJID := msgTo; FromJID := msgFrom; toElement := msgElem |}.
#[global] Instance Stanza_stanza : XStanza Stanza :=
  {| ToJID := fun st => match st with
                        | StIQ i => iqTo i | StPresence p => prTo p
                        | StMessage m => msgTo m end;
     FromJID := fun st => match st with
                          | StIQ i => iqFrom i | StPresence p => prFrom p
                          | StMessage m => msgFrom m end;
     toElement := fun st => match st with
                            | StIQ i => iqElem i | StPresence p => prElem p
                            | StMessage m => msgElem m end |}.

(** Modelled from the spec: the type names and the predicates of the
    three kinds of stanza. *)
Definition GetType := "get".
Definition SetType := "set".
Definition ResultType := "result".
Definition ErrorType := "error".
Definition UnavailableType := "unavailable".

Definition IsGet (iq : IQ) : bool := bool_decide (Type_ (iqElem iq) = GetType).
Definition IsSet (iq : IQ) : bool := bool_decide (Type_ (iqElem iq) = SetType).

Definition IsChat (m : Message) : bool := bool_decide (Type_ (msgElem m) = "chat").
Definition IsGroupChat (m : Message) : bool :=
  bool_decide (Type_ (msgElem m) = "groupchat").
Definition IsMessageWithBody (m : Message) : bool :=
  bool_decide (is_Some (Child "body" (Elements (msgElem m)))).

Definition IsAvailable (p : Presence) : bool := bool_decide (Type_ (prElem p) = "").
Definition IsUnavailable (p : Presence) : bool :=
  bool_decide (Type_ (prElem p) = UnavailableType).
Definition Priority (p : Presence) : Z := prPriority p.
Definition Status (p : Presence) : string :=
  match Child "status" (Elements (prElem p)) with
  | Some st => Text st
  | None => ""
  end.

(** Modelled from the spec: xml.NewJIDString is not among the sources.  A
    JID is written node@domain/resource: the resource is what follows the
    first slash, the node what precedes the first at-sign before it. *)
Fixpoint splitAt (c : ascii) (s : string) : option (string * string) :=
  match s with
  | EmptyString => None
  | String a rest =>
      if Ascii.eqb a c then Some (EmptyString, rest)
      else match splitAt c rest with
           | Some (x, y) => Some (String a x, y)
           | None => None
           end
  end.

Definition NewJIDString (sp : Stringprep) (str : string) (skipStringPrep : bool)
  : option JID :=
  let '(rest, resource) :=
    match splitAt "/" str with Some p => p | None => (str, "") end in
  let '(node, domain) :=
    match splitAt "@" rest with Some p => p | None => ("", rest) end in
  NewJID sp node domain resource skipStringPrep.

(** Modelled from the spec: the stanza constructors of package xml are
    not among the sources.  An IQ has a type among get, set, result and
    error, and exactly one child for get and set. *)
Definition NewIQFromElement (e : Element) (from to : JID) : option IQ :=
  let t := Type_ e in
  if negb (bool_decide (Name e = "iq")) then None
  else if negb (bool_decide (t ∈ [GetType; SetType; ResultType; ErrorType])) then None
  else if (bool_decide (t = GetType) || bool_decide (t = SetType))
          && negb (bool_decide (List.length (Elements e) = 1%nat)) then None
  else Some (mkIQ e from to).

(** A decimal integer with an optional sign, as strconv.Atoi reads it. *)
Fixpoint parseDigits (acc : Z) (s : string) : option Z :=
  match s with
  | EmptyString => Some acc
  | String a rest =>
      let n := Z.of_nat (nat_of_ascii a) in
      if (48 <=? n)%Z && (n <=? 57)%Z then parseDigits (10 * acc + (n - 48))%Z rest
      else None
  end.

Definition Atoi (s : string) : option Z :=
  match s with
  | EmptyString => None
  | String "-" (String _ _ as rest) => Z.opp <$> parseDigits 0 rest
  | String "+" (String _ _ as rest) => parseDigits 0 rest
  | _ => parseDigits 0 s
  end.

(** Modelled from the spec: a presence has a type among the eight the
    spec lists (available is the empty type) and an optional priority
    that is a signed 8-bit number. *)
Definition NewPresenceFromElement (e : Element) (from to : JID) : option Presence :=
  if negb (bool_decide (Name e = "presence")) then None
  else if negb (bool_decide (Type_ e ∈
         [""; "unavailable"; "subscribe"; "subscribed"; "unsubscribe";
          "unsubscribed"; "probe"; "error"])) then None
  else match Child "priority" (Elements e) with
       | None => Some (mkPresence e from to 0)
       | Some pe =>
           pr ← Atoi (Text pe);
           if (pr <? -128)%Z || (127 <? pr)%Z then None
           else Some (mkPresence e from to pr)
       end.

(** Modelled from the spec: a message has a type among normal, chat,
    groupchat, headline and error. *)
Definition NewMessageFromElement (e : Element) (from to : JID) : option Message :=
  if negb (bool_decide (Name e = "message")) then None
  else if negb (bool_decide (Type_ e ∈
         ["normal"; "chat"; "groupchat"; "headline"; "error"])) then None
  else Some (mkMessage e from to).

(** Modelled from the spec: xml.NewPresence(from, to, type), a presence
    element of that type. *)
Definition NewPresence (from to : JID) (type : string) : Element :=
  SetAttribute "type" type (NewElementName "presence").

(** Modelled from the spec: xml.NewIQType(id, type), an iq element with
    that id and type. *)
Definition NewIQType (identifier type : string) : Element :=
  SetAttribute "type" type (SetAttribute "id" identifier (NewElementName "iq")).

(** ** Stanza errors *)

(** Modelled from the spec: the stanza errors are the recoverable
    conditions the spec lists; a stanza error is sent as a copy of the
    stanza with type error and an error child holding the condition.
    The error types are those of RFC 6120, with cancel for
    not-acceptable as the spec writes it. *)
Inductive StanzaError :=
| ErrBadRequest | ErrNotAllowed | ErrConflict | ErrServiceUnavailable
| ErrNotAcceptable | ErrJidMalformed.

Definition stanzaErrorCondition (e : StanzaError) : string :=
  match e with
  | ErrBadRequest => "bad-request"
  | ErrNotAllowed => "not-allowed"
  | ErrConflict => "conflict"
  | ErrServiceUnavailable => "service-unavailable"
  | ErrNotAcceptable => "not-acceptable"
  | ErrJidMalformed => "jid-malformed"
  end.

Definition stanzaErrorType (e : StanzaError) : string :=
  match e with
  | ErrBadRequest | ErrJidMalformed => "modify"
  | _ => "cancel"
  end.

Definition StanzaErrorElement (e : StanzaError) : Element :=
  AppendElement
    (NewElementNamespace (stanzaErrorCondition e) "urn:ietf:params:xml:ns:xmpp-stanzas")
    (SetAttribute "type" (stanzaErrorType e) (NewElementName "error")).

Definition NewErrorElementFromElement (elem : Element) (stanzaErr : StanzaError)
    (errorElements : list Element) : Element :=
  AppendElement (AppendElements errorElements (StanzaErrorElement stanzaErr))
                (SetAttribute "type" ErrorType elem).

(** Modelled from the spec: the error replies of a stanza, errored copies
    of the stanza. *)
Definition ServiceUnavailableError `{XStanza T} (st : T) : Element :=
  NewErrorElementFromElement (toElement st) ErrServiceUnavailable [].
Definition NotAllowedError `{XStanza T} (st : T) : Element :=
  NewErrorElementFromElement (toElement st) ErrNotAllowed [].
Definition ConflictError `{XStanza T} (st : T) : Element :=
  NewErrorElementFromElement (toElement st) ErrConflict [].
Definition BadRequestError `{XStanza T} (st : T) : Element :=
  NewErrorElementFromElement (toElement st) ErrBadRequest [].

(** Modelled from the spec: iq.ResultIQ, the empty result of scenario S1,
    an iq with the id of the request and type result. *)
Definition ResultIQ (iq : IQ) : Element := NewIQType (ID (iqElem iq)) ResultType.

End xml.

(** ** Stream errors *)

Module streamerror.

(** Modelled from the spec: package streamerror is not among the sources.
    The fatal conditions the spec lists, each serialised as a
    stream:error element holding its condition. *)
Inductive Error :=
| ErrInvalidXML | ErrInvalidNamespace | ErrHostUnknown | ErrUnsupportedVersion
| ErrUnsupportedStanzaType | ErrNotAuthorized | ErrInvalidFrom
| ErrPolicyViolation | ErrConnectionTimeout | ErrResourceConstraint
| ErrInternalServerError.

Definition condition (e : Error) : string :=
  match e with
  | ErrInvalidXML => "invalid-xml"
  | ErrInvalidNamespace => "invalid-namespace"
  | ErrHostUnknown => "host-unknown"
  | ErrUnsupportedVersion => "unsupported-version"
  | ErrUnsupportedStanzaType => "unsupported-stanza-type"
  | ErrNotAuthorized => "not-authorized"
  | ErrInvalidFrom => "invalid-from"
  | ErrPolicyViolation => "policy-violation"
  | ErrConnectionTimeout => "connection-timeout"
  | ErrResourceConstraint => "resource-constraint"
  | ErrInternalServerError => "internal-server-error"
  end.

Definition Element (e : Error) : xml.Element :=
  xml.AppendElement
    (xml.NewElementNamespace (condition e) "urn:ietf:params:xml:ns:xmpp-streams")
    (xml.NewElementName "stream:error").

End streamerror.

(** The Go error values the stream tells apart: a stream error, a stanza
    error, or any other error. *)
Inductive error :=
| StreamErr (e : streamerror.Error)
| StanzaErr (e : xml.StanzaError)
| OtherErr (msg : string).

(** ** crypto/sha256 and encoding/hex *)

(** SHA-256 as FIPS 180-4 defines it, on bytes held as numbers below 256
    and 32-bit words held as numbers below 2^32, the wrap-around of the
    additions written out. *)
Module sha256.

Local Open Scope N_scope.

Definition add32 (a b : N) : N := (a + b) mod 2 ^ 32.
Definition rotr (n x : N) : N :=
  N.lor (N.shiftr x n) (N.shiftl x (32 - n) mod 2 ^ 32).
Definition not32 (x : N) : N := N.lxor x 0xffffffff.

Definition Ch (x y z : N) : N := N.lxor (N.land x y) (N.land (not32 x) z).
Definition Maj (x y z : N) : N :=
  N.lxor (N.lxor (N.land x y) (N.land x z)) (N.land y z).
Definition bsig0 (x : N) : N := N.lxor (N.lxor (rotr 2 x) (rotr 13 x)) (rotr 22 x).
Definition bsig1 (x : N) : N := N.lxor (N.lxor (rotr 6 x) (rotr 11 x)) (rotr 25 x).
Definition ssig0 (x : N) : N := N.lxor (N.lxor (rotr 7 x) (rotr 18 x)) (N.shiftr x 3).
Definition ssig1 (x : N) : N := N.lxor (N.lxor (rotr 17 x) (rotr 19 x)) (N.shiftr x 10).

(** The round constants are the first 32 bits of the fractional parts of
    the cube roots of the first 64 primes, the initial hash value those of
    the square roots of the first 8. *)
Definition isPrime (n : N) : bool :=
  (1 <? n) && forallb (fun d => negb (n mod N.of_nat d =? 0)) (List.seq 2 (N.to_nat n - 2)).

Definition primes (n : nat) : list N :=
  List.firstn n (List.filter isPrime (List.map N.of_nat (List.seq 2 310))).

Fixpoint cbrt (bits : nat) (x r : N) : N :=
  match bits with
  | O => r
  | S bits' =>
      let r' := r + 2 ^ N.of_nat bits' in
      if r' * r' * r' <=? x then cbrt bits' x r' else cbrt bits' x r
  end.

Definition K : list N :=
  List.map (fun p => cbrt 36 (p * 2 ^ 96) 0 mod 2 ^ 32) (primes 64).

Definition H0 : list N :=
  List.map (fun p => N.sqrt (p * 2 ^ 64) mod 2 ^ 32) (primes 8).

(** the message, a 1 bit, zeros up to 56 modulo 64, the bit length on 8 bytes *)
Definition bigEndian (width : nat) (x : N) : list N :=
  List.map (fun i => N.shiftr x (8 * N.of_nat i) mod 256) (List.rev (List.seq 0 width)).

Definition pad (data : list N) : list N :=
  let len := N.of_nat (List.length data) in
  let zeros := (64 + 55 - len mod 64) mod 64 in
  data ++ [0x80] ++ List.repeat 0 (N.to_nat zeros) ++ bigEndian 8 (8 * len).

Fixpoint word (bytes : list N) : N :=
  match bytes with
  | [] => 0
  | b :: rest => b * 256 ^ N.of_nat (List.length rest) + word rest
  end.

Fixpoint chunks (fuel size : nat) (l : list N) : list (list N) :=
  match fuel, l with
  | O, _ | _, [] => []
  | S fuel', _ => List.firstn size l :: chunks fuel' size (List.skipn size l)
  end.

Fixpoint extend (n : nat) (w : list N) : list N :=
  match n with
  | O => w
  | S n' =>
      let i := List.length w in
      let at_ k := List.nth (i - k) w 0 in
      extend n' (w ++ [add32 (add32 (ssig1 (at_ 2%nat)) (at_ 7%nat))
                             (add32 (ssig0 (at_ 15%nat)) (at_ 16%nat))])
  end.

Definition schedule (block : list N) : list N :=
  extend 48 (List.map word (chunks 16 4 block)).

Definition round (st : list N) (kw : N * N) : list N :=
  match st with
  | [a; b; c; d; e; f; g; h] =>
      let t1 := add32 (add32 (add32 h (bsig1 e)) (add32 (Ch e f g) (fst kw))) (snd kw) in
      let t2 := add32 (bsig0 a) (Maj a b c) in
      [add32 t1 t2; a; b; c; add32 d t1; e; f; g]
  | _ => st
  end.

Definition compress (h : list N) (block : list N) : list N :=
  let st := List.fold_left round (List.combine K (schedule block)) h in
  List.map (fun p => add32 (fst p) (snd p)) (List.combine h st).

(** h.Write(data) followed by h.Sum(nil): the 32 bytes of the digest *)
Definition Sum (data : list N) : list N :=
  let padded := pad data in
  let blocks := chunks (List.length padded) 64 padded in
  List.concat (List.map (bigEndian 4) (List.fold_left compress blocks H0)).

End sha256.

Module hex.

Definition digit (n : N) : ascii :=
  ascii_of_N (if (n <? 10)%N then 48 + n else 87 + n)%N.

(** hex.EncodeToString: two lower-case digits for each byte *)
Fixpoint EncodeToString (bytes : list N) : string :=
  match bytes with
  | [] => EmptyString
  | b :: rest => String (digit (b / 16)%N) (String (digit (b mod 16)%N) (EncodeToString rest))
  end.

End hex.

(** []byte(s) *)
Definition bytesOfString (s : string) : list N := List.map N_of_ascii (list_ascii_of_string s).

(** ** The collaborators of the stream *)

Module transport.

(** Modelled from the spec: the transport-kind tag of package transport,
    socket or websocket; the switches of c2s.go keep a default branch for
    any other kind, which is [Other]. *)
Inductive TransportType := Socket | WebSocket | Other.

#[global] Instance TransportType_eq_dec : EqDecision TransportType.
Proof. solve_decision. Defined.

End transport.

Module compress.

(** Modelled from the spec: the compression levels of the configuration. *)
Inductive Level := NoCompression | DefaultCompression | BestCompression | SpeedCompression.

#[global] Instance Level_eq_dec : EqDecision Level.
Proof. solve_decision. Defined.

End compress.

(** Modelled from the spec: the configuration of package c2s is not among
    the sources; the options are those of the configuration surface, under
    the field names c2s.go reads. *)
Inductive ResourceConflictPolicy := Disallow | Override | Replace.

Record CompressConfig := { Level : compress.Level }.
Record RosterConfig := { Versioning : bool }.
Record ModulesConfig := { Enabled : gset string; Roster : RosterConfig }.
Record Config := {
  MaxStanzaSize : nat;
  ConnectTimeout : nat;
  Compression : CompressConfig;
  ResourceConflict : ResourceConflictPolicy;
  SASL : list string;
  Modules : ModulesConfig;
}.

Module auth.

(** Modelled from the spec: package auth is not among the sources.  The
    mechanisms are those that initializeAuthenticators of c2s.go makes. *)
Inductive ScramType := ScramSHA1 | ScramSHA256.

Inductive Kind := Plain | DigestMD5 | Scram (t : ScramType) (usesCb : bool).

(** What ProcessElement returns besides nil: a SASL error, which carries
    the element of its condition, or another error. *)
Inductive Failure := SASLError (condition : xml.Element) | Failed (msg : string).

(** An authenticator is an object of package auth with a state of its
    own.  The stream only hands it elements and resets it, so its state
    is held as the elements it was given since it was made or reset, and
    its answers are functions of that history, given by [Behaviour]. *)
Record Authenticator := mkAuthenticator { kind : Kind; history : list xml.Element }.

Record Behaviour := {
  result : Kind -> list xml.Element -> option Failure;
  authenticated : Kind -> list xml.Element -> bool;
  username : Kind -> list xml.Element -> string;
}.

Definition NewPlain : Authenticator := mkAuthenticator Plain [].
Definition NewDigestMD5 : Authenticator := mkAuthenticator DigestMD5 [].
Definition NewScram (t : ScramType) (usesCb : bool) : Authenticator :=
  mkAuthenticator (Scram t usesCb) [].

(** Modelled from the spec: the mechanism names the spec lists, the
    channel-binding variants with the suffix PLUS. *)
Definition Mechanism (a : Authenticator) : string :=
  match kind a with
  | Plain => "PLAIN"
  | DigestMD5 => "DIGEST-MD5"
  | Scram ScramSHA1 false => "SCRAM-SHA-1"
  | Scram ScramSHA1 true => "SCRAM-SHA-1-PLUS"
  | Scram ScramSHA256 false => "SCRAM-SHA-256"
  | Scram ScramSHA256 true => "SCRAM-SHA-256-PLUS"
  end.

Definition ProcessElement (b : Behaviour) (a : Authenticator) (elem : xml.Element)
  : Authenticator * option Failure :=
  let h := history a ++ [elem] in
  (mkAuthenticator (kind a) h, result b (kind a) h).

Definition Authenticated (b : Behaviour) (a : Authenticator) : bool :=
  authenticated b (kind a) (history a).
Definition Username (b : Behaviour) (a : Authenticator) : string :=
  username b (kind a) (history a).
Definition Reset (a : Authenticator) : Authenticator := mkAuthenticator (kind a) [].

Definition ErrSASLTemporaryAuthFailure : xml.Element :=
  xml.NewElementName "temporary-auth-failure".

End auth.

Module module.

(** The feature modules a stream may hold, by the field or constructor
    that names them in c2s.go. *)
Inductive IQHandler :=
| DiscoInfo | Roster | LastActivity | Private | VCard | Register | Version
| BlockingCommand | Ping.

End module.

Module model.

(** Modelled from the spec: the part of a user record the stream writes. *)
Record User := { Username : string; LoggedOutStatus : string; LoggedOutAt : nat }.

End model.

Module router.

(** Modelled from the spec: the answers of route other than ok, under
    the names c2s.go has for them; any other error is [ErrOther]. *)
Inductive RouteError :=
| ErrNotExistingAccount | ErrResourceNotFound | ErrNotAuthenticated
| ErrBlockedJID | ErrOther (msg : string).

(** Modelled from the spec: another stream as the router shows it, by
    its id and bound resource. *)
Record C2S := mkC2S { ID : string; Resource : string }.

(** Modelled from the spec: router.Context is not among the sources.  A
    heterogeneous key-value mapping with typed accessors; an accessor of a
    key that is absent, or holds a value of another type, gives the zero
    value of its type. *)
Inductive Value :=
| VString (s : string)
| VBool (b : bool)
| VJID (j : option xml.JID)
| VPresence (p : xml.Presence).

Record Context := mkContext { values : gmap string Value; terminated : bool }.

Definition NewContext : Context := mkContext ∅ false.

Definition SetString (v : string) (key : string) (c : Context) : Context :=
  mkContext (<[key := VString v]> (values c)) (terminated c).
Definition SetBool (v : bool) (key : string) (c : Context) : Context :=
  mkContext (<[key := VBool v]> (values c)) (terminated c).
Definition SetObject (v : Value) (key : string) (c : Context) : Context :=
  mkContext (<[key := v]> (values c)) (terminated c).

Definition String (key : string) (c : Context) : string :=
  match values c !! key with Some (VString s) => s | _ => "" end.
Definition Bool (key : string) (c : Context) : bool :=
  match values c !! key with Some (VBool b) => b | _ => false end.
Definition Object (key : string) (c : Context) : option Value := values c !! key.

Definition Terminate (c : Context) : Context := mkContext (values c) true.

End router.

(** The environment of one handled element: the answers of the router
    singleton, of storage, of the authenticators and of the modules, the
    stringprep profiles, and what uuid.New and time.Now yield.  The
    stream makes no change to the router before the last call of a
    handler, so within one handler the router is a fixed oracle; between
    two elements the environment may be another one. *)
Record Env := {
  (* router.Instance() *)
  DefaultLocalDomain : string;
  IsLocalDomain : string -> bool;
  StreamsMatchingJID : xml.JID -> list router.C2S;
  Route : xml.Stanza -> option router.RouteError;
  IsBlockedJID : xml.JID -> string -> bool;
  (* storage.Instance() *)
  FetchUser : string -> option model.User;
  (* package auth, the modules, stringprep, uuid and time *)
  authBehaviour : auth.Behaviour;
  MatchesIQ : module.IQHandler -> xml.IQ -> bool;
  stringprep : xml.Stringprep;
  uuidNew : string;
  now : nat;
}.

(** ** The stream and its trace *)

Record stream := mkStream {
  cfg : Config;
  tr : transport.TransportType;
  id : string;
  connectTm : bool;
  state : State;
  ctx : router.Context;
  authrs : list auth.Authenticator;
  activeAuthr : option nat;
  iqHandlers : list module.IQHandler;
  roster : bool;
  discoInfo : bool;
  register : bool;
  ping : bool;
  blockCmd : bool;
  offline : bool;
}.

(** What a handler does to the world outside the stream value.  Calls of
    package log are not part of the model. *)
Inductive Event :=
(* the transport *)
| WriteElement (e : xml.Element)
| WriteOpen (prolog : string) (ops : xml.Element) (includeClosing : bool)
| WriteString (s : string)
| StartTLS
| EnableCompression (level : compress.Level)
| Close
| NewParser
(* the router *)
| RouteCall (st : xml.Stanza)
| AuthenticateStream
| UnregisterStream
| DisconnectPeer (peer : router.C2S) (err : streamerror.Error)
(* the modules *)
| ProcessIQ (h : module.IQHandler) (iq : xml.IQ)
| RosterProcessPresence (p : xml.Presence)
| DeliverPendingApprovalNotifications
| ReceivePresences
| BroadcastPresence (p : xml.Presence)
| BroadcastPresenceAndWait (p : xml.Element)
| DeliverOfflineMessages
| ArchiveMessage (m : xml.Message)
| RegisterDefaultEntities
| ResetDeadline
| StartPinging
(* storage *)
| InsertOrUpdateUser (u : model.User)
(* the timer and the stream's own mailbox *)
| StopTimer
| PostDisconnect (err : streamerror.Error).

(** A handler runs on a stream value and either ends, with a result, the
    new stream value and the events in the order they happened, or is
    still running when its fuel is spent, with the events so far. *)
Inductive Res (A : Type) :=
| Done (a : A) (s : stream) (out : list Event)
| OutOfFuel (out : list Event).
Arguments Done {A} a s out.
Arguments OutOfFuel {A} out.

Definition M (A : Type) : Type := stream -> Res A.

#[global] Instance M_ret : MRet M := fun A a s => Done a s [].
#[global] Instance M_bind : MBind M := fun A B f m s =>
  match m s with
  | Done a s' out =>
      match f a s' with
      | Done b s'' out' => Done b s'' (out ++ out')
      | OutOfFuel out' => OutOfFuel (out ++ out')
      end
  | OutOfFuel out => OutOfFuel out
  end.

Definition get : M stream := fun s => Done s s [].
Definition modify (f : stream -> stream) : M unit := fun s => Done tt (f s) [].
Definition emit (ev : Event) : M unit := fun s => Done tt s [ev].
Definition skip : M unit := mret tt.

Definition events {A} (r : Res A) : list Event :=
  match r with Done _ _ out => out | OutOfFuel out => out end.
Definition final {A} (r : Res A) : option stream :=
  match r with Done _ s _ => Some s | OutOfFuel _ => None end.

Definition set_state (v : State) (s : stream) : stream :=
  mkStream (cfg s) (tr s) (id s) (connectTm s) v (ctx s) (authrs s) (activeAuthr s)
           (iqHandlers s) (roster s) (discoInfo s) (register s) (ping s)
           (blockCmd s) (offline s).
Definition set_ctx (v : router.Context) (s : stream) : stream :=
  mkStream (cfg s) (tr s) (id s) (connectTm s) (state s) v (authrs s) (activeAuthr s)
           (iqHandlers s) (roster s) (discoInfo s) (register s) (ping s)
           (blockCmd s) (offline s).
Definition set_connectTm (v : bool) (s : stream) : stream :=
  mkStream (cfg s) (tr s) (id s) v (state s) (ctx s) (authrs s) (activeAuthr s)
           (iqHandlers s) (roster s) (discoInfo s) (register s) (ping s)
           (blockCmd s) (offline s).
Definition set_authrs (v : list auth.Authenticator) (s : stream) : stream :=
  mkStream (cfg s) (tr s) (id s) (connectTm s) (state s) (ctx s) v (activeAuthr s)
           (iqHandlers s) (roster s) (discoInfo s) (register s) (ping s)
           (blockCmd s) (offline s).
Definition set_activeAuthr (v : option nat) (s : stream) : stream :=
  mkStream (cfg s) (tr s) (id s) (connectTm s) (state s) (ctx s) (authrs s) v
           (iqHandlers s) (roster s) (discoInfo s) (register s) (ping s)
           (blockCmd s) (offline s).
Definition set_iqHandlers (v : list module.IQHandler) (s : stream) : stream :=
  mkStream (cfg s) (tr s) (id s) (connectTm s) (state s) (ctx s) (authrs s)
           (activeAuthr s) v (roster s) (discoInfo s) (register s) (ping s)
           (blockCmd s) (offline s).
Definition set_roster (v : bool) (s : stream) : stream :=
  mkStream (cfg s) (tr s) (id s) (connectTm s) (state s) (ctx s) (authrs s)
           (activeAuthr s) (iqHandlers s) v (discoInfo s) (register s) (ping s)
           (blockCmd s) (offline s).
Definition set_discoInfo (v : bool) (s : stream) : stream :=
  mkStream (cfg s) (tr s) (id s) (connectTm s) (state s) (ctx s) (authrs s)
           (activeAuthr s) (iqHandlers s) (roster s) v (register s) (ping s)
           (blockCmd s) (offline s).
Definition set_register (v : bool) (s : stream) : stream :=
  mkStream (cfg s) (tr s) (id s) (connectTm s) (state s) (ctx s) (authrs s)
           (activeAuthr s) (iqHandlers s) (roster s) (discoInfo s) v (ping s)
           (blockCmd s) (offline s).
Definition set_ping (v : bool) (s : stream) : stream :=
  mkStream (cfg s) (tr s) (id s) (connectTm s) (state s) (ctx s) (authrs s)
           (activeAuthr s) (iqHandlers s) (roster s) (discoInfo s) (register s) v
           (blockCmd s) (offline s).
Definition set_blockCmd (v : bool) (s : stream) : stream :=
  mkStream (cfg s) (tr s) (id s) (connectTm s) (state s) (ctx s) (authrs s)
           (activeAuthr s) (iqHandlers s) (roster s) (discoInfo s) (register s)
           (ping s) v (offline s).
Definition set_offline (v : bool) (s : stream) : stream :=
  mkStream (cfg s) (tr s) (id s) (connectTm s) (state s) (ctx s) (authrs s)
           (activeAuthr s) (iqHandlers s) (roster s) (discoInfo s) (register s)
           (ping s) (blockCmd s) v.

(** ** The stream: c2s.go *)

Definition quote : string := String (ascii_of_nat 34) EmptyString.

Section Stream.

Context (env : Env).

Definition ID (s : stream) : string := id s.
Definition Context (s : stream) : router.Context := ctx s.
Definition Username (s : stream) : string := router.String usernameCtxKey (ctx s).
Definition Domain (s : stream) : string := router.String domainCtxKey (ctx s).
Definition Resource (s : stream) : string := router.String resourceCtxKey (ctx s).

(** The context holds a JID from [New] on; the empty JID stands for the
    nil pointer that the type assertion of the source would yield. *)
Definition JID (s : stream) : xml.JID :=
  match router.Object jidCtxKey (ctx s) with
  | Some (router.VJID (Some j)) => j
  | _ => xml.mkJID "" "" ""
  end.

Definition IsAuthenticated (s : stream) : bool := router.Bool authenticatedCtxKey (ctx s).
Definition IsSecured (s : stream) : bool := router.Bool securedCtxKey (ctx s).
Definition IsCompressed (s : stream) : bool := router.Bool compressedCtxKey (ctx s).

Definition Presence (s : stream) : option xml.Presence :=
  match router.Object presenceCtxKey (ctx s) with
  | Some (router.VPresence v) => Some v
  | _ => None
  end.

Definition enabled (name : string) (c : Config) : bool :=
  bool_decide (name ∈ Enabled (Modules c)).

Definition initializeAuthenticators (c : Config) : list auth.Authenticator :=
  fold_left (fun authrs a =>
    if bool_decide (a = "plain") then authrs ++ [auth.NewPlain]
    else if bool_decide (a = "digest_md5") then authrs ++ [auth.NewDigestMD5]
    else if bool_decide (a = "scram_sha_1") then
      (authrs ++ [auth.NewScram auth.ScramSHA1 false]) ++ [auth.NewScram auth.ScramSHA1 true]
    else if bool_decide (a = "scram_sha_256") then
      (authrs ++ [auth.NewScram auth.ScramSHA256 false]) ++ [auth.NewScram auth.ScramSHA256 true]
    else authrs) (SASL c) [].

(** New: the stream as it is before the actor handles anything.  The
    connect timer is armed when a timeout is configured. *)
Definition New (id : string) (tr : transport.TransportType) (cfg : Config) : stream :=
  let c := router.NewContext in
  (* initialize stream context *)
  let secured := negb (bool_decide (tr = transport.Socket)) in
  let c := router.SetBool secured securedCtxKey c in
  let domain := DefaultLocalDomain env in
  let c := router.SetString domain domainCtxKey c in
  let j := xml.NewJID (stringprep env) "" domain "" true in
  let c := router.SetObject (router.VJID j) jidCtxKey c in
  {| cfg := cfg; tr := tr; id := id;
     connectTm := bool_decide (0 < ConnectTimeout cfg)%nat;
     state := connecting; ctx := c;
     authrs := initializeAuthenticators cfg; activeAuthr := None;
     iqHandlers := []; roster := false; discoInfo := false;
     register := enabled "registration" cfg;
     ping := false; blockCmd := false; offline := false |}.

Definition setState (st : State) : M unit := modify (set_state st).
Definition modifyCtx (f : router.Context -> router.Context) : M unit :=
  modify (fun s => set_ctx (f (ctx s)) s).
Definition writeElement (element : xml.Element) : M unit := emit (WriteElement element).

Definition restart : M unit :=
  emit NewParser;;
  setState connecting.

Definition initializeModules : M unit :=
  s ← get;
  let c := cfg s in
  modify (set_discoInfo true);;
  modify (fun s => set_iqHandlers (iqHandlers s ++ [module.DiscoInfo]) s);;
  emit RegisterDefaultEntities;;
  modify (set_roster true);;
  modify (fun s => set_iqHandlers (iqHandlers s ++ [module.Roster]) s);;
  (if enabled "last_activity" c
   then modify (fun s => set_iqHandlers (iqHandlers s ++ [module.LastActivity]) s)
   else skip);;
  (if enabled "private" c
   then modify (fun s => set_iqHandlers (iqHandlers s ++ [module.Private]) s)
   else skip);;
  (if enabled "vcard" c
   then modify (fun s => set_iqHandlers (iqHandlers s ++ [module.VCard]) s)
   else skip);;
  (if register s
   then modify (fun s => set_iqHandlers (iqHandlers s ++ [module.Register]) s)
   else skip);;
  (if enabled "version" c
   then modify (fun s => set_iqHandlers (iqHandlers s ++ [module.Version]) s)
   else skip);;
  (if enabled "blocking_command" c
   then modify (set_blockCmd true);;
        modify (fun s => set_iqHandlers (iqHandlers s ++ [module.BlockingCommand]) s)
   else skip);;
  (if enabled "ping" c
   then modify (set_ping true);;
        modify (fun s => set_iqHandlers (iqHandlers s ++ [module.Ping]) s)
   else skip);;
  (if enabled "offline" c then modify (set_offline true) else skip).

Definition openStream : M unit :=
  s ← get;
  let finish (ops : xml.Element) (prolog : string) (includeClosing : bool) : M unit :=
    let ops := xml.SetAttribute "id" (uuidNew env) ops in
    let ops := xml.SetAttribute "from" (Domain s) ops in
    let ops := xml.SetAttribute "version" "1.0" ops in
    emit (WriteOpen prolog ops includeClosing) in
  match tr s with
  | transport.Socket =>
      let ops := xml.NewElementName "stream:stream" in
      let ops := xml.SetAttribute "xmlns" jabberClientNamespace ops in
      let ops := xml.SetAttribute "xmlns:stream" streamNamespace ops in
      finish ops ("<?xml version=" +:+ quote +:+ "1.0" +:+ quote +:+ "?>") false
  | transport.WebSocket =>
      let ops := xml.NewElementName "open" in
      let ops := xml.SetAttribute "xmlns" framedStreamNamespace ops in
      finish ops "" true
  | transport.Other => skip
  end.

Definition updateLogoutInfo : M unit :=
  s ← get;
  match Presence s with
  | Some presence =>
      match FetchUser env (Username s) with
      | Some usr =>
          let status := if xml.IsUnavailable presence then xml.Status presence
                        else model.LoggedOutStatus usr in
          emit (InsertOrUpdateUser
                  {| model.Username := model.Username usr;
                     model.LoggedOutStatus := status;
                     model.LoggedOutAt := now env |})
      | None => skip
      end
  | None => skip
  end.

Definition disconnectClosingStream (closeStream : bool) : M unit :=
  updateLogoutInfo;;
  s ← get;
  (match Presence s with
   | Some presence =>
       if xml.IsAvailable presence && roster s
       then emit (BroadcastPresenceAndWait (xml.NewPresence (JID s) (JID s) xml.UnavailableType))
       else skip
   | None => skip
   end);;
  (if closeStream then
     match tr s with
     | transport.Socket => emit (WriteString "</stream:stream>")
     | transport.WebSocket =>
         emit (WriteString ("<close xmlns=" +:+ quote +:+ framedStreamNamespace
                            +:+ quote +:+ " />"))
     | transport.Other => skip
     end
   else skip);;
  (* signal termination... *)
  modifyCtx router.Terminate;;
  (* unregister stream *)
  emit UnregisterStream;;
  setState disconnected;;
  emit Close.

Definition disconnectWithStreamError (err : streamerror.Error) : M unit :=
  s ← get;
  (if bool_decide (state s = connecting) then openStream else skip);;
  writeElement (streamerror.Element err);;
  disconnectClosingStream true.

Definition disconnect (err : option error) : M unit :=
  match err with
  | None => disconnectClosingStream false
  | Some (StreamErr strmErr) => disconnectWithStreamError strmErr
  | Some _ => disconnectClosingStream false
  end.

Definition unauthenticatedFeatures (s : stream) : list xml.Element :=
  let features := [] in
  let isSocketTransport := bool_decide (tr s = transport.Socket) in
  let features :=
    if isSocketTransport && negb (IsSecured s) then
      let startTLS := xml.NewElementName "starttls" in
      let startTLS := xml.SetNamespace "urn:ietf:params:xml:ns:xmpp-tls" startTLS in
      let startTLS := xml.AppendElement (xml.NewElementName "required") startTLS in
      features ++ [startTLS]
    else features in
  (* attach SASL mechanisms *)
  let shouldOfferSASL :=
    negb isSocketTransport || (isSocketTransport && IsSecured s) in
  let features :=
    if shouldOfferSASL && bool_decide (0 < List.length (authrs s))%nat then
      let mechanisms := xml.NewElementName "mechanisms" in
      let mechanisms := xml.SetNamespace saslNamespace mechanisms in
      let mechanisms :=
        fold_left (fun mechanisms athr =>
          let mechanism := xml.NewElementName "mechanism" in
          let mechanism := xml.SetText (auth.Mechanism athr) mechanism in
          xml.AppendElement mechanism mechanisms) (authrs s) mechanisms in
      features ++ [mechanisms]
    else features in
  (* allow In-band registration over encrypted stream only *)
  let allowRegistration := IsSecured s in
  if enabled "registration" (cfg s) && allowRegistration then
    let registerFeature :=
      xml.NewElementNamespace "register" "http://jabber.org/features/iq-register" in
    features ++ [registerFeature]
  else features.

Definition authenticatedFeatures (s : stream) : list xml.Element :=
  let features := [] in
  let isSocketTransport := bool_decide (tr s = transport.Socket) in
  (* attach compression feature *)
  let compressionAvailable :=
    isSocketTransport
    && negb (bool_decide (Level (Compression (cfg s)) = compress.NoCompression)) in
  let features :=
    if negb (IsCompressed s) && compressionAvailable then
      let compression :=
        xml.NewElementNamespace "compression" "http://jabber.org/features/compress" in
      let method := xml.SetText "zlib" (xml.NewElementName "method") in
      features ++ [xml.AppendElement method compression]
    else features in
  let bind := xml.NewElementNamespace "bind" "urn:ietf:params:xml:ns:xmpp-bind" in
  let bind := xml.AppendElement (xml.NewElementName "required") bind in
  let features := features ++ [bind] in
  let session := xml.NewElementNamespace "session" "urn:ietf:params:xml:ns:xmpp-session" in
  let features := features ++ [session] in
  if roster s && Versioning (Roster (Modules (cfg s))) then
    features ++ [xml.NewElementNamespace "ver" "urn:xmpp:features:rosterver"]
  else features.

Definition validateStreamElement (s : stream) (elem : xml.Element)
  : option streamerror.Error :=
  let rest :=
    let to := xml.To elem in
    if bool_decide (0 < String.length to)%nat && negb (IsLocalDomain env to)
    then Some streamerror.ErrHostUnknown
    else if negb (bool_decide (xml.Version elem = "1.0"))
    then Some streamerror.ErrUnsupportedVersion
    else None in
  match tr s with
  | transport.Socket =>
      if negb (bool_decide (xml.Name elem = "stream:stream"))
      then Some streamerror.ErrUnsupportedStanzaType
      else if negb (bool_decide (xml.Namespace elem = jabberClientNamespace))
              || negb (bool_decide (xml.Get "xmlns:stream" (xml.Attributes elem)
                                    = streamNamespace))
      then Some streamerror.ErrInvalidNamespace
      else rest
  | transport.WebSocket =>
      if negb (bool_decide (xml.Name elem = "open"))
      then Some streamerror.ErrUnsupportedStanzaType
      else if negb (bool_decide (xml.Namespace elem = framedStreamNamespace))
      then Some streamerror.ErrInvalidNamespace
      else rest
  | transport.Other => rest
  end.

Definition validateNamespace (elem : xml.Element) : option streamerror.Error :=
  let ns := xml.Namespace elem in
  if bool_decide (String.length ns = 0%nat) || bool_decide (ns = jabberClientNamespace)
  then None
  else Some streamerror.ErrInvalidNamespace.

Definition isValidFrom (s : stream) (from : string) : bool :=
  match xml.NewJIDString (stringprep env) from false with
  | Some j =>
      let userJID := JID s in
      let validFrom :=
        bool_decide (xml.Node j = xml.Node userJID)
        && bool_decide (xml.Domain j = xml.Domain userJID) in
      if bool_decide (0 < String.length (xml.Resource j))%nat
      then validFrom && bool_decide (xml.Resource j = xml.Resource userJID)
      else validFrom
  | None => false
  end.

Definition extractAddresses (s : stream) (elem : xml.Element) (validateFrom : bool)
  : error + (xml.JID * xml.JID) :=
  (* validate from JID *)
  let from := xml.From elem in
  if validateFrom && bool_decide (0 < String.length from)%nat && negb (isValidFrom s from)
  then inl (StreamErr streamerror.ErrInvalidFrom)
  else
    let fromJID := JID s in
    (* validate to JID *)
    let to := xml.To elem in
    if bool_decide (0 < String.length to)%nat then
      match xml.NewJIDString (stringprep env) (xml.To elem) false with
      | Some toJID => inr (fromJID, toJID)
      | None => inl (StanzaErr xml.ErrJidMalformed)
      end
    else inr (fromJID, xml.ToBareJID (JID s)).

Definition buildStanza (s : stream) (elem : xml.Element) (validateFrom : bool)
  : error + xml.Stanza :=
  match validateNamespace elem with
  | Some err => inl (StreamErr err)
  | None =>
      match extractAddresses s elem validateFrom with
      | inl err => inl err
      | inr (fromJID, toJID) =>
          if bool_decide (xml.Name elem = "iq") then
            match xml.NewIQFromElement elem fromJID toJID with
            | Some iq => inr (xml.StIQ iq)
            | None => inl (StanzaErr xml.ErrBadRequest)
            end
          else if bool_decide (xml.Name elem = "presence") then
            match xml.NewPresenceFromElement elem fromJID toJID with
            | Some presence => inr (xml.StPresence presence)
            | None => inl (StanzaErr xml.ErrBadRequest)
            end
          else if bool_decide (xml.Name elem = "message") then
            match xml.NewMessageFromElement elem fromJID toJID with
            | Some message => inr (xml.StMessage message)
            | None => inl (StanzaErr xml.ErrBadRequest)
            end
          else inl (StreamErr streamerror.ErrUnsupportedStanzaType)
      end
  end.

Definition handleElementError (elem : xml.Element) (err : error) : M unit :=
  match err with
  | StreamErr streamErr => disconnectWithStreamError streamErr
  | StanzaErr stanzaErr =>
      writeElement (xml.NewErrorElementFromElement elem stanzaErr [])
  | OtherErr _ => skip
  end.

Definition isComponentDomain (domain : string) : bool := false.

Definition isBlockedJID (s : stream) (jid : xml.JID) : bool :=
  if xml.IsServer jid && IsLocalDomain env (xml.Domain jid) then false
  else IsBlockedJID env jid (Username s).

(** *** TLS, compression and SASL *)

Definition proceedStartTLS : M unit :=
  s ← get;
  if IsSecured s then disconnectWithStreamError streamerror.ErrNotAuthorized
  else
    modifyCtx (router.SetBool true securedCtxKey);;
    writeElement (xml.NewElementNamespace "proceed" tlsNamespace);;
    emit StartTLS;;
    restart.

Definition compress (elem : xml.Element) : M unit :=
  s ← get;
  if IsCompressed s then disconnectWithStreamError streamerror.ErrUnsupportedStanzaType
  else
    let method := xml.Child "method" (xml.Elements elem) in
    let failure (condition : string) :=
      xml.AppendElement (xml.NewElementName condition)
        (xml.NewElementNamespace "failure" compressProtocolNamespace) in
    match method with
    | None => writeElement (failure "setup-failed")
    | Some method =>
        if bool_decide (String.length (xml.Text method) = 0%nat)
        then writeElement (failure "setup-failed")
        else if negb (bool_decide (xml.Text method = "zlib"))
        then writeElement (failure "unsupported-method")
        else
          modifyCtx (router.SetBool true compressedCtxKey);;
          writeElement (xml.NewElementNamespace "compressed" compressProtocolNamespace);;
          emit (EnableCompression (Level (Compression (cfg s))));;
          restart
    end.

(** s.activeAuthr.Reset(); s.activeAuthr = nil, when there is an active
    authenticator.  The active authenticator is one of s.authrs, held
    here by its index. *)
Definition resetActiveAuthr : M unit :=
  s ← get;
  match activeAuthr s with
  | Some i =>
      modify (fun s => set_authrs (alter auth.Reset i (authrs s)) s);;
      modify (set_activeAuthr None)
  | None => skip
  end.

Definition failAuthentication (elem : xml.Element) : M unit :=
  let failure := xml.NewElementNamespace "failure" saslNamespace in
  let failure := xml.AppendElement elem failure in
  writeElement failure;;
  resetActiveAuthr;;
  setState connected.

Definition continueAuthentication (elem : xml.Element) (i : nat)
  : M (option auth.Failure) :=
  s ← get;
  match authrs s !! i with
  | Some authr =>
      let '(authr', err) := auth.ProcessElement (authBehaviour env) authr elem in
      modify (fun s => set_authrs (<[i := authr']> (authrs s)) s);;
      (match err with
       | Some (auth.SASLError condition) => failAuthentication condition
       | Some (auth.Failed _) => failAuthentication auth.ErrSASLTemporaryAuthFailure
       | None => skip
       end);;
      mret err
  | None => mret None
  end.

Definition finishAuthentication (username : string) : M unit :=
  resetActiveAuthr;;
  s ← get;
  let j := xml.NewJID (stringprep env) username (Domain s) "" true in
  modifyCtx (router.SetString username usernameCtxKey);;
  modifyCtx (router.SetBool true authenticatedCtxKey);;
  modifyCtx (router.SetObject (router.VJID j) jidCtxKey);;
  restart.

Definition startAuthentication (elem : xml.Element) : M unit :=
  s ← get;
  let mechanism := xml.Get "mechanism" (xml.Attributes elem) in
  match list_find (fun authr => auth.Mechanism authr = mechanism) (authrs s) with
  | Some (i, _) =>
      err ← continueAuthentication elem i;
      match err with
      | Some _ => skip
      | None =>
          s ← get;
          match authrs s !! i with
          | Some authr =>
              if auth.Authenticated (authBehaviour env) authr
              then finishAuthentication (auth.Username (authBehaviour env) authr)
              else modify (set_activeAuthr (Some i));; setState authenticating
          | None => skip
          end
      end
  | None =>
      (* ...mechanism not found... *)
      let failure := xml.NewElementNamespace "failure" saslNamespace in
      let failure := xml.AppendElement (xml.NewElementName "invalid-mechanism") failure in
      writeElement failure
  end.

(** *** Resource binding and session *)

Definition bindResource (iq : xml.IQ) : M unit :=
  s ← get;
  match xml.ChildNamespace "bind" bindNamespace (xml.Elements (xml.iqElem iq)) with
  | None => writeElement (xml.NotAllowedError iq)
  | Some bind =>
      let resource :=
        match xml.Child "resource" (xml.Elements bind) with
        | Some resourceElem => xml.Text resourceElem
        | None => uuidNew env
        end in
      (* try binding... *)
      let stms := StreamsMatchingJID env (xml.ToBareJID (JID s)) in
      let stm :=
        fold_left (fun stm s' =>
          if bool_decide (router.Resource s' = resource) then Some s' else stm)
          stms None in
      let continue (resource : string) : M unit :=
        match xml.NewJID (stringprep env) (Username s) (Domain s) resource false with
        | None => writeElement (xml.BadRequestError iq)
        | Some userJID =>
            modifyCtx (router.SetString resource resourceCtxKey);;
            modifyCtx (router.SetObject (router.VJID (Some userJID)) jidCtxKey);;
            s ← get;
            (*...notify successful binding *)
            let result := xml.NewIQType (xml.ID (xml.iqElem iq)) xml.ResultType in
            let result := xml.SetNamespace (xml.Namespace (xml.iqElem iq)) result in
            let binded := xml.NewElementNamespace "bind" bindNamespace in
            let jid := xml.NewElementName "jid" in
            let jid := xml.SetText (Username s +:+ "@" +:+ Domain s +:+ "/" +:+ Resource s) jid in
            let binded := xml.AppendElement jid binded in
            let result := xml.AppendElement binded result in
            writeElement result;;
            emit AuthenticateStream
        end in
      match stm with
      | Some stm =>
          match ResourceConflict (cfg s) with
          | Override =>
              (* override the resource with a server-generated resourcepart... *)
              continue (hex.EncodeToString (sha256.Sum (bytesOfString (ID s))))
          | Replace =>
              (* terminate the session of the currently connected client... *)
              emit (DisconnectPeer stm streamerror.ErrResourceConstraint);;
              continue resource
          | Disallow =>
              (* disallow resource binding attempt... *)
              writeElement (xml.ConflictError iq)
          end
      | None => continue resource
      end
  end.

Definition startSession (iq : xml.IQ) : M unit :=
  s ← get;
  if bool_decide (String.length (Resource s) = 0%nat) then
    (* not binded yet... *)
    emit (PostDisconnect streamerror.ErrNotAuthorized)
  else
    match xml.ChildNamespace "session" sessionNamespace (xml.Elements (xml.iqElem iq)) with
    | None => writeElement (xml.NotAllowedError iq)
    | Some sess =>
        writeElement (xml.ResultIQ iq);;
        (* initialize modules *)
        initializeModules;;
        s ← get;
        (if ping s then emit StartPinging else skip);;
        setState sessionStarted
    end.

(** *** Stanza dispatch *)

Definition processComponentStanza (stanza : xml.Stanza) : M unit := skip.

Definition processIQ (iq : xml.IQ) : M unit :=
  s ← get;
  let toJID := xml.ToJID iq in
  if negb (IsLocalDomain env (xml.Domain toJID)) then skip
  else
    let node := xml.Node toJID in
    if bool_decide (0 < String.length node)%nat && IsBlockedJID env (JID s) node then
      (* destination user blocked stream JID *)
      if xml.IsGet iq || xml.IsSet iq
      then writeElement (xml.ServiceUnavailableError iq)
      else skip
    else if xml.IsFullWithUser toJID then
      emit (RouteCall (xml.StIQ iq));;
      match Route env (xml.StIQ iq) with
      | Some router.ErrResourceNotFound => writeElement (xml.ServiceUnavailableError iq)
      | _ => skip
      end
    else
      match List.find (fun handler => MatchesIQ env handler iq) (iqHandlers s) with
      | Some handler => emit (ProcessIQ handler iq)
      | None =>
          (* ...IQ not handled... *)
          if xml.IsGet iq || xml.IsSet iq
          then writeElement (xml.ServiceUnavailableError iq)
          else skip
      end.

Definition processPresence (presence : xml.Presence) : M unit :=
  s ← get;
  let toJID := xml.ToJID presence in
  if negb (IsLocalDomain env (xml.Domain toJID)) then skip
  else if xml.IsBare toJID
          && (negb (bool_decide (xml.Node toJID = Username s))
              || negb (bool_decide (xml.Domain toJID = Domain s))) then
    if roster s then emit (RosterProcessPresence presence) else skip
  else if xml.IsFullWithUser toJID then
    emit (RouteCall (xml.StPresence presence))
  else
    (* set context presence *)
    modifyCtx (router.SetObject (router.VPresence presence) presenceCtxKey);;
    (* deliver pending approval notifications *)
    (if roster s then
       s ← get;
       (if negb (router.Bool rosterOnceCtxKey (ctx s)) then
          emit DeliverPendingApprovalNotifications;;
          emit ReceivePresences;;
          modifyCtx (router.SetBool true rosterOnceCtxKey)
        else skip);;
       emit (BroadcastPresence presence)
     else skip);;
    (* deliver offline messages *)
    s ← get;
    match Presence s with
    | Some p =>
        if offline s && (0 <=? xml.Priority p)%Z then
          if negb (router.Bool offlineOnceCtxKey (ctx s)) then
            emit DeliverOfflineMessages;;
            modifyCtx (router.SetBool true offlineOnceCtxKey)
          else skip
        else skip
    | None => skip
    end.

(** The label sendMessage and what follows it: one pass of the loop that
    the goto closes.  [toJID] is the local variable of the source; the
    call of Route is on [message]. *)
Fixpoint sendMessage (fuel : nat) (message : xml.Message) (toJID : xml.JID) : M unit :=
  match fuel with
  | O => fun _ => OutOfFuel []
  | S fuel' =>
      emit (RouteCall (xml.StMessage message));;
      match Route env (xml.StMessage message) with
      | None => skip
      | Some router.ErrNotAuthenticated =>
          s ← get;
          if offline s then
            if (xml.IsChat message || xml.IsGroupChat message)
               && xml.IsMessageWithBody message
            then skip
            else emit (ArchiveMessage message)
          else skip
      | Some router.ErrResourceNotFound =>
          (* treat the stanza as if it were addressed to <node@domain> *)
          let toJID := xml.ToBareJID toJID in
          sendMessage fuel' message toJID
      | Some router.ErrNotExistingAccount | Some router.ErrBlockedJID =>
          writeElement (xml.ServiceUnavailableError message)
      | Some (router.ErrOther _) => skip
      end
  end.

Definition processMessage (fuel : nat) (message : xml.Message) : M unit :=
  let toJID := xml.ToJID message in
  if negb (IsLocalDomain env (xml.Domain toJID)) then skip
  else sendMessage fuel message toJID.

Definition processStanza (fuel : nat) (stanza : xml.Stanza) : M unit :=
  s ← get;
  let toJID := xml.ToJID stanza in
  if isBlockedJID s toJID then (* blocked JID? *)
    let blocked := xml.NewElementNamespace "blocked" blockedErrorNamespace in
    let resp := xml.NewErrorElementFromElement (xml.toElement stanza)
                  xml.ErrNotAcceptable [blocked] in
    writeElement resp
  else
    match stanza with
    | xml.StPresence stanza => processPresence stanza
    | xml.StIQ stanza => processIQ stanza
    | xml.StMessage stanza => processMessage fuel stanza
    end.

(** *** The handlers of each state *)

Definition handleConnecting (elem : xml.Element) : M unit :=
  (* cancel connection timeout timer *)
  s ← get;
  (if connectTm s then emit StopTimer;; modify (set_connectTm false) else skip);;
  (* validate stream element *)
  s ← get;
  match validateStreamElement s elem with
  | Some err => disconnectWithStreamError err
  | None =>
      (* assign stream domain *)
      modifyCtx (router.SetString (xml.To elem) domainCtxKey);;
      (* open stream *)
      openStream;;
      let features := xml.NewElementName "stream:features" in
      let features := xml.SetAttribute "xmlns:stream" streamNamespace features in
      let features := xml.SetAttribute "version" "1.0" features in
      s ← get;
      if negb (IsAuthenticated s) then
        let features := xml.AppendElements (unauthenticatedFeatures s) features in
        setState connected;;
        writeElement features
      else
        let features := xml.AppendElements (authenticatedFeatures s) features in
        setState authenticated;;
        writeElement features
  end.

Definition handleConnected (elem : xml.Element) : M unit :=
  s ← get;
  if bool_decide (xml.Name elem = "starttls") then
    if bool_decide (0 < String.length (xml.Namespace elem))%nat
       && negb (bool_decide (xml.Namespace elem = tlsNamespace))
    then disconnectWithStreamError streamerror.ErrInvalidNamespace
    else proceedStartTLS
  else if bool_decide (xml.Name elem = "auth") then
    if negb (bool_decide (xml.Namespace elem = saslNamespace))
    then disconnectWithStreamError streamerror.ErrInvalidNamespace
    else startAuthentication elem
  else if bool_decide (xml.Name elem = "iq") then
    match buildStanza s elem false with
    | inl err => handleElementError elem err
    | inr (xml.StIQ iq) =>
        if register s && MatchesIQ env module.Register iq
        then emit (ProcessIQ module.Register iq)
        else if bool_decide (is_Some (xml.ChildNamespace "query" "jabber:iq:auth"
                                        (xml.Elements (xml.iqElem iq))))
        then (* don't allow non-SASL authentication *)
          writeElement (xml.ServiceUnavailableError iq)
        else (* fallthrough *)
          disconnectWithStreamError streamerror.ErrNotAuthorized
    | inr _ => skip
    end
  else if bool_decide (xml.Name elem = "message") || bool_decide (xml.Name elem = "presence")
  then disconnectWithStreamError streamerror.ErrNotAuthorized
  else disconnectWithStreamError streamerror.ErrUnsupportedStanzaType.

Definition handleAuthenticating (elem : xml.Element) : M unit :=
  if negb (bool_decide (xml.Namespace elem = saslNamespace))
  then disconnectWithStreamError streamerror.ErrInvalidNamespace
  else
    s ← get;
    match activeAuthr s with
    | Some i =>
        continueAuthentication elem i;;
        s ← get;
        match authrs s !! i with
        | Some authr =>
            if auth.Authenticated (authBehaviour env) authr
            then finishAuthentication (auth.Username (authBehaviour env) authr)
            else skip
        | None => skip
        end
    | None => skip
    end.

Definition handleAuthenticated (elem : xml.Element) : M unit :=
  s ← get;
  if bool_decide (xml.Name elem = "compress") then
    if negb (bool_decide (xml.Namespace elem = compressProtocolNamespace))
    then disconnectWithStreamError streamerror.ErrUnsupportedStanzaType
    else compress elem
  else if bool_decide (xml.Name elem = "iq") then
    match buildStanza s elem true with
    | inl err => handleElementError elem err
    | inr (xml.StIQ iq) =>
        if bool_decide (String.length (Resource s) = 0%nat)
        then bindResource iq (* expecting bind *)
        else startSession iq (* expecting session *)
    | inr _ => skip
    end
  else disconnectWithStreamError streamerror.ErrUnsupportedStanzaType.

Definition handleSessionStarted (fuel : nat) (elem : xml.Element) : M unit :=
  (* reset ping timer deadline *)
  s ← get;
  (if ping s then emit ResetDeadline else skip);;
  match buildStanza s elem true with
  | inl err => handleElementError elem err
  | inr stanza =>
      if isComponentDomain (xml.Domain (xml.ToJID stanza))
      then processComponentStanza stanza
      else processStanza fuel stanza
  end.

Definition handleElement (fuel : nat) (elem : xml.Element) : M unit :=
  s ← get;
  let isWebSocketTr := bool_decide (tr s = transport.WebSocket) in
  if isWebSocketTr && bool_decide (xml.Name elem = "close")
     && bool_decide (xml.Namespace elem = framedStreamNamespace)
  then disconnect None
  else
    match state s with
    | connecting => handleConnecting elem
    | connected => handleConnected elem
    | authenticated => handleAuthenticated elem
    | authenticating => handleAuthenticating elem
    | sessionStarted => handleSessionStarted fuel elem
    | disconnected => skip
    end.

End Stream.

(** ** The actor *)

(** What reaches the actor of a stream through its mailbox: an element
    read from the transport, and the closures that SendElement, Disconnect
    and the connect timer post. *)
Inductive Post :=
| ReadElement (elem : xml.Element)
| SendElement (element : xml.Element)
| Disconnect (err : option error)
| ConnectTimerFired.

Definition runPost (env : Env) (fuel : nat) (p : Post) : M unit :=
  match p with
  | ReadElement elem => handleElement env fuel elem
  | SendElement element => writeElement element
  | Disconnect err => disconnect env err
  | ConnectTimerFired => disconnect env (Some (StreamErr streamerror.ErrConnectionTimeout))
  end.

(** actorLoop: the posts are run in order, each in the environment it
    meets, until the state is disconnected; what is posted after that is
    not run. *)
Fixpoint actorLoop (fuel : nat) (posts : list (Env * Post)) : M unit :=
  match posts with
  | [] => skip
  | (env, p) :: rest =>
      runPost env fuel p;;
      s ← get;
      if bool_decide (state s = disconnected) then skip
      else actorLoop fuel rest
  end.

(** ** Reading the trace *)

Definition isWrite (ev : Event) : option xml.Element :=
  match ev with WriteElement e => Some e | _ => None end.

(** The elements written on the transport, in order. *)
Definition written (out : list Event) : list xml.Element := omap isWrite out.

Definition isRouteCall (ev : Event) : bool :=
  match ev with RouteCall _ => true | _ => false end.
Definition isArchive (ev : Event) : bool :=
  match ev with ArchiveMessage _ => true | _ => false end.
Definition isDeliverPending (ev : Event) : bool :=
  match ev with DeliverPendingApprovalNotifications => true | _ => false end.
Definition isReceivePresences (ev : Event) : bool :=
  match ev with ReceivePresences => true | _ => false end.
Definition isDeliverOffline (ev : Event) : bool :=
  match ev with DeliverOfflineMessages => true | _ => false end.
Definition isOnceEvent (ev : Event) : bool :=
  isDeliverPending ev || isReceivePresences ev || isDeliverOffline ev.

(** How often an event of a kind occurs in a trace. *)
Definition count (p : Event -> bool) (out : list Event) : nat :=
  List.length (List.filter p out).

(** A stanza error reply: type error, and a last child named error that
    holds the condition. *)
Definition isStanzaError (condition : string) (resp : xml.Element) : Prop :=
  xml.Type_ resp = xml.ErrorType /\
  exists errEl, last (xml.Elements resp) = Some errEl
    /\ xml.Name errEl = "error"
    /\ is_Some (xml.Child condition (xml.Elements errEl)).

(** The reply that processStanza writes for a blocked destination. *)
Definition blockedResponse (stanza : xml.Stanza) : xml.Element :=
  xml.NewErrorElementFromElement (xml.toElement stanza) xml.ErrNotAcceptable
    [xml.NewElementNamespace "blocked" blockedErrorNamespace].

(** A stream open as validateStreamElement wants it for the transport:
    the name and namespaces it checks before it looks at the domain. *)
Definition isStreamOpen (t : transport.TransportType) (elem : xml.Element) : bool :=
  match t with
  | transport.Socket =>
      bool_decide (xml.Name elem = "stream:stream")
      && bool_decide (xml.Namespace elem = jabberClientNamespace)
      && bool_decide (xml.Get "xmlns:stream" (xml.Attributes elem) = streamNamespace)
  | transport.WebSocket =>
      bool_decide (xml.Name elem = "open")
      && bool_decide (xml.Namespace elem = framedStreamNamespace)
  | transport.Other => true
  end.

(** The mechanism names a SASL option of the configuration stands for. *)
Definition saslMechanisms (a : string) : list string :=
  if bool_decide (a = "plain") then ["PLAIN"]
  else if bool_decide (a = "digest_md5") then ["DIGEST-MD5"]
  else if bool_decide (a = "scram_sha_1") then ["SCRAM-SHA-1"; "SCRAM-SHA-1-PLUS"]
  else if bool_decide (a = "scram_sha_256") then ["SCRAM-SHA-256"; "SCRAM-SHA-256-PLUS"]
  else [].

Definition mechanismElement (name : string) : xml.Element :=
  xml.SetText name (xml.NewElementName "mechanism").

Definition startTLSFeature : xml.Element :=
  xml.AppendElement (xml.NewElementName "required")
    (xml.SetNamespace tlsNamespace (xml.NewElementName "starttls")).

Definition registerFeature : xml.Element :=
  xml.NewElementNamespace "register" "http://jabber.org/features/iq-register".

(** The mechanisms feature for a list of authenticators, and the features
    element around a list of features. *)
Definition mechanismsFeature (authrs : list auth.Authenticator) : xml.Element :=
  xml.mkElement "mechanisms" [("xmlns", saslNamespace)] ""
    ((fun athr => mechanismElement (auth.Mechanism athr)) <$> authrs).

Definition featuresElement (features : list xml.Element) : xml.Element :=
  xml.AppendElements features
    (xml.SetAttribute "version" "1.0"
       (xml.SetAttribute "xmlns:stream" streamNamespace
          (xml.NewElementName "stream:features"))).

(** The result that bindResource writes for the full JID it bound. *)
Definition bindResult (iq : xml.IQ) (fullJID : string) : xml.Element :=
  xml.AppendElement
    (xml.AppendElement (xml.SetText fullJID (xml.NewElementName "jid"))
       (xml.NewElementNamespace "bind" bindNamespace))
    (xml.SetNamespace (xml.Namespace (xml.iqElem iq))
       (xml.NewIQType (xml.ID (xml.iqElem iq)) xml.ResultType)).

(** ** Laws of handlers

    A law relates the stream before a handler to the stream and the
    events after it ([ok_done]), or to the events so far when the handler
    is still running ([ok_fuel]).  A handler obeys a law at a stream
    when its run from there is in the relation. *)
Record Law := {
  ok_done : stream -> stream -> list Event -> Prop;
  ok_fuel : stream -> list Event -> Prop;
}.

Definition obeysAt (L : Law) {A} (m : M A) (s : stream) : Prop :=
  match m s with
  | Done _ s' out => ok_done L s s' out
  | OutOfFuel out => ok_fuel L s out
  end.

Definition rosterLatch (s : stream) : bool := router.Bool rosterOnceCtxKey (ctx s).
Definition offlineLatch (s : stream) : bool := router.Bool offlineOnceCtxKey (ctx s).

Definition b2n (b : bool) : nat := if b then 1%nat else 0%nat.

(** The events of a kind are paid for by a latch: each one takes the
    latch from clear to set, and a set latch stays set. *)
Definition accounting (latch : stream -> bool) (p : Event -> bool) : Law :=
  {| ok_done := fun s s' out => (count p out + b2n (latch s) = b2n (latch s'))%nat;
     ok_fuel := fun s out => (count p out + b2n (latch s) <= 1)%nat |}.

(** What no handler changes, and the flag secured, which is only set. *)
Definition framing : Law :=
  {| ok_done := fun s s' _ =>
       cfg s' = cfg s /\ tr s' = tr s /\ id s' = id s
       /\ auth.kind <$> authrs s' = auth.kind <$> authrs s
       /\ (IsSecured s = true -> IsSecured s' = true);
     ok_fuel := fun _ _ => True |}.

(** A change of the stream value that touches none of the above. *)
Definition harmlessAt (f : stream -> stream) (s : stream) : Prop :=
  cfg (f s) = cfg s /\ tr (f s) = tr s /\ id (f s) = id s
  /\ auth.kind <$> authrs (f s) = auth.kind <$> authrs s
  /\ rosterLatch (f s) = rosterLatch s
  /\ offlineLatch (f s) = offlineLatch s
  /\ (IsSecured s = true -> IsSecured (f s) = true).

(** ** An example deployment

    One server for the domain localhost with the accounts alice, bob and
    carol; carol is bound as desktop and alice as home, bob is offline.
    The streams below are those of a client that logs in as alice. *)
Module Demo.

Definition sp : xml.Stringprep :=
  {| xml.nodeprep := Some; xml.nameprep := Some; xml.resourceprep := Some |}.

Definition accounts : list string := ["alice"; "bob"; "carol"].

Definition bound : list (string * xml.JID) :=
  [("stream-carol", xml.mkJID "carol" "localhost" "desktop");
   ("stream-alice-home", xml.mkJID "alice" "localhost" "home")].

Definition sameUser (a b : xml.JID) : bool :=
  bool_decide (xml.Node a = xml.Node b) && bool_decide (xml.Domain a = xml.Domain b).

Definition streamsMatching (j : xml.JID) : list router.C2S :=
  List.map (fun b => router.mkC2S (fst b) (xml.Resource (snd b)))
    (List.filter (fun b => sameUser (snd b) j) bound).

Definition blocklist : list (string * xml.JID) :=
  [("alice", xml.mkJID "" "localhost" ""); ("alice", xml.mkJID "mallory" "localhost" "")].

Definition isBlocked (jid : xml.JID) (username : string) : bool :=
  existsb (fun b => bool_decide (fst b = username) && sameUser (snd b) jid) blocklist.

Definition route (st : xml.Stanza) : option router.RouteError :=
  let to := xml.ToJID st in
  if negb (bool_decide (xml.Node to ∈ accounts)) then Some router.ErrNotExistingAccount
  else
    match streamsMatching to with
    | [] => Some router.ErrNotAuthenticated
    | stms =>
        if xml.IsFullWithUser to
           && negb (existsb (fun c => bool_decide (router.Resource c = xml.Resource to)) stms)
        then Some router.ErrResourceNotFound
        else None
    end.

(** PLAIN as the login of scenario S1 needs it: one element, accepted,
    for the user alice. *)
Definition behaviour : auth.Behaviour :=
  {| auth.result := fun _ _ => None;
     auth.authenticated := fun _ h => bool_decide (0 < List.length h)%nat;
     auth.username := fun _ _ => "alice" |}.

Definition env : Env :=
  {| DefaultLocalDomain := "localhost";
     IsLocalDomain := fun d => bool_decide (d = "localhost");
     StreamsMatchingJID := streamsMatching;
     Route := route;
     IsBlockedJID := isBlocked;
     FetchUser := fun _ => None;
     authBehaviour := behaviour;
     MatchesIQ := fun _ _ => false;
     stringprep := sp;
     uuidNew := "6ba7b810-9dad-11d1-80b4-00c04fd430c8";
     now := 0%nat |}.

Definition config (policy : ResourceConflictPolicy) : Config :=
  {| MaxStanzaSize := 4096; ConnectTimeout := 5;
     Compression := {| Level := compress.DefaultCompression |};
     ResourceConflict := policy;
     SASL := ["plain"; "scram_sha_1"];
     Modules := {| Enabled := {["offline"; "registration"]};
                   Roster := {| Versioning := false |} |} |}.

Definition el (name : string) (attrs : list (string * string)) (elems : list xml.Element)
  : xml.Element := xml.mkElement name attrs "" elems.

Definition streamOpen (to : string) : xml.Element :=
  el "stream:stream"
     [("to", to); ("version", "1.0"); ("xmlns", jabberClientNamespace);
      ("xmlns:stream", streamNamespace)] [].
Definition framedOpen (to : string) : xml.Element :=
  el "open" [("to", to); ("version", "1.0"); ("xmlns", framedStreamNamespace)] [].
Definition starttls : xml.Element := el "starttls" [("xmlns", tlsNamespace)] [].
Definition authPlain : xml.Element :=
  xml.mkElement "auth" [("xmlns", saslNamespace); ("mechanism", "PLAIN")]
    "AGFsaWNlAHMzY3JldA==" [].
Definition bindIQ (resource : string) : xml.Element :=
  el "iq" [("id", "b1"); ("type", "set")]
     [el "bind" [("xmlns", bindNamespace)] [xml.mkElement "resource" [] resource []]].
Definition sessionIQ : xml.Element :=
  el "iq" [("id", "s1"); ("type", "set")] [el "session" [("xmlns", sessionNamespace)] []].
Definition legacyAuthIQ : xml.Element :=
  el "iq" [("id", "a1"); ("type", "get")] [el "query" [("xmlns", "jabber:iq:auth")] []].
Definition chatTo (to : string) : xml.Element :=
  el "message" [("type", "chat"); ("to", to)] [xml.mkElement "body" [] "hi" []].
Definition presenceElem : xml.Element := el "presence" [] [].
Definition pingServer : xml.Element :=
  el "iq" [("id", "p1"); ("type", "get"); ("to", "localhost")]
     [el "ping" [("xmlns", "urn:xmpp:ping")] []].

Definition fresh (t : transport.TransportType) (policy : ResourceConflictPolicy) : stream :=
  New env "stream-1" t (config policy).

Definition after (posts : list xml.Element) (s : stream) : stream :=
  default s (final (actorLoop 1 (List.map (fun e => (env, ReadElement e)) posts) s)).

(** after the first stream open, on a socket *)
Definition opened (policy : ResourceConflictPolicy) : stream :=
  after [streamOpen "localhost"] (fresh transport.Socket policy).

(** after STARTTLS, PLAIN and the stream restarts that follow them *)
Definition loggedIn (policy : ResourceConflictPolicy) : stream :=
  after [starttls; streamOpen "localhost"; authPlain; streamOpen "localhost"]
        (opened policy).

(** after binding the resource phone and starting the session *)
Definition inSession : stream := after [bindIQ "phone"; sessionIQ] (loggedIn Disallow).

Definition stanzaOf (s : stream) (elem : xml.Element) : option xml.Stanza :=
  match buildStanza env s elem true with inr st => Some st | inl _ => None end.

End Demo.

From Stdlib Require Import DecimalString.

(** ** Reading from the transport *)

Module parser.

(** The errors of ParseElement that doRead tells apart: the two of
    package io, the two of package xml, an error of the network with its
    timeout flag, the close error of a WebSocket, and any other. *)
Inductive Error :=
| EOF | ErrUnexpectedEOF
| ErrStreamClosedByPeer | ErrTooLargeStanza
| NetError (timeout : bool)
| CloseError
| Other (msg : string).

End parser.

Section Reader.

Context (env : Env).

(** readElement, the closure that doRead posts for an element; arming
    the next read is the business of the reader task. *)
Definition readElement (fuel : nat) (elem : option xml.Element) : M unit :=
  match elem with
  | Some elem => handleElement env fuel elem
  | None => skip
  end.

(** The error with which doRead asks for the disconnect. *)
Definition discErr (s : stream) (err : parser.Error) : option error :=
  match err with
  | parser.EOF | parser.ErrUnexpectedEOF => None
  | parser.ErrStreamClosedByPeer => (* ...received </stream:stream> *)
      if negb (bool_decide (tr s = transport.Socket))
      then Some (StreamErr streamerror.ErrInvalidXML)
      else None
  | parser.ErrTooLargeStanza => Some (StreamErr streamerror.ErrPolicyViolation)
  | parser.NetError timeout =>
      if timeout then Some (StreamErr streamerror.ErrConnectionTimeout)
      else Some (StreamErr streamerror.ErrInvalidXML)
  | parser.CloseError => None (* connection closed by peer... *)
  | parser.Other _ => Some (StreamErr streamerror.ErrInvalidXML)
  end.

(** doRead: what is posted to the actor for one result of ParseElement,
    nothing when the read failed on a stream that is disconnected. *)
Definition doRead (fuel : nat) (s : stream) (parsed : option xml.Element + parser.Error)
  : option (M unit) :=
  match parsed with
  | inl elem => Some (readElement fuel elem)
  | inr err =>
      if bool_decide (state s = disconnected) then None (* already disconnected... *)
      else Some (disconnect env (discErr s err))
  end.

End Reader.

(** ** The dialer of package s2s *)

Module s2s.

(** A record of net.SRV, as far as dialTCP reads it. *)
Record SRV := mkSRV { Target : string; Port : N }.

(** strings.TrimSuffix(s, ".") *)
Fixpoint trimDot (s : string) : string :=
  match s with
  | EmptyString => EmptyString
  | String a EmptyString => if Ascii.eqb a "." then EmptyString else s
  | String a rest => String a (trimDot rest)
  end.

(** strconv.Itoa of a number that is not negative *)
Definition Itoa (n : N) : string := NilZero.string_of_uint (N.to_uint n).

(** The target that dialTCP hands to dialContext, from the addresses and
    the error of the SRV lookup; [None] is the panic of the index on an
    empty answer. *)
Definition dialTarget (remoteDomain : string) (address : list SRV) (err : bool)
  : option string :=
  if err
     || (bool_decide (List.length address = 1%nat)
         && match address with
            | a :: _ => bool_decide (Target a = ".")
            | [] => false
            end)
  then Some (remoteDomain +:+ ":5269")
  else match address with
       | a :: _ => Some (trimDot (Target a) +:+ ":" +:+ Itoa (Port a))
       | [] => None
       end.

(** strconv.ParseUint(port, 10, 16) with its error dropped, as
    scionLookup calls it: zero for a string that is not a decimal number,
    the largest 16-bit number for one that is too large. *)
Fixpoint parseDecimal (acc : N) (s : string) : option N :=
  match s with
  | EmptyString => Some acc
  | String a rest =>
      let n := N_of_ascii a in
      if (48 <=? n)%N && (n <=? 57)%N then parseDecimal (10 * acc + (n - 48))%N rest
      else None
  end.

Definition ParseUint16 (port : string) : N :=
  match port with
  | EmptyString => 0%N
  | _ => match parseDecimal 0 port with
         | Some n => if (65535 <? n)%N then 65535%N else n
         | None => 0%N
         end
  end.

(** scionLookup, over net.SplitHostPort and appnet.ResolveUDPAddr, which
    are taken as given; an address is the host that resolved and its
    port. *)
Definition scionLookup (SplitHostPort : string -> option (string * string))
    (ResolveUDPAddr : string -> option string) (remoteDomain : string)
  : option (string * N) :=
  let '(host, port) :=
    match SplitHostPort remoteDomain with
    | Some hp => hp
    | None => (remoteDomain, "52690")
    end in
  let p := ParseUint16 port in
  match ResolveUDPAddr (host +:+ ".") with
  | None => None
  | Some addr => Some (addr, p)
  end.

(** How Dial reaches the remote domain. *)
Inductive Dialed := DialQUIC (raddr : string * N) | DialTCP (target : option string).

Definition Dial (SplitHostPort : string -> option (string * string))
    (ResolveUDPAddr : string -> option string)
    (srvResolve : string -> list SRV * bool) (remoteDomain : string) : Dialed :=
  match scionLookup SplitHostPort ResolveUDPAddr remoteDomain with
  | Some scionRAddr => DialQUIC scionRAddr
  | None =>
      let '(address, err) := srvResolve remoteDomain in
      DialTCP (dialTarget remoteDomain address err)
  end.

End s2s.

(** ** The state machine and the trace, in words of the properties below *)

(** The changes of state that one post to the actor can make. *)
Definition edge (a b : State) : bool :=
  match a, b with
  | connecting, (connecting | connected | authenticated | disconnected) => true
  | connected, (connected | connecting | authenticating | disconnected) => true
  | authenticating, (authenticating | connected | connecting | disconnected) => true
  | authenticated, (authenticated | connecting | sessionStarted | disconnected) => true
  | sessionStarted, (sessionStarted | disconnected) => true
  | disconnected, disconnected => true
  | _, _ => false
  end.

(** What holds of the result and the stream when a run ends. *)
Definition post {A} (Q : A -> stream -> Prop) (r : Res A) : Prop :=
  match r with
  | Done a s' _ => Q a s'
  | OutOfFuel _ => True
  end.

(** The events of an established session: calls of the router to route,
    of the roster, of the offline module, and of the IQ handlers other
    than registration. *)
Definition isSessionEvent (ev : Event) : bool :=
  match ev with
  | RouteCall _ | ArchiveMessage _ | RosterProcessPresence _
  | DeliverPendingApprovalNotifications | ReceivePresences | BroadcastPresence _
  | DeliverOfflineMessages => true
  | ProcessIQ h _ =>
      match h with module.Register => false | _ => true end
  | _ => false
  end.

Definition quietEvent (ev : Event) : Prop := isSessionEvent ev = false.

(** Every event of a run satisfies [P]. *)
Definition says (P : Event -> Prop) {A} (m : M A) : Prop :=
  forall s, Forall P (events (m s)).

(** The order in which initializeModules appends the IQ handlers, and
    which of them a stream with its configuration has. *)
Definition moduleOrder : list module.IQHandler :=
  [module.DiscoInfo; module.Roster; module.LastActivity; module.Private;
   module.VCard; module.Register; module.Version; module.BlockingCommand;
   module.Ping].

Definition moduleEnabled (s : stream) (h : module.IQHandler) : bool :=
  match h with
  | module.DiscoInfo | module.Roster => true
  | module.LastActivity => enabled "last_activity" (cfg s)
  | module.Private => enabled "private" (cfg s)
  | module.VCard => enabled "vcard" (cfg s)
  | module.Register => register s
  | module.Version => enabled "version" (cfg s)
  | module.BlockingCommand => enabled "blocking_command" (cfg s)
  | module.Ping => enabled "ping" (cfg s)
  end.

(** What the state of a stream says about the rest of it: the modules
    are there in a started session and not before, a session has a
    resource, and the flag authenticated is clear while authentication is
    still to be done and set once it is done.  The registration module is
    there from the start when the configuration enables it. *)
Definition wellFormed (s : stream) : Prop :=
  register s = enabled "registration" (cfg s)
  /\ match state s with
     | connecting => roster s = false /\ iqHandlers s = []
     | connected | authenticating =>
         IsAuthenticated s = false /\ roster s = false /\ iqHandlers s = []
     | authenticated =>
         IsAuthenticated s = true /\ roster s = false /\ iqHandlers s = []
     | sessionStarted =>
         IsAuthenticated s = true /\ Resource s <> "" /\ roster s = true
         /\ iqHandlers s = filter (fun h => moduleEnabled s h) moduleOrder
     | disconnected => True
     end.

(** The IQ handlers that a configuration asks for. *)
Definition configured (c : Config) (h : module.IQHandler) : bool :=
  match h with
  | module.DiscoInfo | module.Roster => true
  | module.LastActivity => enabled "last_activity" c
  | module.Private => enabled "private" c
  | module.VCard => enabled "vcard" c
  | module.Register => enabled "registration" c
  | module.Version => enabled "version" c
  | module.BlockingCommand => enabled "blocking_command" c
  | module.Ping => enabled "ping" c
  end.

Definition isWriteOpen (ev : Event) : bool :=
  match ev with WriteOpen _ _ _ => true | _ => false end.
Definition isEnableCompression (ev : Event) : bool :=
  match ev with EnableCompression _ => true | _ => false end.
Definition isWriteString (ev : Event) : bool :=
  match ev with WriteString _ => true | _ => false end.

(** What handleSessionStarted does before it looks at the element. *)
Definition deadline (s : stream) : list Event :=
  if ping s then [ResetDeadline] else [].

(** More elements for the streams of the example deployment. *)
Module Scenes.

Definition messageTo (type to : string) : xml.Element :=
  Demo.el "message" [("type", type); ("to", to)] [xml.mkElement "body" [] "hi" []].

Definition compressWith (method : string) : xml.Element :=
  Demo.el "compress" [("xmlns", compressProtocolNamespace)]
    [xml.mkElement "method" [] method []].

End Scenes.

(** * Properties *)

(** ** SHA-256: the test vectors of FIPS 180-4 *)

Example sha256_constants :
  List.firstn 2 sha256.K = [0x428a2f98; 0x71374491]%N
  /\ List.last sha256.K 0%N = 0xc67178f2%N
  /\ List.length sha256.K = 64%nat
  /\ List.firstn 2 sha256.H0 = [0x6a09e667; 0xbb67ae85]%N
  /\ List.length sha256.H0 = 8%nat.
Proof. vm_compute. repeat split; reflexivity. Qed.

Example sha256_abc :
  hex.EncodeToString (sha256.Sum (bytesOfString "abc"))
  = "ba7816bf8f01cfea414140de5dae2223b00361a396177a9cb410ff61f20015ad".
Proof. vm_compute. reflexivity. Qed.

Example sha256_empty :
  hex.EncodeToString (sha256.Sum (bytesOfString ""))
  = "e3b0c44298fc1c149afbf4c8996fb92427ae41e4649b934ca495991b7852b855".
Proof. vm_compute. reflexivity. Qed.

Example sha256_two_blocks :
  hex.EncodeToString (sha256.Sum (bytesOfString
    "abcdbcdecdefdefgefghfghighijhijkijkljklmklmnlmnomnopnopq"))
  = "248d6a61d20638b8e5c026930c3e6039a33ce45964ff2167f6ecedd419db06c1".
Proof. vm_compute. reflexivity. Qed.

(** ** The monad and the trace *)

Lemma bind_unfold {A B} (m : M A) (f : A -> M B) (s : stream) :
  (m ≫= f) s = match m s with
               | Done a s' out =>
                   match f a s' with
                   | Done b s'' out' => Done b s'' (out ++ out')
                   | OutOfFuel out' => OutOfFuel (out ++ out')
                   end
               | OutOfFuel out => OutOfFuel out
               end.
Proof. reflexivity. Qed.

Ltac unfold_m :=
  unfold skip, writeElement, setState, modifyCtx, restart, get, emit, modify,
    mret, M_ret, mbind, M_bind in *.

(** Split on the first test a handler makes. *)
Ltac split_test :=
  match goal with
  | |- context [if ?b then _ else _] =>
      lazymatch b with
      | context [if _ then _ else _] => fail
      | context [match _ with _ => _ end] => fail
      | _ => destruct b eqn:?
      end
  | |- context [match ?x with _ => _ end] =>
      lazymatch x with
      | context [if _ then _ else _] => fail
      | context [match _ with _ => _ end] => fail
      | _ => destruct x eqn:?
      end
  end.

Lemma count_app (p : Event -> bool) (l1 l2 : list Event) :
  count p (l1 ++ l2) = (count p l1 + count p l2)%nat.
Proof. unfold count. rewrite List.filter_app, List.length_app. reflexivity. Qed.

Lemma written_app (l1 l2 : list Event) : written (l1 ++ l2) = written l1 ++ written l2.
Proof. unfold written. apply omap_app. Qed.

Lemma count_repeat (p : Event -> bool) (ev : Event) (n : nat) :
  p ev = true -> count p (repeat ev n) = n.
Proof.
  intros Hp. unfold count. induction n as [|n IH]; [reflexivity|].
  cbn [repeat List.filter]. rewrite Hp. cbn [List.length]. rewrite IH. reflexivity.
Qed.

(** ** Elements *)

Lemma Get_setAttribute (label value : string) (attrs : list (string * string)) :
  xml.Get label (xml.setAttribute label value attrs) = value.
Proof.
  induction attrs as [|[k v] rest IH]; cbn [xml.setAttribute xml.Get].
  - rewrite bool_decide_eq_true_2; reflexivity.
  - destruct (bool_decide (k = label)) eqn:Hk; cbn [xml.Get]; rewrite Hk; auto.
Qed.

Lemma Type_NewErrorElementFromElement elem err extra :
  xml.Type_ (xml.NewErrorElementFromElement elem err extra) = xml.ErrorType.
Proof.
  destruct elem as [n a t c]. unfold xml.NewErrorElementFromElement, xml.Type_.
  cbn. apply Get_setAttribute.
Qed.

Lemma Elements_NewErrorElementFromElement elem err extra :
  xml.Elements (xml.NewErrorElementFromElement elem err extra)
  = xml.Elements elem
    ++ [xml.mkElement "error" [("type", xml.stanzaErrorType err)] ""
          (xml.NewElementNamespace (xml.stanzaErrorCondition err)
             "urn:ietf:params:xml:ns:xmpp-stanzas" :: extra)].
Proof. destruct elem as [n a t c]. reflexivity. Qed.

Lemma NewErrorElementFromElement_isStanzaError elem err extra :
  isStanzaError (xml.stanzaErrorCondition err)
    (xml.NewErrorElementFromElement elem err extra).
Proof.
  split; [apply Type_NewErrorElementFromElement|].
  rewrite Elements_NewErrorElementFromElement. eexists. split; [apply last_snoc|].
  split; [reflexivity|]. unfold xml.Child. cbn [List.find xml.Name xml.Elements
    xml.NewElementNamespace xml.SetNamespace xml.SetAttribute xml.NewElementName].
  rewrite bool_decide_eq_true_2 by reflexivity. eauto.
Qed.

Lemma stanzaErrorCondition_inj e1 e2 :
  xml.stanzaErrorCondition e1 = xml.stanzaErrorCondition e2 -> e1 = e2.
Proof. destruct e1, e2; cbn; intros H; first [reflexivity | discriminate H]. Qed.

Lemma NewErrorElementFromElement_inj elem1 elem2 err1 err2 extra1 extra2 :
  xml.NewErrorElementFromElement elem1 err1 extra1
  = xml.NewErrorElementFromElement elem2 err2 extra2 ->
  err1 = err2 /\ extra1 = extra2.
Proof.
  intros H. apply (f_equal xml.Elements) in H.
  rewrite !Elements_NewErrorElementFromElement in H.
  apply app_inj_tail in H as [_ H]. injection H as _ Hc He.
  split; [|assumption]. apply stanzaErrorCondition_inj.
  unfold xml.NewElementNamespace, xml.SetNamespace, xml.SetAttribute,
    xml.NewElementName in Hc. cbn in Hc. congruence.
Qed.

(** ** Building stanzas *)

Lemma NewIQFromElement_Some elem from to iq :
  xml.NewIQFromElement elem from to = Some iq ->
  xml.Name elem = "iq" /\ iq = xml.mkIQ elem from to.
Proof.
  unfold xml.NewIQFromElement. intros H.
  destruct (bool_decide (xml.Name elem = "iq")) eqn:Hn; [|discriminate H].
  apply bool_decide_eq_true_1 in Hn. cbn [negb] in H.
  repeat match type of H with
         | (if ?b then _ else _) = _ => destruct b; [discriminate H|]
         end.
  split; congruence.
Qed.

Lemma buildStanza_iq env s elem validateFrom iq :
  buildStanza env s elem validateFrom = inr (xml.StIQ iq) ->
  xml.Name elem = "iq" /\ xml.iqElem iq = elem.
Proof.
  unfold buildStanza. intros H.
  destruct (validateNamespace elem); [discriminate H|].
  destruct (extractAddresses env s elem validateFrom) as [?|[fromJID toJID]];
    [discriminate H|].
  destruct (bool_decide (xml.Name elem = "iq")) eqn:Hn.
  - destruct (xml.NewIQFromElement elem fromJID toJID) as [iq'|] eqn:Hiq;
      [|discriminate H].
    apply NewIQFromElement_Some in Hiq as [? ->]. injection H as <-. auto.
  - repeat match type of H with
           | (if ?b then _ else _) = _ => destruct b
           | match ?x with _ => _ end = _ => destruct x
           end; discriminate H.
Qed.

(** ** Stanza dispatch: what is written back *)

Ltac solve_written :=
  cbn; let Hin := fresh "Hin" in intros Hin;
  repeat match type of Hin with
         | _ ∈ _ :: _ => apply elem_of_cons in Hin as [Hin|Hin]; [exact Hin|]
         end;
  by apply elem_of_nil in Hin.

Lemma processIQ_written env iq s e :
  e ∈ written (events (processIQ env iq s)) -> e = xml.ServiceUnavailableError iq.
Proof.
  unfold processIQ. unfold_m. repeat split_test; solve_written.
Qed.

Lemma processPresence_written env presence s :
  written (events (processPresence env presence s)) = [].
Proof.
  unfold processPresence. unfold_m. repeat split_test; reflexivity.
Qed.

Lemma sendMessage_written env fuel message toJID s e :
  e ∈ written (events (sendMessage env fuel message toJID s)) ->
  e = xml.ServiceUnavailableError message.
Proof.
  revert toJID s. induction fuel as [|fuel IH]; intros toJID s; [solve_written|].
  cbn [sendMessage]. rewrite bind_unfold. unfold emit at 1.
  destruct (Route env (xml.StMessage message)) as [[]|].
  all: try (unfold_m; repeat split_test; solve_written).
  specialize (IH (xml.ToBareJID toJID) s).
  destruct (sendMessage env fuel message (xml.ToBareJID toJID) s); cbn in *; exact IH.
Qed.

Lemma processMessage_written env fuel message s e :
  e ∈ written (events (processMessage env fuel message s)) ->
  e = xml.ServiceUnavailableError message.
Proof.
  unfold processMessage. split_test; [solve_written|]. apply sendMessage_written.
Qed.

(** ** Messages to an offline or unknown resource *)

Lemma sendMessage_resource_not_found env (message : xml.Message) :
  Route env (xml.StMessage message) = Some router.ErrResourceNotFound ->
  forall fuel toJID s,
    sendMessage env fuel message toJID s
    = OutOfFuel (repeat (RouteCall (xml.StMessage message)) fuel).
Proof.
  intros HR. induction fuel as [|fuel IH]; intros toJID s; [reflexivity|].
  cbn [sendMessage]. rewrite HR, bind_unfold. unfold emit at 1.
  rewrite IH. reflexivity.
Qed.

(** C1, on the code: a chat or groupchat message with a body whose
    recipient is offline is handed to the router once and then dropped;
    with the offline module enabled it is not archived, and nothing is
    written back to the sender. *)
Theorem C1_chat_with_body_not_archived (env : Env) (fuel : nat) (s : stream)
    (message : xml.Message) :
  IsLocalDomain env (xml.Domain (xml.ToJID message)) = true ->
  Route env (xml.StMessage message) = Some router.ErrNotAuthenticated ->
  offline s = true ->
  xml.IsChat message || xml.IsGroupChat message = true ->
  xml.IsMessageWithBody message = true ->
  processMessage env (S fuel) message s = Done tt s [RouteCall (xml.StMessage message)].
Proof.
  intros Hlocal Hroute Hoffline Hchat Hbody. unfold processMessage.
  rewrite Hlocal. cbn [negb sendMessage]. rewrite Hroute. unfold_m.
  rewrite Hoffline, Hchat, Hbody. reflexivity.
Qed.

(** Scenario S4 on the example deployment: the chat message to the
    offline bob. *)
Lemma C1_chat_with_body_not_archived_witness :
  exists message,
    Demo.stanzaOf Demo.inSession (Demo.chatTo "bob@localhost")
      = Some (xml.StMessage message)
    /\ processMessage Demo.env 2 message Demo.inSession
       = Done tt Demo.inSession [RouteCall (xml.StMessage message)].
Proof.
  eexists. split; [vm_compute; reflexivity|].
  apply (C1_chat_with_body_not_archived Demo.env 1 Demo.inSession);
    vm_compute; reflexivity.
Defined.

(** The other messages to an offline recipient are archived, and nothing
    is written back either. *)
Lemma processMessage_offline_archives (env : Env) (fuel : nat) (s : stream)
    (message : xml.Message) :
  IsLocalDomain env (xml.Domain (xml.ToJID message)) = true ->
  Route env (xml.StMessage message) = Some router.ErrNotAuthenticated ->
  offline s = true ->
  (xml.IsChat message || xml.IsGroupChat message) && xml.IsMessageWithBody message = false ->
  processMessage env (S fuel) message s
  = Done tt s [RouteCall (xml.StMessage message); ArchiveMessage message].
Proof.
  intros Hlocal Hroute Hoffline Hother. unfold processMessage.
  rewrite Hlocal. cbn [negb sendMessage]. rewrite Hroute. unfold_m.
  rewrite Hoffline, Hother. reflexivity.
Qed.

(** Scenario S4 from the element on: one call of Route, no archive, no
    reply, the stream as it was. *)
Example S4_message_to_offline_user :
  let run := handleElement Demo.env 2 (Demo.chatTo "bob@localhost")
               Demo.inSession in
  offline Demo.inSession = true
  /\ count isRouteCall (events run) = 1%nat
  /\ count isArchive (events run) = 0%nat
  /\ written (events run) = []
  /\ final run = Some Demo.inSession.
Proof. vm_compute. repeat split; reflexivity. Qed.

Example headline_to_offline_user_archived :
  let run := handleElement Demo.env 2
               (Demo.el "message" [("type", "headline"); ("to", "bob@localhost")]
                  [xml.mkElement "body" [] "news" []])
               Demo.inSession in
  count isRouteCall (events run) = 1%nat
  /\ count isArchive (events run) = 1%nat
  /\ written (events run) = [].
Proof. vm_compute. repeat split; reflexivity. Qed.

(** C2, on the code: when the router answers resource_not_found for a
    message to a local domain, every pass hands the same message to the
    router again, so the router answers the same; whatever the number of
    passes allowed, dispatch is still running after that many calls of
    Route. *)
Theorem C2_resource_not_found_reroutes_forever (env : Env) (s : stream)
    (message : xml.Message) :
  IsLocalDomain env (xml.Domain (xml.ToJID message)) = true ->
  Route env (xml.StMessage message) = Some router.ErrResourceNotFound ->
  forall fuel,
    processMessage env fuel message s
      = OutOfFuel (repeat (RouteCall (xml.StMessage message)) fuel)
    /\ count isRouteCall (events (processMessage env fuel message s)) = fuel.
Proof.
  intros Hlocal Hroute fuel. unfold processMessage. rewrite Hlocal. cbn [negb].
  rewrite (sendMessage_resource_not_found env message Hroute). split; [reflexivity|].
  cbn [events]. apply count_repeat. reflexivity.
Qed.

(** A message to carol's resource phone, when carol is bound as desktop
    only: after three calls of Route dispatch has not ended. *)
Lemma C2_resource_not_found_reroutes_forever_witness :
  exists message,
    Demo.stanzaOf Demo.inSession (Demo.chatTo "carol@localhost/phone")
      = Some (xml.StMessage message)
    /\ Demo.route (xml.StMessage
         (xml.mkMessage (xml.msgElem message) (xml.msgFrom message)
                        (xml.ToBareJID (xml.msgTo message)))) = None
    /\ final (processMessage Demo.env 3 message Demo.inSession) = None
    /\ count isRouteCall (events (processMessage Demo.env 3 message Demo.inSession)) = 3%nat.
Proof.
  eexists. split; [vm_compute; reflexivity|]. split; [vm_compute; reflexivity|].
  match goal with
  | |- context [processMessage _ _ ?m _] =>
      destruct (C2_resource_not_found_reroutes_forever Demo.env Demo.inSession m)
        with (fuel := 3%nat) as [Hrun Hcount]
  end; [vm_compute; reflexivity | vm_compute; reflexivity |].
  split; [rewrite Hrun; reflexivity | exact Hcount].
Defined.

(** The same from the element on, with room for five passes: five calls
    of Route, and no end. *)
Example message_to_unknown_resource_runs_on :
  let run := handleElement Demo.env 5 (Demo.chatTo "carol@localhost/phone")
               Demo.inSession in
  count isRouteCall (events run) = 5%nat /\ final run = None.
Proof. vm_compute. split; reflexivity. Qed.

(** ** Blocking *)

(** C9: a destination that is a server JID of a local domain is never
    taken as blocked, whatever the blocklist of the router holds, and the
    reply for a blocked destination is not among the elements that the
    dispatch of such a stanza writes. *)
Theorem C9_server_jid_never_blocked (env : Env) (fuel : nat) (s : stream)
    (stanza : xml.Stanza) :
  xml.IsServer (xml.ToJID stanza) = true ->
  IsLocalDomain env (xml.Domain (xml.ToJID stanza)) = true ->
  isBlockedJID env s (xml.ToJID stanza) = false
  /\ blockedResponse stanza ∉ written (events (processStanza env fuel stanza s)).
Proof.
  intros Hserver Hlocal.
  assert (Hnot : isBlockedJID env s (xml.ToJID stanza) = false).
  { unfold isBlockedJID. rewrite Hserver, Hlocal. reflexivity. }
  split; [exact Hnot|].
  unfold processStanza. rewrite bind_unfold. unfold get at 1. rewrite Hnot.
  intros Hin.
  assert (Hsu : exists elem,
    blockedResponse stanza
    = xml.NewErrorElementFromElement elem xml.ErrServiceUnavailable []).
  { destruct stanza as [iq|presence|message].
    - destruct (processIQ env iq s) eqn:Hrun; cbn [events app] in Hin;
        exists (xml.iqElem iq);
        apply (processIQ_written env iq s); rewrite Hrun; exact Hin.
    - exfalso. pose proof (processPresence_written env presence s) as Hw.
      destruct (processPresence env presence s); cbn [events app] in Hin, Hw;
        rewrite Hw in Hin; by apply elem_of_nil in Hin.
    - destruct (processMessage env fuel message s) eqn:Hrun; cbn [events app] in Hin;
        exists (xml.msgElem message);
        apply (processMessage_written env fuel message s); rewrite Hrun; exact Hin. }
  destruct Hsu as [elem Heq]. unfold blockedResponse in Heq.
  apply NewErrorElementFromElement_inj in Heq as [Heq _]. discriminate Heq.
Qed.

(** A ping to the server itself, on the example deployment, whose
    blocklist for alice holds the server JID. *)
Lemma C9_server_jid_never_blocked_witness :
  exists stanza,
    Demo.stanzaOf Demo.inSession Demo.pingServer = Some stanza
    /\ Demo.isBlocked (xml.ToJID stanza) (Username Demo.inSession) = true
    /\ isBlockedJID Demo.env Demo.inSession (xml.ToJID stanza) = false
    /\ blockedResponse stanza
       ∉ written (events (processStanza Demo.env 1 stanza Demo.inSession)).
Proof.
  eexists. split; [vm_compute; reflexivity|]. split; [vm_compute; reflexivity|].
  apply (C9_server_jid_never_blocked Demo.env 1 Demo.inSession);
    vm_compute; reflexivity.
Defined.

(** ** The stream context *)

Ltac ctx_simpl :=
  unfold Username, Domain, Resource, JID, IsSecured, IsAuthenticated, IsCompressed,
    Presence, router.String, router.Bool, router.Object, router.SetString,
    router.SetBool, router.SetObject, router.Terminate;
  cbn [router.values router.terminated ctx set_ctx set_state];
  rewrite ?lookup_insert_eq;
  repeat (rewrite lookup_insert_ne by discriminate);
  rewrite ?lookup_insert_eq.

(** ** The actor loop *)

Lemma actorLoop_cons env fuel p rest s s' out :
  runPost env fuel p s = Done tt s' out ->
  state s' <> disconnected ->
  actorLoop fuel ((env, p) :: rest) s
  = match actorLoop fuel rest s' with
    | Done b s'' out' => Done b s'' (out ++ out')
    | OutOfFuel out' => OutOfFuel (out ++ out')
    end.
Proof.
  intros Hrun Hstate. cbn [actorLoop]. rewrite bind_unfold, Hrun.
  rewrite bind_unfold. unfold get at 1.
  rewrite bool_decide_eq_false_2 by exact Hstate.
  destruct (actorLoop fuel rest s'); reflexivity.
Qed.

Lemma actorLoop_stop env fuel p rest s s' out :
  runPost env fuel p s = Done tt s' out ->
  state s' = disconnected ->
  actorLoop fuel ((env, p) :: rest) s = Done tt s' out.
Proof.
  intros Hrun Hstate. cbn [actorLoop]. rewrite bind_unfold, Hrun.
  rewrite bind_unfold. unfold get at 1.
  rewrite bool_decide_eq_true_2 by exact Hstate.
  cbn. rewrite !app_nil_r. reflexivity.
Qed.

(** ** Resource binding *)

Lemma collision_keeps (resource : string) (stms : list router.C2S)
    (init : option router.C2S) :
  is_Some init ->
  is_Some (fold_left (fun stm s' =>
             if bool_decide (router.Resource s' = resource) then Some s' else stm)
           stms init).
Proof.
  revert init. induction stms as [|s' stms IH]; intros init Hinit; [exact Hinit|].
  cbn [fold_left]. apply IH. destruct (bool_decide _); eauto.
Qed.

(** The scan of bindResource over the streams of the bare JID finds a
    stream when one of them has the resource. *)
Lemma collision_found (resource : string) (stms : list router.C2S) (stm : router.C2S)
    (init : option router.C2S) :
  stm ∈ stms -> router.Resource stm = resource ->
  is_Some (fold_left (fun stm s' =>
             if bool_decide (router.Resource s' = resource) then Some s' else stm)
           stms init).
Proof.
  intros Hin Hres. revert init.
  induction Hin as [stm stms|stm other stms Hin IH]; intros init.
  - cbn [fold_left]. rewrite bool_decide_eq_true_2 by exact Hres.
    apply collision_keeps. eauto.
  - apply IH, Hres.
Qed.

Lemma handleElement_authenticated_iq env fuel s elem iq :
  state s = authenticated ->
  buildStanza env s elem true = inr (xml.StIQ iq) ->
  handleElement env fuel elem s
  = if bool_decide (String.length (Resource s) = 0%nat)
    then bindResource env iq s else startSession iq s.
Proof.
  intros Hstate Hbuild.
  destruct (buildStanza_iq _ _ _ _ _ Hbuild) as [Hname _].
  unfold handleElement. rewrite bind_unfold. unfold get at 1.
  rewrite Hstate, Hname.
  rewrite (bool_decide_eq_false_2 ("iq" = "close")) by discriminate.
  rewrite andb_false_r. cbn [andb].
  unfold handleAuthenticated. rewrite bind_unfold. unfold get at 1.
  rewrite Hname, Hbuild.
  rewrite (bool_decide_eq_false_2 ("iq" = "compress")) by discriminate.
  rewrite (bool_decide_eq_true_2 ("iq" = "iq")) by reflexivity.
  destruct (bool_decide (String.length (Resource s) = 0%nat));
    [destruct (bindResource env iq s) | destruct (startSession iq s)];
    reflexivity.
Qed.

(** C3: under the policy disallow, a bind request on an authenticated
    stream without a resource, whose requested resource is that of a
    stream bound to the same bare JID, is answered with the conflict
    stanza error alone and leaves the stream as it was; nothing is set in
    the context, the router is not called to register the stream, and
    the same request handled again has the same answer. *)
Theorem C3_bind_conflict_disallow (env : Env) (fuel : nat) (s : stream)
    (elem : xml.Element) (iq : xml.IQ) (bind resourceElem : xml.Element)
    (stm : router.C2S) :
  state s = authenticated ->
  Resource s = "" ->
  ResourceConflict (cfg s) = Disallow ->
  buildStanza env s elem true = inr (xml.StIQ iq) ->
  xml.ChildNamespace "bind" bindNamespace (xml.Elements (xml.iqElem iq)) = Some bind ->
  xml.Child "resource" (xml.Elements bind) = Some resourceElem ->
  stm ∈ StreamsMatchingJID env (xml.ToBareJID (JID s)) ->
  router.Resource stm = xml.Text resourceElem ->
  handleElement env fuel elem s = Done tt s [WriteElement (xml.ConflictError iq)]
  /\ isStanzaError "conflict" (xml.ConflictError iq)
  /\ actorLoop fuel [(env, ReadElement elem); (env, ReadElement elem)] s
     = Done tt s [WriteElement (xml.ConflictError iq); WriteElement (xml.ConflictError iq)].
Proof.
  intros Hstate Hres Hpolicy Hbuild Hbind Hchild Hin Hsame.
  assert (Hrun : handleElement env fuel elem s
                 = Done tt s [WriteElement (xml.ConflictError iq)]).
  { rewrite (handleElement_authenticated_iq env fuel s elem iq Hstate Hbuild).
    rewrite Hres. cbn [String.length]. rewrite bool_decide_eq_true_2 by reflexivity.
    unfold bindResource. rewrite bind_unfold. unfold get at 1.
    rewrite Hbind, Hchild.
    destruct (collision_found (xml.Text resourceElem) _ stm None Hin Hsame)
      as [found Hfound].
    rewrite Hfound, Hpolicy. reflexivity. }
  split; [exact Hrun|].
  split; [apply (NewErrorElementFromElement_isStanzaError _ xml.ErrConflict)|].
  rewrite (actorLoop_cons env fuel (ReadElement elem) _ s s _ Hrun)
    by (rewrite Hstate; discriminate).
  rewrite (actorLoop_cons env fuel (ReadElement elem) _ s s _ Hrun)
    by (rewrite Hstate; discriminate).
  reflexivity.
Qed.

(** Alice, logged in, asks for the resource home, which another of her
    streams holds. *)
Lemma C3_bind_conflict_disallow_witness :
  exists iq : xml.IQ,
    handleElement Demo.env 1 (Demo.bindIQ "home") (Demo.loggedIn Disallow)
      = Done tt (Demo.loggedIn Disallow) [WriteElement (xml.ConflictError iq)]
    /\ isStanzaError "conflict" (xml.ConflictError iq)
    /\ actorLoop 1 [(Demo.env, ReadElement (Demo.bindIQ "home"));
                    (Demo.env, ReadElement (Demo.bindIQ "home"))]
         (Demo.loggedIn Disallow)
       = Done tt (Demo.loggedIn Disallow)
           [WriteElement (xml.ConflictError iq); WriteElement (xml.ConflictError iq)].
Proof.
  eexists.
  eapply (C3_bind_conflict_disallow Demo.env 1 (Demo.loggedIn Disallow)
            (Demo.bindIQ "home") _ _ _
            (router.mkC2S "stream-alice-home" "home")).
  - vm_compute; reflexivity.
  - vm_compute; reflexivity.
  - vm_compute; reflexivity.
  - vm_compute; reflexivity.
  - vm_compute; reflexivity.
  - vm_compute; reflexivity.
  - vm_compute. apply list_elem_of_singleton. reflexivity.
  - vm_compute; reflexivity.
Defined.

(** C4: under the policy override, when the resource of a bind request
    is that of a stream bound to the same bare JID, the resource that is
    bound is the hex encoding of the SHA-256 hash of the stream id; when
    the JID it forms with the user name and the domain of the stream is
    valid, it is set in the context, the bind result carries the text
    node@domain/resource with that resource, and the stream is registered
    with the router. *)
Theorem C4_bind_conflict_override (env : Env) (fuel : nat) (s : stream)
    (elem : xml.Element) (iq : xml.IQ) (bind : xml.Element) (stm : router.C2S)
    (userJID : xml.JID) :
  let requested := match xml.Child "resource" (xml.Elements bind) with
                   | Some resourceElem => xml.Text resourceElem
                   | None => uuidNew env
                   end in
  let minted := hex.EncodeToString (sha256.Sum (bytesOfString (ID s))) in
  state s = authenticated ->
  Resource s = "" ->
  ResourceConflict (cfg s) = Override ->
  buildStanza env s elem true = inr (xml.StIQ iq) ->
  xml.ChildNamespace "bind" bindNamespace (xml.Elements (xml.iqElem iq)) = Some bind ->
  stm ∈ StreamsMatchingJID env (xml.ToBareJID (JID s)) ->
  router.Resource stm = requested ->
  xml.NewJID (stringprep env) (Username s) (Domain s) minted false = Some userJID ->
  exists s',
    handleElement env fuel elem s
    = Done tt s' [WriteElement
                    (bindResult iq (Username s +:+ "@" +:+ Domain s +:+ "/" +:+ minted));
                  AuthenticateStream]
    /\ Resource s' = minted
    /\ JID s' = userJID
    /\ Username s' = Username s /\ Domain s' = Domain s
    /\ state s' = authenticated.
Proof.
  intros requested minted Hstate Hres Hpolicy Hbuild Hbind Hin Hsame Hjid.
  rewrite (handleElement_authenticated_iq env fuel s elem iq Hstate Hbuild).
  rewrite Hres. cbn [String.length]. rewrite bool_decide_eq_true_2 by reflexivity.
  unfold bindResource. rewrite bind_unfold. unfold get at 1. rewrite Hbind.
  destruct (collision_found requested _ stm None Hin Hsame) as [found Hfound].
  fold requested. rewrite Hfound, Hpolicy.
  fold minted. rewrite Hjid.
  set (s1 := set_ctx (router.SetString minted resourceCtxKey (ctx s)) s).
  set (s' := set_ctx (router.SetObject (router.VJID (Some userJID)) jidCtxKey (ctx s1)) s1).
  assert (Hu : Username s' = Username s) by (subst s' s1; ctx_simpl; reflexivity).
  assert (Hd : Domain s' = Domain s) by (subst s' s1; ctx_simpl; reflexivity).
  assert (Hr : Resource s' = minted) by (subst s' s1; ctx_simpl; reflexivity).
  exists s'. split.
  - unfold_m. cbn [app]. fold s1. fold s'. rewrite Hu, Hd, Hr. reflexivity.
  - split; [exact Hr|]. split; [subst s' s1; ctx_simpl; reflexivity|].
    split; [exact Hu|]. split; [exact Hd|]. exact Hstate.
Qed.

(** Alice, logged in on the stream stream-1 under the policy override,
    asks for the resource home, which another of her streams holds. *)
Lemma C4_bind_conflict_override_witness :
  exists (iq : xml.IQ) (s' : stream),
    handleElement Demo.env 1 (Demo.bindIQ "home") (Demo.loggedIn Override)
    = Done tt s'
        [WriteElement (bindResult iq
           "alice@localhost/29b48932e3b4af06690778f20598ed04d778e217b5e332fb95372e9558f5eaf3");
         AuthenticateStream]
    /\ Resource s' = "29b48932e3b4af06690778f20598ed04d778e217b5e332fb95372e9558f5eaf3".
Proof.
  destruct (C4_bind_conflict_override Demo.env 1 (Demo.loggedIn Override)
              (Demo.bindIQ "home")
              (xml.mkIQ (Demo.bindIQ "home")
                 (xml.mkJID "alice" "localhost" "") (xml.mkJID "alice" "localhost" ""))
              (Demo.el "bind" [("xmlns", bindNamespace)]
                 [xml.mkElement "resource" [] "home" []])
              (router.mkC2S "stream-alice-home" "home")
              (xml.mkJID "alice" "localhost"
                 "29b48932e3b4af06690778f20598ed04d778e217b5e332fb95372e9558f5eaf3"))
    as (s' & Hrun & Hres & _).
  - vm_compute; reflexivity.
  - vm_compute; reflexivity.
  - vm_compute; reflexivity.
  - vm_compute; reflexivity.
  - vm_compute; reflexivity.
  - vm_compute. apply list_elem_of_singleton. reflexivity.
  - vm_compute; reflexivity.
  - vm_compute; reflexivity.
  - eexists _, s'. split; [exact Hrun | exact Hres].
Defined.

(** ** Disconnecting *)

Lemma updateLogoutInfo_spec env s :
  exists out, updateLogoutInfo env s = Done tt s out /\ written out = [].
Proof.
  unfold updateLogoutInfo. unfold_m. repeat split_test; eexists; split; reflexivity.
Qed.

Lemma disconnectClosingStream_spec env closeStream s :
  exists s' out,
    disconnectClosingStream env closeStream s = Done tt s' out
    /\ state s' = disconnected /\ written out = [].
Proof.
  unfold disconnectClosingStream. rewrite bind_unfold.
  destruct (updateLogoutInfo_spec env s) as (out0 & -> & Hout0).
  unfold_m. repeat split_test.
  all: eexists _, _; split; [reflexivity|]; split; [reflexivity|].
  all: rewrite written_app, Hout0; reflexivity.
Qed.

Lemma openStream_spec env s :
  exists out, openStream env s = Done tt s out /\ written out = [].
Proof.
  unfold openStream. unfold_m. destruct (tr s); eexists; split; reflexivity.
Qed.

Lemma disconnectWithStreamError_spec env err s :
  exists s' out,
    disconnectWithStreamError env err s = Done tt s' out
    /\ state s' = disconnected /\ written out = [streamerror.Element err].
Proof.
  unfold disconnectWithStreamError. rewrite bind_unfold. unfold get at 1.
  assert (Hopen : exists out,
    (if bool_decide (state s = connecting) then openStream env else skip) s
    = Done tt s out /\ written out = []).
  { destruct (bool_decide (state s = connecting));
      [apply openStream_spec | exists []; split; reflexivity]. }
  destruct Hopen as (out0 & Hopen & Hout0).
  rewrite bind_unfold, Hopen. rewrite bind_unfold. unfold writeElement, emit at 1.
  destruct (disconnectClosingStream_spec env true s) as (s' & out1 & -> & Hstate & Hout1).
  eexists _, _. split; [reflexivity|]. split; [exact Hstate|].
  rewrite !app_nil_l, !written_app, Hout0, Hout1. reflexivity.
Qed.

(** ** The stream open *)

Lemma isStreamOpen_not_close s elem :
  isStreamOpen (tr s) elem = true ->
  bool_decide (tr s = transport.WebSocket) && bool_decide (xml.Name elem = "close")
  && bool_decide (xml.Namespace elem = framedStreamNamespace) = false.
Proof.
  unfold isStreamOpen. destruct (tr s); intros Hopen.
  - reflexivity.
  - apply andb_prop in Hopen as [Hname _]. apply bool_decide_eq_true_1 in Hname.
    rewrite Hname. reflexivity.
  - reflexivity.
Qed.

Lemma validateStreamElement_open env s elem :
  isStreamOpen (tr s) elem = true ->
  validateStreamElement env s elem
  = if bool_decide (0 < String.length (xml.To elem))%nat
       && negb (IsLocalDomain env (xml.To elem))
    then Some streamerror.ErrHostUnknown
    else if negb (bool_decide (xml.Version elem = "1.0"))
    then Some streamerror.ErrUnsupportedVersion
    else None.
Proof.
  unfold isStreamOpen, validateStreamElement. destruct (tr s); intros Hopen.
  - apply andb_prop in Hopen as [Hopen Hns2]. apply andb_prop in Hopen as [Hname Hns].
    rewrite Hname, Hns, Hns2. reflexivity.
  - apply andb_prop in Hopen as [Hname Hns]. rewrite Hname, Hns. reflexivity.
  - reflexivity.
Qed.

Lemma validateStreamElement_None_open env s elem :
  validateStreamElement env s elem = None -> isStreamOpen (tr s) elem = true.
Proof.
  unfold isStreamOpen, validateStreamElement. destruct (tr s); intros Hv.
  - destruct (bool_decide (xml.Name elem = "stream:stream")); [|discriminate Hv].
    destruct (bool_decide (xml.Namespace elem = jabberClientNamespace)); [|discriminate Hv].
    destruct (bool_decide (xml.Get "xmlns:stream" (xml.Attributes elem) = streamNamespace));
      [reflexivity | discriminate Hv].
  - destruct (bool_decide (xml.Name elem = "open")); [|discriminate Hv].
    destruct (bool_decide (xml.Namespace elem = framedStreamNamespace));
      [reflexivity | discriminate Hv].
  - reflexivity.
Qed.

Lemma handleElement_connecting env fuel s elem :
  state s = connecting ->
  isStreamOpen (tr s) elem = true ->
  handleElement env fuel elem s = handleConnecting env elem s.
Proof.
  intros Hstate Hopen. unfold handleElement. rewrite bind_unfold. unfold get at 1.
  rewrite (isStreamOpen_not_close s elem Hopen), Hstate.
  destruct (handleConnecting env elem s); rewrite ?app_nil_l; reflexivity.
Qed.

Lemma length_pos_nonempty (str : string) :
  str <> "" -> bool_decide (0 < String.length str)%nat = true.
Proof.
  intros Hne. apply bool_decide_eq_true_2. destruct str; [contradiction|cbn; lia].
Qed.

(** C6, as the code has it: a stream open received in state connecting
    whose [to] is not empty and is not a local domain fails validation
    with host-unknown; the stream error is written and the stream ends
    in state disconnected. *)
Theorem C6_unknown_host_disconnects (env : Env) (fuel : nat) (s : stream)
    (elem : xml.Element) :
  state s = connecting ->
  isStreamOpen (tr s) elem = true ->
  xml.To elem <> "" ->
  IsLocalDomain env (xml.To elem) = false ->
  validateStreamElement env s elem = Some streamerror.ErrHostUnknown
  /\ exists s' out,
       handleElement env fuel elem s = Done tt s' out
       /\ state s' = disconnected
       /\ written out = [streamerror.Element streamerror.ErrHostUnknown].
Proof.
  intros Hstate Hopen Hto Hlocal.
  assert (Hv : validateStreamElement env s elem = Some streamerror.ErrHostUnknown).
  { rewrite (validateStreamElement_open env s elem Hopen).
    rewrite (length_pos_nonempty _ Hto), Hlocal. reflexivity. }
  split; [exact Hv|].
  rewrite (handleElement_connecting env fuel s elem Hstate Hopen).
  unfold handleConnecting. rewrite bind_unfold. unfold get at 1.
  assert (Htimer : exists s0 out0,
    (if connectTm s then emit StopTimer;; modify (set_connectTm false) else skip) s
    = Done tt s0 out0 /\ written out0 = []
    /\ validateStreamElement env s0 elem = validateStreamElement env s elem).
  { destruct (connectTm s); eexists _, _; (split; [reflexivity|]); split; reflexivity. }
  destruct Htimer as (s0 & out0 & Htimer & Hout0 & Hsame).
  rewrite bind_unfold, Htimer. rewrite bind_unfold. unfold get at 1.
  rewrite Hsame, Hv.
  destruct (disconnectWithStreamError_spec env streamerror.ErrHostUnknown s0)
    as (s' & out & -> & Hdisc & Hout).
  eexists _, _. split; [reflexivity|]. split; [exact Hdisc|].
  rewrite !app_nil_l, written_app, Hout0, Hout. reflexivity.
Qed.

(** A first stream open for the domain example.org, which the example
    server does not serve. *)
Lemma C6_unknown_host_disconnects_witness :
  exists s' out,
    handleElement Demo.env 1 (Demo.streamOpen "example.org")
      (Demo.fresh transport.Socket Disallow) = Done tt s' out
    /\ state s' = disconnected
    /\ written out = [streamerror.Element streamerror.ErrHostUnknown].
Proof.
  apply (C6_unknown_host_disconnects Demo.env 1
           (Demo.fresh transport.Socket Disallow) (Demo.streamOpen "example.org")).
  - vm_compute; reflexivity.
  - vm_compute; reflexivity.
  - discriminate.
  - vm_compute; reflexivity.
Defined.

(** C6, as it is stated, fails: the empty string is not a local domain
    of the example server, yet a stream open whose [to] is empty passes
    validation and the stream goes on to state connected. *)
Lemma C6_empty_to_counterexample :
  let s := Demo.fresh transport.Socket Disallow in
  let elem := Demo.streamOpen "" in
  state s = connecting
  /\ isStreamOpen (tr s) elem = true
  /\ IsLocalDomain Demo.env (xml.To elem) = false
  /\ validateStreamElement Demo.env s elem = None
  /\ state <$> final (handleElement Demo.env 1 elem s) = Some connected
  /\ written (events (handleElement Demo.env 1 elem s))
     = [xml.mkElement "stream:features"
          [("xmlns:stream", streamNamespace); ("version", "1.0")] ""
          [startTLSFeature]].
Proof. vm_compute. repeat split; reflexivity. Qed.

(** ** Legacy authentication *)

(** C7: in state connected, an iq that builds as a stanza, that the
    registration module does not take and that holds a query child in the
    namespace jabber:iq:auth is answered with the service-unavailable
    stanza error alone; the stream is left as it was, in state
    connected. *)
Theorem C7_legacy_auth_service_unavailable (env : Env) (fuel : nat) (s : stream)
    (elem : xml.Element) (iq : xml.IQ) (query : xml.Element) :
  state s = connected ->
  buildStanza env s elem false = inr (xml.StIQ iq) ->
  register s && MatchesIQ env module.Register iq = false ->
  xml.ChildNamespace "query" "jabber:iq:auth" (xml.Elements (xml.iqElem iq)) = Some query ->
  handleElement env fuel elem s = Done tt s [WriteElement (xml.ServiceUnavailableError iq)]
  /\ isStanzaError "service-unavailable" (xml.ServiceUnavailableError iq)
  /\ state s = connected.
Proof.
  intros Hstate Hbuild Hreg Hquery.
  destruct (buildStanza_iq _ _ _ _ _ Hbuild) as [Hname _].
  split; [|split; [apply (NewErrorElementFromElement_isStanzaError _
                            xml.ErrServiceUnavailable) | exact Hstate]].
  unfold handleElement. rewrite bind_unfold. unfold get at 1.
  rewrite Hstate, Hname.
  rewrite (bool_decide_eq_false_2 ("iq" = "close")) by discriminate.
  rewrite andb_false_r. cbn [andb].
  unfold handleConnected. rewrite bind_unfold. unfold get at 1.
  rewrite Hname, Hbuild, Hreg, Hquery.
  rewrite (bool_decide_eq_false_2 ("iq" = "starttls")) by discriminate.
  rewrite (bool_decide_eq_false_2 ("iq" = "auth")) by discriminate.
  rewrite (bool_decide_eq_true_2 ("iq" = "iq")) by reflexivity.
  rewrite bool_decide_eq_true_2 by eauto.
  reflexivity.
Qed.

(** The legacy authentication query on the example stream after its
    first open; registration is enabled there and does not take the iq. *)
Lemma C7_legacy_auth_service_unavailable_witness :
  exists iq : xml.IQ,
    register (Demo.opened Disallow) = true
    /\ handleElement Demo.env 1 Demo.legacyAuthIQ (Demo.opened Disallow)
       = Done tt (Demo.opened Disallow) [WriteElement (xml.ServiceUnavailableError iq)]
    /\ isStanzaError "service-unavailable" (xml.ServiceUnavailableError iq)
    /\ state (Demo.opened Disallow) = connected.
Proof.
  eexists. split; [vm_compute; reflexivity|].
  eapply (C7_legacy_auth_service_unavailable Demo.env 1 (Demo.opened Disallow)
            Demo.legacyAuthIQ).
  - vm_compute; reflexivity.
  - vm_compute; reflexivity.
  - vm_compute; reflexivity.
  - vm_compute; reflexivity.
Defined.

(** ** Laws that every handler obeys *)

Create HintDb law.

Lemma kinds_alter_Reset (i : nat) (l : list auth.Authenticator) :
  auth.kind <$> alter auth.Reset i l = auth.kind <$> l.
Proof.
  revert i. induction l as [|a l IH]; intros [|i]; cbn; try reflexivity.
  f_equal. apply IH.
Qed.

Lemma kinds_insert (i : nat) (l : list auth.Authenticator) (a a' : auth.Authenticator) :
  l !! i = Some a -> auth.kind a' = auth.kind a ->
  auth.kind <$> <[i := a']> l = auth.kind <$> l.
Proof.
  revert i. induction l as [|b l IH]; intros [|i] Hl Hk; cbn in *; try reflexivity.
  - injection Hl as ->. rewrite Hk. reflexivity.
  - f_equal. apply IH; assumption.
Qed.

Ltac harmless :=
  unfold harmlessAt, rosterLatch, offlineLatch;
  cbn [cfg tr id authrs ctx set_state set_ctx set_connectTm set_authrs
       set_activeAuthr set_iqHandlers set_roster set_discoInfo set_register
       set_ping set_blockCmd set_offline];
  ctx_simpl; repeat split; auto using kinds_alter_Reset.

Section Laws.

Variable L : Law.

Hypothesis L_refl : forall s, ok_done L s s [].
Hypothesis L_trans : forall s s' s'' out out',
  ok_done L s s' out -> ok_done L s' s'' out' -> ok_done L s s'' (out ++ out').
Hypothesis L_trans_fuel : forall s s' out out',
  ok_done L s s' out -> ok_fuel L s' out' -> ok_fuel L s (out ++ out').
Hypothesis L_fuel : forall s, ok_fuel L s [].
Hypothesis L_modify : forall f s, harmlessAt f s -> ok_done L s (f s) [].
Hypothesis L_emit : forall ev s, isOnceEvent ev = false -> ok_done L s s [ev].
Hypothesis L_presence : forall env presence s, obeysAt L (processPresence env presence) s.

Lemma obeys_ret {A} (a : A) s : obeysAt L (mret a) s.
Proof. apply L_refl. Qed.

Lemma obeys_bind {A B} (m : M A) (f : A -> M B) s :
  obeysAt L m s -> (forall a s', obeysAt L (f a) s') -> obeysAt L (m ≫= f) s.
Proof.
  unfold obeysAt. rewrite bind_unfold. intros Hm Hf.
  destruct (m s) as [a s' out|out]; [|exact Hm].
  specialize (Hf a s'). destruct (f a s') as [b s'' out'|out'].
  - eapply L_trans; eassumption.
  - eapply L_trans_fuel; eassumption.
Qed.

Lemma obeys_get_bind {B} (k : stream -> M B) s :
  obeysAt L (k s) s -> obeysAt L (get ≫= k) s.
Proof.
  unfold obeysAt. rewrite bind_unfold. unfold get at 1. intros Hk.
  destruct (k s s); rewrite ?app_nil_l; exact Hk.
Qed.

Lemma obeys_emit ev s : isOnceEvent ev = false -> obeysAt L (emit ev) s.
Proof. apply L_emit. Qed.

Lemma obeys_modify f s : harmlessAt f s -> obeysAt L (modify f) s.
Proof. apply L_modify. Qed.

Lemma obeys_out_of_fuel {A} s : obeysAt L (fun _ => @OutOfFuel A []) s.
Proof. apply L_fuel. Qed.

#[local] Hint Resolve obeys_ret obeys_out_of_fuel : law.
#[local] Hint Extern 1 (obeysAt _ (emit _) _) => apply obeys_emit; reflexivity : law.
#[local] Hint Extern 1 (obeysAt _ (modify _) _) => apply obeys_modify; harmless : law.

Ltac law :=
  unfold skip, writeElement, setState, modifyCtx;
  repeat (intros; cbv beta zeta; first
    [ solve [auto with law]
    | match goal with
      | |- obeysAt _ (if ?b then _ else _) _ => destruct b eqn:?
      | |- obeysAt _ (match ?x with _ => _ end) _ => destruct x eqn:?
      | |- obeysAt _ (mbind _ get) _ => apply obeys_get_bind
      | |- obeysAt _ (mbind _ _) _ => apply obeys_bind
      end ]).

Lemma obeys_restart s : obeysAt L restart s.
Proof. unfold restart. law. Qed.
#[local] Hint Resolve obeys_restart : law.

Lemma obeys_initializeModules s : obeysAt L initializeModules s.
Proof. unfold initializeModules. law. Qed.
#[local] Hint Resolve obeys_initializeModules : law.

Lemma obeys_openStream env s : obeysAt L (openStream env) s.
Proof. unfold openStream. law. Qed.
#[local] Hint Resolve obeys_openStream : law.

Lemma obeys_updateLogoutInfo env s : obeysAt L (updateLogoutInfo env) s.
Proof. unfold updateLogoutInfo. law. Qed.
#[local] Hint Resolve obeys_updateLogoutInfo : law.

Lemma obeys_disconnectClosingStream env b s :
  obeysAt L (disconnectClosingStream env b) s.
Proof. unfold disconnectClosingStream. law. Qed.
#[local] Hint Resolve obeys_disconnectClosingStream : law.

Lemma obeys_disconnectWithStreamError env err s :
  obeysAt L (disconnectWithStreamError env err) s.
Proof. unfold disconnectWithStreamError. law. Qed.
#[local] Hint Resolve obeys_disconnectWithStreamError : law.

Lemma obeys_disconnect env err s : obeysAt L (disconnect env err) s.
Proof. unfold disconnect. law. Qed.
#[local] Hint Resolve obeys_disconnect : law.

Lemma obeys_handleElementError env elem err s :
  obeysAt L (handleElementError env elem err) s.
Proof. unfold handleElementError. law. Qed.
#[local] Hint Resolve obeys_handleElementError : law.

Lemma obeys_proceedStartTLS env s : obeysAt L (proceedStartTLS env) s.
Proof. unfold proceedStartTLS. law. Qed.
#[local] Hint Resolve obeys_proceedStartTLS : law.

Lemma obeys_compress env elem s : obeysAt L (compress env elem) s.
Proof. unfold compress. law. Qed.
#[local] Hint Resolve obeys_compress : law.

Lemma obeys_resetActiveAuthr s : obeysAt L resetActiveAuthr s.
Proof. unfold resetActiveAuthr. law. Qed.
#[local] Hint Resolve obeys_resetActiveAuthr : law.

Lemma obeys_failAuthentication elem s : obeysAt L (failAuthentication elem) s.
Proof. unfold failAuthentication. law. Qed.
#[local] Hint Resolve obeys_failAuthentication : law.

Lemma obeys_continueAuthentication env elem i s :
  obeysAt L (continueAuthentication env elem i) s.
Proof.
  unfold continueAuthentication. apply obeys_get_bind. cbv beta.
  destruct (authrs s !! i) as [authr|] eqn:Hlookup; [|law].
  unfold auth.ProcessElement. apply obeys_bind; [|law].
  apply obeys_modify. harmless. eapply kinds_insert; [exact Hlookup|reflexivity].
Qed.
#[local] Hint Resolve obeys_continueAuthentication : law.

Lemma obeys_finishAuthentication env username s :
  obeysAt L (finishAuthentication env username) s.
Proof. unfold finishAuthentication. law. Qed.
#[local] Hint Resolve obeys_finishAuthentication : law.

Lemma obeys_startAuthentication env elem s :
  obeysAt L (startAuthentication env elem) s.
Proof. unfold startAuthentication. law. Qed.
#[local] Hint Resolve obeys_startAuthentication : law.

Lemma obeys_bindResource env iq s : obeysAt L (bindResource env iq) s.
Proof. unfold bindResource. law. Qed.
#[local] Hint Resolve obeys_bindResource : law.

Lemma obeys_startSession iq s : obeysAt L (startSession iq) s.
Proof. unfold startSession. law. Qed.
#[local] Hint Resolve obeys_startSession : law.

Lemma obeys_processIQ env iq s : obeysAt L (processIQ env iq) s.
Proof. unfold processIQ. law. Qed.
#[local] Hint Resolve obeys_processIQ L_presence : law.

Lemma obeys_sendMessage env fuel message toJID s :
  obeysAt L (sendMessage env fuel message toJID) s.
Proof.
  revert toJID s. induction fuel as [|fuel IH]; intros toJID s; cbn [sendMessage].
  - apply obeys_out_of_fuel.
  - law.
Qed.
#[local] Hint Resolve obeys_sendMessage : law.

Lemma obeys_processMessage env fuel message s :
  obeysAt L (processMessage env fuel message) s.
Proof. unfold processMessage. law. Qed.
#[local] Hint Resolve obeys_processMessage : law.

Lemma obeys_processStanza env fuel stanza s :
  obeysAt L (processStanza env fuel stanza) s.
Proof. unfold processStanza. law. Qed.
#[local] Hint Resolve obeys_processStanza : law.

Lemma obeys_handleConnecting env elem s : obeysAt L (handleConnecting env elem) s.
Proof. unfold handleConnecting. law. Qed.

Lemma obeys_handleConnected env elem s : obeysAt L (handleConnected env elem) s.
Proof. unfold handleConnected. law. Qed.

Lemma obeys_handleAuthenticating env elem s :
  obeysAt L (handleAuthenticating env elem) s.
Proof. unfold handleAuthenticating. law. Qed.

Lemma obeys_handleAuthenticated env elem s :
  obeysAt L (handleAuthenticated env elem) s.
Proof. unfold handleAuthenticated. law. Qed.

Lemma obeys_handleSessionStarted env fuel elem s :
  obeysAt L (handleSessionStarted env fuel elem) s.
Proof. unfold handleSessionStarted, processComponentStanza. law. Qed.

#[local] Hint Resolve obeys_handleConnecting obeys_handleConnected
  obeys_handleAuthenticating obeys_handleAuthenticated
  obeys_handleSessionStarted : law.

Lemma obeys_handleElement env fuel elem s :
  obeysAt L (handleElement env fuel elem) s.
Proof. unfold handleElement. law. Qed.
#[local] Hint Resolve obeys_handleElement : law.

Lemma obeys_runPost env fuel p s : obeysAt L (runPost env fuel p) s.
Proof. destruct p; cbn [runPost]; law. Qed.
#[local] Hint Resolve obeys_runPost : law.

Lemma obeys_actorLoop fuel posts s : obeysAt L (actorLoop fuel posts) s.
Proof.
  revert s. induction posts as [|[env p] rest IH]; intros s; cbn [actorLoop]; law.
Qed.

End Laws.

(** ** The framing law *)

Lemma framing_presence env presence s : obeysAt framing (processPresence env presence) s.
Proof.
  unfold obeysAt, processPresence. unfold_m.
  repeat split_test; cbn [ok_done framing cfg tr id authrs ctx set_ctx];
    ctx_simpl; repeat split; auto.
Qed.

Lemma framing_trans s s' s'' (out out' : list Event) :
  ok_done framing s s' out -> ok_done framing s' s'' out' ->
  ok_done framing s s'' (out ++ out').
Proof.
  cbn. intros (Hc & Ht & Hi & Ha & Hs) (Hc' & Ht' & Hi' & Ha' & Hs').
  repeat split; try congruence. auto.
Qed.

Lemma framing_modify f s : harmlessAt f s -> ok_done framing s (f s) [].
Proof. intros (Hc & Ht & Hi & Ha & _ & _ & Hs). cbn. auto. Qed.

(** Whatever is posted to the actor, the configuration, the transport,
    the id and the kinds of the authenticators of a stream stay what they
    are, and the flag secured, once set, stays set. *)
Lemma actorLoop_framing fuel posts s s' :
  final (actorLoop fuel posts s) = Some s' ->
  cfg s' = cfg s /\ tr s' = tr s /\ id s' = id s
  /\ auth.kind <$> authrs s' = auth.kind <$> authrs s
  /\ (IsSecured s = true -> IsSecured s' = true).
Proof.
  intros Hfinal.
  pose proof (obeys_actorLoop framing
    (fun s => ltac:(cbn; auto)) framing_trans (fun _ _ _ _ _ _ => I) (fun _ => I)
    framing_modify (fun _ _ _ => ltac:(cbn; auto)) framing_presence fuel posts s) as H.
  unfold obeysAt in H. destruct (actorLoop fuel posts s); [|discriminate Hfinal].
  injection Hfinal as <-. exact H.
Qed.

(** ** The accounting laws *)

Section Accounting.

Variable latch : stream -> bool.
Variable p : Event -> bool.
Hypothesis p_once : forall ev, isOnceEvent ev = false -> p ev = false.
Hypothesis latch_harmless : forall f s, harmlessAt f s -> latch (f s) = latch s.

Lemma accounting_refl s : ok_done (accounting latch p) s s [].
Proof. reflexivity. Qed.

Lemma accounting_trans s s' s'' out out' :
  ok_done (accounting latch p) s s' out -> ok_done (accounting latch p) s' s'' out' ->
  ok_done (accounting latch p) s s'' (out ++ out').
Proof. cbn. rewrite count_app. lia. Qed.

Lemma accounting_trans_fuel s s' out out' :
  ok_done (accounting latch p) s s' out -> ok_fuel (accounting latch p) s' out' ->
  ok_fuel (accounting latch p) s (out ++ out').
Proof. cbn. rewrite count_app. lia. Qed.

Lemma accounting_fuel s : ok_fuel (accounting latch p) s [].
Proof. cbn. unfold b2n. destruct (latch s); lia. Qed.

Lemma accounting_modify f s : harmlessAt f s -> ok_done (accounting latch p) s (f s) [].
Proof. intros H. cbn. rewrite (latch_harmless f s H). reflexivity. Qed.

Lemma accounting_emit ev s : isOnceEvent ev = false -> ok_done (accounting latch p) s s [ev].
Proof. intros H. cbn. unfold count. cbn. rewrite (p_once ev H). reflexivity. Qed.

Hypothesis accounting_presence :
  forall env presence s, obeysAt (accounting latch p) (processPresence env presence) s.

Lemma actorLoop_accounting fuel posts s :
  obeysAt (accounting latch p) (actorLoop fuel posts) s.
Proof.
  apply obeys_actorLoop.
  - exact accounting_refl.
  - exact accounting_trans.
  - exact accounting_trans_fuel.
  - exact accounting_fuel.
  - exact accounting_modify.
  - exact accounting_emit.
  - exact accounting_presence.
Qed.

Lemma actorLoop_at_most_once fuel posts s :
  (count p (events (actorLoop fuel posts s)) <= 1)%nat.
Proof.
  pose proof (actorLoop_accounting fuel posts s) as H. unfold obeysAt in H.
  destruct (actorLoop fuel posts s) as [? s' out|out]; cbn [events ok_done ok_fuel accounting] in *;
    unfold b2n in *; [destruct (latch s), (latch s')|destruct (latch s)]; lia.
Qed.

Lemma actorLoop_latch_stays fuel posts s s' :
  final (actorLoop fuel posts s) = Some s' -> latch s = true -> latch s' = true.
Proof.
  intros Hfinal Hlatch.
  pose proof (actorLoop_accounting fuel posts s) as H. unfold obeysAt in H.
  destruct (actorLoop fuel posts s); [|discriminate Hfinal].
  injection Hfinal as <-. cbn [ok_done accounting] in H. rewrite Hlatch in H.
  unfold b2n in H. destruct (latch s0); [reflexivity|lia].
Qed.

End Accounting.

Lemma rosterLatch_harmless f s : harmlessAt f s -> rosterLatch (f s) = rosterLatch s.
Proof. intros (_ & _ & _ & _ & H & _). exact H. Qed.

Lemma offlineLatch_harmless f s : harmlessAt f s -> offlineLatch (f s) = offlineLatch s.
Proof. intros (_ & _ & _ & _ & _ & H & _). exact H. Qed.

Lemma once_isDeliverPending ev : isOnceEvent ev = false -> isDeliverPending ev = false.
Proof. destruct ev; cbn; congruence. Qed.
Lemma once_isReceivePresences ev : isOnceEvent ev = false -> isReceivePresences ev = false.
Proof. destruct ev; cbn; congruence. Qed.
Lemma once_isDeliverOffline ev : isOnceEvent ev = false -> isDeliverOffline ev = false.
Proof. destruct ev; cbn; congruence. Qed.

Lemma Bool_SetBool_eq key v c : router.Bool key (router.SetBool v key c) = v.
Proof. unfold router.Bool, router.SetBool. cbn. rewrite lookup_insert_eq. reflexivity. Qed.

Lemma Bool_SetBool_ne key key' v c :
  key <> key' -> router.Bool key' (router.SetBool v key c) = router.Bool key' c.
Proof.
  intros H. unfold router.Bool, router.SetBool. cbn.
  rewrite lookup_insert_ne by exact H. reflexivity.
Qed.

Lemma Bool_SetObject_ne key key' v c :
  key <> key' -> router.Bool key' (router.SetObject v key c) = router.Bool key' c.
Proof.
  intros H. unfold router.Bool, router.SetObject. cbn.
  rewrite lookup_insert_ne by exact H. reflexivity.
Qed.

Ltac latch_simpl :=
  unfold rosterLatch, offlineLatch in *;
  cbn [ctx set_ctx] in *;
  repeat first
    [ rewrite Bool_SetBool_eq in *
    | rewrite (Bool_SetBool_ne rosterOnceCtxKey offlineOnceCtxKey) in * by discriminate
    | rewrite (Bool_SetBool_ne offlineOnceCtxKey rosterOnceCtxKey) in * by discriminate
    | rewrite (Bool_SetObject_ne presenceCtxKey rosterOnceCtxKey) in * by discriminate
    | rewrite (Bool_SetObject_ne presenceCtxKey offlineOnceCtxKey) in * by discriminate ].

Ltac latch_cases :=
  unfold b2n;
  repeat match goal with
         | H : negb ?b = _ |- _ => destruct b; cbn [negb] in H; try discriminate H
         | |- context [router.Bool ?k ?c] => destruct (router.Bool k c)
         end;
  cbn; try reflexivity; try lia.

Lemma presence_accounting_DeliverPending env presence s :
  obeysAt (accounting rosterLatch isDeliverPending) (processPresence env presence) s.
Proof.
  unfold obeysAt, processPresence. unfold_m.
  repeat split_test; cbn [ok_done accounting]; unfold count;
    cbn [List.filter isDeliverPending List.length app]; latch_simpl; latch_cases.
Qed.

Lemma presence_accounting_ReceivePresences env presence s :
  obeysAt (accounting rosterLatch isReceivePresences) (processPresence env presence) s.
Proof.
  unfold obeysAt, processPresence. unfold_m.
  repeat split_test; cbn [ok_done accounting]; unfold count;
    cbn [List.filter isReceivePresences List.length app]; latch_simpl; latch_cases.
Qed.

Lemma presence_accounting_DeliverOffline env presence s :
  obeysAt (accounting offlineLatch isDeliverOffline) (processPresence env presence) s.
Proof.
  unfold obeysAt, processPresence. unfold_m.
  repeat split_test; cbn [ok_done accounting]; unfold count;
    cbn [List.filter isDeliverOffline List.length app]; latch_simpl; latch_cases.
Qed.

(** C8: whatever reaches the actor of a stream, and from whatever state,
    the roster is asked at most once to deliver the pending approval
    notifications and at most once to receive presences, and the offline
    module is asked at most once to deliver the offline messages; the
    two latches of the context that guard them, once set, stay set.  A
    sequence of presence stanzas handled in an established session is one
    such run. *)
Theorem C8_once_per_stream (fuel : nat) (posts : list (Env * Post)) (s : stream) :
  (count isDeliverPending (events (actorLoop fuel posts s)) <= 1)%nat
  /\ (count isReceivePresences (events (actorLoop fuel posts s)) <= 1)%nat
  /\ (count isDeliverOffline (events (actorLoop fuel posts s)) <= 1)%nat
  /\ (forall s', final (actorLoop fuel posts s) = Some s' ->
       (rosterLatch s = true -> rosterLatch s' = true)
       /\ (offlineLatch s = true -> offlineLatch s' = true)).
Proof.
  split; [|split; [|split]].
  - apply (actorLoop_at_most_once rosterLatch isDeliverPending
             once_isDeliverPending rosterLatch_harmless
             presence_accounting_DeliverPending).
  - apply (actorLoop_at_most_once rosterLatch isReceivePresences
             once_isReceivePresences rosterLatch_harmless
             presence_accounting_ReceivePresences).
  - apply (actorLoop_at_most_once offlineLatch isDeliverOffline
             once_isDeliverOffline offlineLatch_harmless
             presence_accounting_DeliverOffline).
  - intros s' Hfinal. split.
    + apply (actorLoop_latch_stays rosterLatch isDeliverPending
               once_isDeliverPending rosterLatch_harmless
               presence_accounting_DeliverPending fuel posts s s' Hfinal).
    + apply (actorLoop_latch_stays offlineLatch isDeliverOffline
               once_isDeliverOffline offlineLatch_harmless
               presence_accounting_DeliverOffline fuel posts s s' Hfinal).
Qed.

(** Three presences in a row on the example session: each of the three
    actions happens, once. *)
Example presences_deliver_once :
  let run := actorLoop 1 [(Demo.env, ReadElement Demo.presenceElem);
                          (Demo.env, ReadElement Demo.presenceElem);
                          (Demo.env, ReadElement Demo.presenceElem)]
               Demo.inSession in
  count isDeliverPending (events run) = 1%nat
  /\ count isReceivePresences (events run) = 1%nat
  /\ count isDeliverOffline (events run) = 1%nat
  /\ rosterLatch Demo.inSession = false
  /\ (rosterLatch <$> final run) = Some true
  /\ (offlineLatch <$> final run) = Some true.
Proof. vm_compute. repeat split; reflexivity. Qed.

(** ** The features of a stream that is not authenticated *)

Lemma mechanisms_fold (l : list auth.Authenticator) (n : string)
    (attrs : list (string * string)) (t : string) (c : list xml.Element) :
  fold_left (fun mechanisms athr =>
      xml.AppendElement
        (xml.SetText (auth.Mechanism athr) (xml.NewElementName "mechanism")) mechanisms)
    l (xml.mkElement n attrs t c)
  = xml.mkElement n attrs t
      (c ++ ((fun athr => mechanismElement (auth.Mechanism athr)) <$> l)).
Proof.
  revert c. induction l as [|a l IH]; intros c; cbn [fold_left fmap list_fmap].
  - rewrite app_nil_r. reflexivity.
  - cbn [xml.AppendElement xml.AppendElements]. rewrite IH, <- app_assoc. reflexivity.
Qed.

Lemma unauthenticatedFeatures_eq s :
  unauthenticatedFeatures s
  = (if bool_decide (tr s = transport.Socket) && negb (IsSecured s)
     then [startTLSFeature] else [])
    ++ (if (negb (bool_decide (tr s = transport.Socket)) || IsSecured s)
           && negb (bool_decide (authrs s = []))
        then [mechanismsFeature (authrs s)] else [])
    ++ (if enabled "registration" (cfg s) && IsSecured s then [registerFeature] else []).
Proof.
  unfold unauthenticatedFeatures.
  assert (Hlen : bool_decide (0 < List.length (authrs s))%nat
                 = negb (bool_decide (authrs s = []))).
  { destruct (authrs s); cbn; [reflexivity|].
    rewrite bool_decide_eq_true_2 by lia. reflexivity. }
  rewrite Hlen.
  replace (fold_left _ (authrs s) _) with (mechanismsFeature (authrs s))
    by (symmetry; apply (mechanisms_fold (authrs s) "mechanisms" _ "" [])).
  destruct (bool_decide (tr s = transport.Socket)), (IsSecured s),
    (bool_decide (authrs s = [])), (enabled "registration" (cfg s)); reflexivity.
Qed.

Lemma unauthenticatedFeatures_ext s1 s2 :
  tr s1 = tr s2 -> IsSecured s1 = IsSecured s2 -> authrs s1 = authrs s2 ->
  cfg s1 = cfg s2 -> unauthenticatedFeatures s1 = unauthenticatedFeatures s2.
Proof.
  intros Ht Hs Ha Hc. rewrite !unauthenticatedFeatures_eq, Ht, Hs, Ha, Hc. reflexivity.
Qed.

Lemma authenticatedFeatures_no_starttls s :
  xml.Child "starttls" (authenticatedFeatures s) = None.
Proof.
  unfold authenticatedFeatures. repeat split_test; reflexivity.
Qed.

(** The authenticators of a new stream, in the order of the
    configuration. *)
Lemma initializeAuthenticators_mechanisms (c : Config) :
  auth.Mechanism <$> initializeAuthenticators c = flat_map saslMechanisms (SASL c).
Proof.
  unfold initializeAuthenticators.
  enough (H : forall l acc,
    auth.Mechanism <$> fold_left (fun authrs a =>
      if bool_decide (a = "plain") then authrs ++ [auth.NewPlain]
      else if bool_decide (a = "digest_md5") then authrs ++ [auth.NewDigestMD5]
      else if bool_decide (a = "scram_sha_1") then
        (authrs ++ [auth.NewScram auth.ScramSHA1 false]) ++ [auth.NewScram auth.ScramSHA1 true]
      else if bool_decide (a = "scram_sha_256") then
        (authrs ++ [auth.NewScram auth.ScramSHA256 false])
        ++ [auth.NewScram auth.ScramSHA256 true]
      else authrs) l acc
    = (auth.Mechanism <$> acc) ++ flat_map saslMechanisms l) by apply (H (SASL c) []).
  induction l as [|a l IH]; intros acc; cbn [fold_left flat_map].
  - rewrite app_nil_r. reflexivity.
  - rewrite IH. unfold saslMechanisms at 2.
    repeat split_test; rewrite ?fmap_app, <- ?app_assoc; reflexivity.
Qed.

Lemma Mechanism_of_kinds (l1 l2 : list auth.Authenticator) :
  auth.kind <$> l1 = auth.kind <$> l2 -> auth.Mechanism <$> l1 = auth.Mechanism <$> l2.
Proof.
  revert l2. induction l1 as [|a l1 IH]; intros [|b l2] H; cbn in *;
    try discriminate H; [reflexivity|].
  injection H as Hk H. unfold auth.Mechanism at 1 3. rewrite Hk. f_equal. apply IH, H.
Qed.

(** ** The first features of a stream *)

Lemma IsAuthenticated_SetString v key s :
  key <> authenticatedCtxKey ->
  IsAuthenticated (set_ctx (router.SetString v key (ctx s)) s) = IsAuthenticated s.
Proof.
  intros H. ctx_simpl. unfold IsAuthenticated, router.Bool, router.SetString.
  cbn. rewrite lookup_insert_ne by exact H. reflexivity.
Qed.

Lemma handleConnecting_not_authenticated env elem s :
  validateStreamElement env s elem = None ->
  IsAuthenticated s = false ->
  exists s' pre,
    handleConnecting env elem s
    = Done tt s' (pre ++ [WriteElement (featuresElement (unauthenticatedFeatures s))])
    /\ written pre = [] /\ state s' = connected.
Proof.
  intros Hv Hauth. unfold handleConnecting. rewrite bind_unfold. unfold get at 1.
  assert (Htimer : exists s0 out0,
    (if connectTm s then emit StopTimer;; modify (set_connectTm false) else skip) s
    = Done tt s0 out0 /\ written out0 = []
    /\ validateStreamElement env s0 elem = validateStreamElement env s elem
    /\ ctx s0 = ctx s /\ tr s0 = tr s /\ authrs s0 = authrs s /\ cfg s0 = cfg s).
  { destruct (connectTm s); eexists _, _; (split; [reflexivity|]); repeat split. }
  destruct Htimer as (s0 & out0 & Htimer & Hout0 & Hsame & Hctx & Htr & Hauthrs & Hcfg).
  rewrite bind_unfold, Htimer. rewrite bind_unfold. unfold get at 1.
  rewrite Hsame, Hv.
  set (s1 := set_ctx (router.SetString (xml.To elem) domainCtxKey (ctx s0)) s0).
  rewrite bind_unfold. unfold modifyCtx, modify at 1. fold s1.
  rewrite bind_unfold.
  destruct (openStream_spec env s1) as (out1 & -> & Hout1).
  rewrite bind_unfold. unfold get at 1.
  assert (Hauth1 : IsAuthenticated s1 = false).
  { subst s1. rewrite IsAuthenticated_SetString by discriminate.
    unfold IsAuthenticated in *. rewrite Hctx. exact Hauth. }
  rewrite Hauth1. cbn [negb].
  assert (Hfeat : unauthenticatedFeatures s1 = unauthenticatedFeatures s).
  { apply unauthenticatedFeatures_ext; subst s1; cbn [tr authrs cfg set_ctx]; auto.
    ctx_simpl. unfold IsSecured. rewrite Hctx. reflexivity. }
  rewrite Hfeat. unfold_m.
  exists (set_state connected s1), (out0 ++ out1).
  split; [|split; [rewrite written_app, Hout0, Hout1; reflexivity | reflexivity]].
  cbn [app]. rewrite ?app_nil_r, ?app_nil_l, <- ?app_assoc. reflexivity.
Qed.

Lemma featuresElement_spec (fs : list xml.Element) :
  xml.Name (featuresElement fs) = "stream:features"
  /\ xml.Elements (featuresElement fs) = fs.
Proof. split; reflexivity. Qed.

Lemma unauthenticatedFeatures_children s :
  xml.Child "starttls" (unauthenticatedFeatures s)
  = (if bool_decide (tr s = transport.Socket) && negb (IsSecured s)
     then Some startTLSFeature else None)
  /\ xml.Child "mechanisms" (unauthenticatedFeatures s)
     = (if (negb (bool_decide (tr s = transport.Socket)) || IsSecured s)
           && negb (bool_decide (authrs s = []))
        then Some (mechanismsFeature (authrs s)) else None)
  /\ xml.Child "register" (unauthenticatedFeatures s)
     = (if enabled "registration" (cfg s) && IsSecured s
        then Some registerFeature else None).
Proof.
  rewrite unauthenticatedFeatures_eq.
  destruct (bool_decide (tr s = transport.Socket)), (IsSecured s),
    (bool_decide (authrs s = [])), (enabled "registration" (cfg s));
    repeat split; reflexivity.
Qed.

Lemma is_Some_if {A} (b : bool) (x : A) :
  is_Some (if b then Some x else None) <-> b = true.
Proof.
  destruct b; split; eauto; [intros [? H]; discriminate H | intros H; discriminate H].
Qed.

(** The mechanisms of a stream that was made by [New] are those of its
    configuration, in their order, whatever it has handled since. *)
Lemma reachable_mechanisms env0 id0 t c fuel posts s :
  final (actorLoop fuel posts (New env0 id0 t c)) = Some s ->
  cfg s = c /\ tr s = t
  /\ auth.Mechanism <$> authrs s = flat_map saslMechanisms (SASL c)
  /\ (IsSecured (New env0 id0 t c) = true -> IsSecured s = true).
Proof.
  intros Hfinal.
  destruct (actorLoop_framing fuel posts _ s Hfinal) as (Hc & Ht & _ & Hk & Hs).
  split; [exact Hc|]. split; [exact Ht|]. split; [|exact Hs].
  rewrite (Mechanism_of_kinds _ _ Hk). apply initializeAuthenticators_mechanisms.
Qed.

Lemma mechanismsFeature_spec (l : list auth.Authenticator) :
  xml.Namespace (mechanismsFeature l) = saslNamespace
  /\ xml.Elements (mechanismsFeature l) = mechanismElement <$> (auth.Mechanism <$> l).
Proof.
  split; [reflexivity|]. unfold mechanismsFeature. cbn [xml.Elements].
  rewrite <- list_fmap_compose. reflexivity.
Qed.

(** C5: the features element that a stream made by [New] writes when it
    handles a valid stream open while it is not authenticated, and by
    which it enters state connected.  It holds starttls, with its child
    required, exactly when the transport is a socket and the stream is
    not secured; it holds the mechanisms, those of the configuration in
    their order, exactly when the transport is not a socket or the stream
    is secured, and a mechanism is configured; and it holds the
    registration feature only when the stream is secured. *)
Theorem C5_features_of_fresh_open (env0 : Env) (id0 : string)
    (t : transport.TransportType) (c : Config) (fuel : nat)
    (posts : list (Env * Post)) (s : stream) (env : Env) (elem : xml.Element) :
  final (actorLoop fuel posts (New env0 id0 t c)) = Some s ->
  state s = connecting ->
  validateStreamElement env s elem = None ->
  IsAuthenticated s = false ->
  exists s' pre features,
    handleElement env fuel elem s = Done tt s' (pre ++ [WriteElement features])
    /\ written pre = []
    /\ state s' = connected
    /\ xml.Name features = "stream:features"
    /\ (is_Some (xml.Child "starttls" (xml.Elements features))
        <-> t = transport.Socket /\ IsSecured s = false)
    /\ (forall e, xml.Child "starttls" (xml.Elements features) = Some e ->
          xml.Namespace e = tlsNamespace
          /\ xml.Elements e = [xml.NewElementName "required"])
    /\ (is_Some (xml.Child "mechanisms" (xml.Elements features))
        <-> (t <> transport.Socket \/ IsSecured s = true)
            /\ flat_map saslMechanisms (SASL c) <> [])
    /\ (forall e, xml.Child "mechanisms" (xml.Elements features) = Some e ->
          xml.Namespace e = saslNamespace
          /\ xml.Elements e = mechanismElement <$> flat_map saslMechanisms (SASL c))
    /\ (is_Some (xml.Child "register" (xml.Elements features)) -> IsSecured s = true).
Proof.
  intros Hreach Hstate Hv Hauth.
  destruct (reachable_mechanisms _ _ _ _ _ _ _ Hreach) as (Hcfg & Htr & Hmech & _).
  destruct (handleConnecting_not_authenticated env elem s Hv Hauth)
    as (s' & pre & Hrun & Hpre & Hstate').
  exists s', pre, (featuresElement (unauthenticatedFeatures s)).
  rewrite (handleElement_connecting env fuel s elem Hstate
             (validateStreamElement_None_open env s elem Hv)).
  split; [exact Hrun|]. split; [exact Hpre|]. split; [exact Hstate'|].
  destruct (featuresElement_spec (unauthenticatedFeatures s)) as [-> ->].
  split; [reflexivity|].
  destruct (unauthenticatedFeatures_children s) as (-> & -> & ->).
  assert (Hnil : authrs s = [] <-> flat_map saslMechanisms (SASL c) = []).
  { rewrite <- Hmech. split; [intros ->; reflexivity|].
    destruct (authrs s); [reflexivity|discriminate]. }
  rewrite Htr.
  split; [|split; [|split; [|split]]].
  - rewrite is_Some_if, andb_true_iff, bool_decide_eq_true, negb_true_iff. reflexivity.
  - intros e He. destruct (bool_decide (t = transport.Socket) && negb (IsSecured s));
      [|discriminate He]. injection He as <-. split; reflexivity.
  - rewrite is_Some_if, andb_true_iff, orb_true_iff, !negb_true_iff,
      !bool_decide_eq_false, Hnil. reflexivity.
  - intros e He.
    destruct ((negb (bool_decide (t = transport.Socket)) || IsSecured s)
              && negb (bool_decide (authrs s = []))); [|discriminate He].
    injection He as <-. destruct (mechanismsFeature_spec (authrs s)) as [Hns Hel].
    rewrite Hns, Hel, Hmech. split; reflexivity.
  - rewrite is_Some_if, andb_true_iff. intros [_ H]. exact H.
Qed.

(** The second stream open of the example socket stream, after STARTTLS:
    no starttls any more, and the mechanisms of the configuration. *)
Lemma C5_features_of_fresh_open_witness :
  let s := Demo.after [Demo.streamOpen "localhost"; Demo.starttls]
             (Demo.fresh transport.Socket Disallow) in
  exists s' pre features,
    handleElement Demo.env 1 (Demo.streamOpen "localhost") s
    = Done tt s' (pre ++ [WriteElement features])
    /\ state s' = connected
    /\ IsSecured s = true
    /\ xml.Child "starttls" (xml.Elements features) = None
    /\ exists e, xml.Child "mechanisms" (xml.Elements features) = Some e
         /\ xml.Elements e
            = mechanismElement <$> ["PLAIN"; "SCRAM-SHA-1"; "SCRAM-SHA-1-PLUS"].
Proof.
  intros s.
  destruct (C5_features_of_fresh_open Demo.env "stream-1" transport.Socket
              (Demo.config Disallow) 1
              [(Demo.env, ReadElement (Demo.streamOpen "localhost"));
               (Demo.env, ReadElement Demo.starttls)]
              s Demo.env (Demo.streamOpen "localhost"))
    as (s' & pre & features & Hrun & _ & Hstate & _ & Htls & _ & Hmech & Hmechs & _).
  - vm_compute; reflexivity.
  - vm_compute; reflexivity.
  - vm_compute; reflexivity.
  - vm_compute; reflexivity.
  - exists s', pre, features.
    assert (Hsec : IsSecured s = true) by (vm_compute; reflexivity).
    split; [exact Hrun|]. split; [exact Hstate|]. split; [exact Hsec|]. split.
    + destruct (xml.Child "starttls" (xml.Elements features)) eqn:Hc; [|reflexivity].
      destruct (proj1 Htls (ex_intro _ _ eq_refl)) as [_ Hno].
      rewrite Hsec in Hno. discriminate Hno.
    + destruct (proj2 Hmech) as [e He].
      { split; [right; exact Hsec|]. vm_compute. discriminate. }
      exists e. split; [exact He|]. apply (Hmechs e He).
Defined.

(** ** Streams over a transport that is not a socket *)

Lemma IsSecured_New env0 id0 t c :
  IsSecured (New env0 id0 t c) = negb (bool_decide (t = transport.Socket)).
Proof. unfold New. ctx_simpl. reflexivity. Qed.

Lemma handleElement_starttls_secured env fuel s elem :
  state s = connected ->
  IsSecured s = true ->
  xml.Name elem = "starttls" ->
  xml.Namespace elem = "" \/ xml.Namespace elem = tlsNamespace ->
  exists s' out,
    handleElement env fuel elem s = Done tt s' out
    /\ state s' = disconnected
    /\ written out = [streamerror.Element streamerror.ErrNotAuthorized].
Proof.
  intros Hstate Hsec Hname Hns.
  unfold handleElement. rewrite bind_unfold. unfold get at 1.
  rewrite Hstate, Hname.
  rewrite (bool_decide_eq_false_2 ("starttls" = "close")) by discriminate.
  rewrite andb_false_r. cbn [andb].
  unfold handleConnected. rewrite bind_unfold. unfold get at 1.
  rewrite Hname. rewrite (bool_decide_eq_true_2 ("starttls" = "starttls")) by reflexivity.
  assert (Hok : bool_decide (0 < String.length (xml.Namespace elem))%nat
                && negb (bool_decide (xml.Namespace elem = tlsNamespace)) = false).
  { destruct Hns as [-> | ->]; [reflexivity|].
    rewrite (bool_decide_eq_true_2 (tlsNamespace = tlsNamespace)) by reflexivity.
    apply andb_false_r. }
  rewrite Hok. unfold proceedStartTLS. rewrite bind_unfold. unfold get at 1.
  rewrite Hsec.
  destruct (disconnectWithStreamError_spec env streamerror.ErrNotAuthorized s)
    as (s' & out & -> & Hdisc & Hout).
  exists s', out. rewrite !app_nil_l. auto.
Qed.

(** C10: a stream made over a transport that is not a socket is secured
    from its creation.  Whatever it has handled since, it is secured, the
    features it advertises hold no starttls, and a starttls element
    (with the TLS namespace or none) that it reads in state connected is
    answered with the stream error not-authorized and ends the stream.
    The features element that answers its first stream open holds no
    starttls, and holds the mechanisms of the configuration when there
    are any. *)
Theorem C10_non_socket_stream_is_secured (env0 : Env) (id0 : string)
    (t : transport.TransportType) (c : Config) :
  t <> transport.Socket ->
  IsSecured (New env0 id0 t c) = true
  /\ (forall fuel posts s,
        final (actorLoop fuel posts (New env0 id0 t c)) = Some s ->
        IsSecured s = true
        /\ xml.Child "starttls" (unauthenticatedFeatures s) = None
        /\ xml.Child "starttls" (authenticatedFeatures s) = None
        /\ (state s = connected ->
            forall env elem,
              xml.Name elem = "starttls" ->
              xml.Namespace elem = "" \/ xml.Namespace elem = tlsNamespace ->
              exists s' out,
                handleElement env fuel elem s = Done tt s' out
                /\ state s' = disconnected
                /\ written out = [streamerror.Element streamerror.ErrNotAuthorized]))
  /\ (forall env fuel elem,
        validateStreamElement env (New env0 id0 t c) elem = None ->
        exists s' pre features,
          handleElement env fuel elem (New env0 id0 t c)
          = Done tt s' (pre ++ [WriteElement features])
          /\ written pre = []
          /\ state s' = connected
          /\ xml.Name features = "stream:features"
          /\ xml.Child "starttls" (xml.Elements features) = None
          /\ (flat_map saslMechanisms (SASL c) <> [] ->
              exists m, xml.Child "mechanisms" (xml.Elements features) = Some m
                /\ xml.Elements m = mechanismElement <$> flat_map saslMechanisms (SASL c))).
Proof.
  intros Ht.
  assert (Hnew : IsSecured (New env0 id0 t c) = true).
  { rewrite IsSecured_New, bool_decide_eq_false_2 by exact Ht. reflexivity. }
  assert (Hno : forall s, IsSecured s = true ->
            xml.Child "starttls" (unauthenticatedFeatures s) = None).
  { intros s Hsec. destruct (unauthenticatedFeatures_children s) as (-> & _).
    rewrite Hsec, andb_false_r. reflexivity. }
  split; [exact Hnew|]. split.
  - intros fuel posts s Hreach.
    destruct (reachable_mechanisms _ _ _ _ _ _ _ Hreach) as (_ & _ & _ & Hsec).
    specialize (Hsec Hnew).
    split; [exact Hsec|]. split; [apply Hno, Hsec|].
    split; [apply authenticatedFeatures_no_starttls|].
    intros Hstate env elem Hname Hns.
    apply handleElement_starttls_secured; assumption.
  - intros env fuel elem Hv.
    destruct (handleConnecting_not_authenticated env elem (New env0 id0 t c) Hv)
      as (s' & pre & Hrun & Hpre & Hstate'); [reflexivity|].
    exists s', pre, (featuresElement (unauthenticatedFeatures (New env0 id0 t c))).
    rewrite (handleElement_connecting env fuel (New env0 id0 t c) elem
               (eq_refl : state (New env0 id0 t c) = connecting)
               (validateStreamElement_None_open env _ elem Hv)).
    split; [exact Hrun|]. split; [exact Hpre|]. split; [exact Hstate'|].
    destruct (featuresElement_spec (unauthenticatedFeatures (New env0 id0 t c)))
      as [-> ->].
    split; [reflexivity|]. split; [apply Hno, Hnew|].
    intros Hmechs. exists (mechanismsFeature (initializeAuthenticators c)).
    destruct (unauthenticatedFeatures_children (New env0 id0 t c)) as (_ & -> & _).
    rewrite Hnew, orb_true_r. cbn [andb authrs New].
    destruct (mechanismsFeature_spec (initializeAuthenticators c)) as [_ ->].
    rewrite initializeAuthenticators_mechanisms.
    rewrite bool_decide_eq_false_2; [split; reflexivity|].
    intros Hnil. apply Hmechs. rewrite <- initializeAuthenticators_mechanisms, Hnil.
    reflexivity.
Qed.

(** A WebSocket stream of the example deployment: its first features,
    and a starttls element after them. *)
Lemma C10_non_socket_stream_is_secured_witness :
  let s0 := Demo.fresh transport.WebSocket Disallow in
  IsSecured s0 = true
  /\ (exists s1 pre features,
        handleElement Demo.env 1 (Demo.framedOpen "localhost") s0
        = Done tt s1 (pre ++ [WriteElement features])
        /\ xml.Child "starttls" (xml.Elements features) = None
        /\ exists m, xml.Child "mechanisms" (xml.Elements features) = Some m
             /\ xml.Elements m
                = mechanismElement <$> ["PLAIN"; "SCRAM-SHA-1"; "SCRAM-SHA-1-PLUS"])
  /\ (exists s' out,
        handleElement Demo.env 1 Demo.starttls
          (Demo.after [Demo.framedOpen "localhost"] s0) = Done tt s' out
        /\ state s' = disconnected
        /\ written out = [streamerror.Element streamerror.ErrNotAuthorized]).
Proof.
  intros s0.
  destruct (C10_non_socket_stream_is_secured Demo.env "stream-1" transport.WebSocket
              (Demo.config Disallow)) as (Hsec & Hreach & Hfirst); [discriminate|].
  split; [exact Hsec|]. split.
  - destruct (Hfirst Demo.env 1%nat (Demo.framedOpen "localhost"))
      as (s1 & pre & features & Hrun & _ & _ & _ & Hno & Hmech);
      [vm_compute; reflexivity|].
    exists s1, pre, features. split; [exact Hrun|]. split; [exact Hno|].
    apply Hmech. vm_compute. discriminate.
  - destruct (Hreach 1%nat [(Demo.env, ReadElement (Demo.framedOpen "localhost"))]
                (Demo.after [Demo.framedOpen "localhost"] s0))
      as (_ & _ & _ & Hstarttls); [vm_compute; reflexivity|].
    apply Hstarttls; [vm_compute; reflexivity | reflexivity | right; reflexivity].
Defined.

(** * More of the stream *)

(** ** Validation of the stream open *)

(** X1: a stream open passes validation exactly when it has the name and
    the namespaces of its transport, its [to] is empty or a local domain,
    and its version is 1.0.  The error is unsupported-version exactly
    when all but the version is right, and host-unknown exactly when name
    and namespaces are right and [to] is neither empty nor a local
    domain, whatever the version; an open without the name or the
    namespaces of its transport is refused with unsupported-stanza-type or
    invalid-namespace, whatever its host and version. *)
Theorem X1_validateStreamElement_cases (env : Env) (s : stream) (elem : xml.Element) :
  (validateStreamElement env s elem = None
   <-> isStreamOpen (tr s) elem = true
       /\ (xml.To elem = "" \/ IsLocalDomain env (xml.To elem) = true)
       /\ xml.Version elem = "1.0")
  /\ (validateStreamElement env s elem = Some streamerror.ErrUnsupportedVersion
      <-> isStreamOpen (tr s) elem = true
          /\ (xml.To elem = "" \/ IsLocalDomain env (xml.To elem) = true)
          /\ xml.Version elem <> "1.0")
  /\ (validateStreamElement env s elem = Some streamerror.ErrHostUnknown
      <-> isStreamOpen (tr s) elem = true
          /\ xml.To elem <> "" /\ IsLocalDomain env (xml.To elem) = false)
  /\ (isStreamOpen (tr s) elem = false ->
      validateStreamElement env s elem = Some streamerror.ErrUnsupportedStanzaType
      \/ validateStreamElement env s elem = Some streamerror.ErrInvalidNamespace).
Proof.
  assert (Hlen : forall str : string,
            bool_decide (0 < String.length str)%nat = negb (bool_decide (str = ""))).
  { intros [|a str]; reflexivity. }
  destruct (isStreamOpen (tr s) elem) eqn:Hopen.
  - rewrite (validateStreamElement_open env s elem Hopen), Hlen.
    destruct (bool_decide_reflect (xml.To elem = "")) as [Hto|Hto];
      destruct (IsLocalDomain env (xml.To elem)) eqn:Hlocal;
      destruct (bool_decide_reflect (xml.Version elem = "1.0")) as [Hv|Hv];
      cbn [negb andb]; repeat split; intros; try discriminate;
      repeat match goal with
             | H : _ /\ _ |- _ => destruct H
             | H : _ \/ _ |- _ => destruct H
             end; try congruence; auto.
  - assert (Herr : validateStreamElement env s elem
                   = Some streamerror.ErrUnsupportedStanzaType
                   \/ validateStreamElement env s elem
                      = Some streamerror.ErrInvalidNamespace).
    { unfold isStreamOpen, validateStreamElement in *. destruct (tr s).
      - destruct (bool_decide (xml.Name elem = "stream:stream")); [|left; reflexivity].
        cbn [negb andb] in *. right.
        destruct (bool_decide (xml.Namespace elem = jabberClientNamespace));
          [|reflexivity]. cbn [negb andb orb] in *. rewrite Hopen. reflexivity.
      - destruct (bool_decide (xml.Name elem = "open")); [|left; reflexivity].
        cbn [negb andb] in *. right. rewrite Hopen. reflexivity.
      - discriminate Hopen. }
    split; [|split; [|split]]; [| | |intros _; exact Herr].
    all: split; [intros H; destruct Herr as [E|E]; rewrite E in H; discriminate H
                |intros [H _]; discriminate H].
Qed.

(** The stream open of the example passes on the fresh socket stream. *)
Lemma X1_validateStreamElement_cases_witness :
  validateStreamElement Demo.env (Demo.fresh transport.Socket Disallow)
    (Demo.streamOpen "localhost") = None.
Proof.
  destruct (X1_validateStreamElement_cases Demo.env (Demo.fresh transport.Socket Disallow)
              (Demo.streamOpen "localhost")) as [[_ Hpass] _].
  apply Hpass. split; [vm_compute; reflexivity|].
  split; [right; vm_compute; reflexivity | vm_compute; reflexivity].
Defined.

(** ** Disconnecting *)

Lemma disconnectClosingStream_ends env closeStream s :
  exists out,
    disconnectClosingStream env closeStream s
    = Done tt (set_state disconnected (set_ctx (router.Terminate (ctx s)) s))
        (out ++ [UnregisterStream; Close])
    /\ written out = [].
Proof.
  unfold disconnectClosingStream. rewrite bind_unfold.
  destruct (updateLogoutInfo_spec env s) as (out0 & -> & Hout0).
  unfold_m.
  repeat split_test;
    match goal with
    | |- exists out, Done _ _ ?l = _ /\ _ =>
        let l' := eval cbn [app] in l in
        match l' with
        | context [out0 ++ ?rest] =>
            exists (out0 ++ removelast (removelast rest))
        end
    end;
    cbn [app removelast]; rewrite ?app_nil_r, <- ?app_assoc; cbn [app];
    (split; [reflexivity|]); rewrite ?written_app, ?Hout0; reflexivity.
Qed.

Lemma disconnectWithStreamError_ends env strmErr s :
  exists out,
    disconnectWithStreamError env strmErr s
    = Done tt (set_state disconnected (set_ctx (router.Terminate (ctx s)) s))
        (out ++ [UnregisterStream; Close])
    /\ written out = [streamerror.Element strmErr].
Proof.
  unfold disconnectWithStreamError. rewrite bind_unfold. unfold get at 1.
  assert (Hopen : exists out,
    (if bool_decide (state s = connecting) then openStream env else skip) s
    = Done tt s out /\ written out = []).
  { destruct (bool_decide (state s = connecting));
      [apply openStream_spec | exists []; split; reflexivity]. }
  destruct Hopen as (out0 & Hopen & Hout0).
  rewrite bind_unfold, Hopen. rewrite bind_unfold. unfold writeElement, emit at 1.
  destruct (disconnectClosingStream_ends env true s) as (out1 & -> & Hout1).
  exists (out0 ++ WriteElement (streamerror.Element strmErr) :: out1).
  split; [rewrite !app_nil_l, <- !app_assoc; reflexivity|].
  rewrite written_app, Hout0. cbn. fold (written out1). rewrite Hout1. reflexivity.
Qed.

(** X2: every disconnect, for whatever reason and from whatever state,
    ends the stream: the state is disconnected, the context is terminated
    and otherwise as it was, the last two things done are to unregister
    the stream from the router and to close the transport, and the only
    element written is the stream error, when the reason is one. *)
Theorem X2_disconnect_ends (env : Env) (err : option error) (s : stream) :
  exists out,
    disconnect env err s
    = Done tt (set_state disconnected (set_ctx (router.Terminate (ctx s)) s))
        (out ++ [UnregisterStream; Close])
    /\ written out = match err with
                     | Some (StreamErr strmErr) => [streamerror.Element strmErr]
                     | _ => []
                     end.
Proof.
  destruct err as [[strmErr| |]|]; cbn [disconnect];
    first [apply disconnectWithStreamError_ends | apply disconnectClosingStream_ends].
Qed.

Lemma handleElement_dispatch env fuel s elem :
  bool_decide (tr s = transport.WebSocket) && bool_decide (xml.Name elem = "close")
  && bool_decide (xml.Namespace elem = framedStreamNamespace) = false ->
  handleElement env fuel elem s
  = match state s with
    | connecting => handleConnecting env elem
    | connected => handleConnected env elem
    | authenticated => handleAuthenticated env elem
    | authenticating => handleAuthenticating env elem
    | sessionStarted => handleSessionStarted env fuel elem
    | disconnected => skip
    end s.
Proof.
  intros Hclose. unfold handleElement. rewrite bind_unfold. unfold get at 1.
  rewrite Hclose.
  match goal with |- match ?r with _ => _ end = _ => destruct r end; reflexivity.
Qed.

Lemma not_close_by_name s elem :
  xml.Name elem <> "close" ->
  bool_decide (tr s = transport.WebSocket) && bool_decide (xml.Name elem = "close")
  && bool_decide (xml.Namespace elem = framedStreamNamespace) = false.
Proof.
  intros Hname. rewrite (bool_decide_eq_false_2 _ Hname), andb_false_r. reflexivity.
Qed.

(** X3: when the connect timer fires on a stream that is still
    connecting, over a socket or a WebSocket, the stream is opened first,
    then the stream error connection-timeout is written, and the stream
    ends disconnected; the open carries the domain of the stream as its
    sender. *)
Theorem X3_connect_timeout (env : Env) (fuel : nat) (s : stream) :
  state s = connecting ->
  tr s <> transport.Other ->
  exists prolog ops closing rest,
    runPost env fuel ConnectTimerFired s
    = Done tt (set_state disconnected (set_ctx (router.Terminate (ctx s)) s))
        (WriteOpen prolog ops closing
         :: WriteElement (streamerror.Element streamerror.ErrConnectionTimeout)
         :: rest)
    /\ xml.From ops = Domain s
    /\ xml.Version ops = "1.0"
    /\ written rest = []
    /\ count isWriteOpen rest = 0%nat.
Proof.
  intros Hstate Htr. cbn [runPost disconnect].
  unfold disconnectWithStreamError. rewrite bind_unfold. unfold get at 1.
  rewrite Hstate. rewrite bool_decide_eq_true_2 by reflexivity.
  destruct (disconnectClosingStream_ends env true s) as (out1 & Hclose & Hout1).
  assert (Hnone : count isWriteOpen (out1 ++ [UnregisterStream; Close]) = 0%nat).
  { revert Hclose. unfold disconnectClosingStream, updateLogoutInfo. unfold_m.
    repeat split_test; intros H; apply (f_equal events) in H; cbn [events] in H;
      rewrite <- H; reflexivity. }
  assert (Hopen : exists prolog ops closing,
    openStream env s = Done tt s [WriteOpen prolog ops closing]
    /\ xml.From ops = Domain s /\ xml.Version ops = "1.0").
  { unfold openStream. unfold_m. destruct (tr s); [| |contradiction];
      eexists _, _, _; (split; [reflexivity|]); split; reflexivity. }
  destruct Hopen as (prolog & ops & closing & Hopen & Hfrom & Hversion).
  rewrite bind_unfold, Hopen. rewrite bind_unfold. unfold writeElement, emit at 1.
  rewrite Hclose. cbn [app].
  exists prolog, ops, closing, (out1 ++ [UnregisterStream; Close]).
  split; [reflexivity|]. split; [exact Hfrom|]. split; [exact Hversion|].
  split; [|exact Hnone]. rewrite written_app, Hout1. reflexivity.
Qed.

(** The timer fires on the fresh socket stream of the example. *)
Lemma X3_connect_timeout_witness :
  exists prolog ops closing rest,
    runPost Demo.env 1 ConnectTimerFired (Demo.fresh transport.Socket Disallow)
    = Done tt (set_state disconnected
                 (set_ctx (router.Terminate (ctx (Demo.fresh transport.Socket Disallow)))
                    (Demo.fresh transport.Socket Disallow)))
        (WriteOpen prolog ops closing
         :: WriteElement (streamerror.Element streamerror.ErrConnectionTimeout)
         :: rest)
    /\ xml.From ops = "localhost".
Proof.
  destruct (X3_connect_timeout Demo.env 1 (Demo.fresh transport.Socket Disallow))
    as (prolog & ops & closing & rest & Hrun & Hfrom & _).
  - vm_compute; reflexivity.
  - discriminate.
  - exists prolog, ops, closing, rest. split; [exact Hrun|].
    rewrite Hfrom. vm_compute; reflexivity.
Defined.

(** ** What happens only in an established session *)

Lemma says_ret {A} (P : Event -> Prop) (a : A) : says P (mret a).
Proof. intros s. constructor. Qed.

Lemma says_bind {A B} (P : Event -> Prop) (m : M A) (f : A -> M B) :
  says P m -> (forall a, says P (f a)) -> says P (m ≫= f).
Proof.
  intros Hm Hf s. rewrite bind_unfold. specialize (Hm s).
  destruct (m s) as [a s' out|out]; [|exact Hm].
  specialize (Hf a s'). destruct (f a s'); cbn [events] in *;
    apply Forall_app; split; assumption.
Qed.

Lemma says_get_bind {B} (P : Event -> Prop) (k : stream -> M B) :
  (forall s, says P (k s)) -> says P (get ≫= k).
Proof. intros Hk. apply says_bind; [intros s; constructor|exact Hk]. Qed.

Lemma says_emit (P : Event -> Prop) ev : P ev -> says P (emit ev).
Proof. intros H s. repeat constructor. exact H. Qed.

Lemma says_modify (P : Event -> Prop) f : says P (modify f).
Proof. intros s. constructor. Qed.

Lemma says_out_of_fuel {A} (P : Event -> Prop) : says P (fun _ => @OutOfFuel A []).
Proof. intros s. constructor. Qed.

Create HintDb quiet.
#[global] Hint Resolve says_ret says_modify says_out_of_fuel : quiet.
#[global] Hint Extern 1 (says _ (emit _)) => apply says_emit; reflexivity : quiet.

Ltac quiet :=
  unfold skip, writeElement, setState, modifyCtx;
  repeat (intros; cbv beta zeta; first
    [ solve [auto with quiet]
    | match goal with
      | |- says _ (if ?b then _ else _) => destruct b eqn:?
      | |- says _ (match ?x with _ => _ end) => destruct x eqn:?
      | |- says _ (mbind _ get) => apply says_get_bind
      | |- says _ (mbind _ _) => apply says_bind
      end ]).

Lemma quiet_restart : says quietEvent restart.
Proof. unfold restart. quiet. Qed.
#[global] Hint Resolve quiet_restart : quiet.

Lemma quiet_initializeModules : says quietEvent initializeModules.
Proof. unfold initializeModules. quiet. Qed.
#[global] Hint Resolve quiet_initializeModules : quiet.

Lemma quiet_openStream env : says quietEvent (openStream env).
Proof. unfold openStream. quiet. Qed.
#[global] Hint Resolve quiet_openStream : quiet.

Lemma quiet_updateLogoutInfo env : says quietEvent (updateLogoutInfo env).
Proof. unfold updateLogoutInfo. quiet. Qed.
#[global] Hint Resolve quiet_updateLogoutInfo : quiet.

Lemma quiet_disconnectClosingStream env b : says quietEvent (disconnectClosingStream env b).
Proof. unfold disconnectClosingStream. quiet. Qed.
#[global] Hint Resolve quiet_disconnectClosingStream : quiet.

Lemma quiet_disconnectWithStreamError env err :
  says quietEvent (disconnectWithStreamError env err).
Proof. unfold disconnectWithStreamError. quiet. Qed.
#[global] Hint Resolve quiet_disconnectWithStreamError : quiet.

Lemma quiet_disconnect env err : says quietEvent (disconnect env err).
Proof. unfold disconnect. quiet. Qed.
#[global] Hint Resolve quiet_disconnect : quiet.

Lemma quiet_handleElementError env elem err : says quietEvent (handleElementError env elem err).
Proof. unfold handleElementError. quiet. Qed.
#[global] Hint Resolve quiet_handleElementError : quiet.

Lemma quiet_proceedStartTLS env : says quietEvent (proceedStartTLS env).
Proof. unfold proceedStartTLS. quiet. Qed.

Lemma quiet_compress env elem : says quietEvent (compress env elem).
Proof. unfold compress. quiet. Qed.

Lemma quiet_resetActiveAuthr : says quietEvent resetActiveAuthr.
Proof. unfold resetActiveAuthr. quiet. Qed.
#[global] Hint Resolve quiet_proceedStartTLS quiet_compress quiet_resetActiveAuthr : quiet.

Lemma quiet_failAuthentication elem : says quietEvent (failAuthentication elem).
Proof. unfold failAuthentication. quiet. Qed.
#[global] Hint Resolve quiet_failAuthentication : quiet.

Lemma quiet_continueAuthentication env elem i :
  says quietEvent (continueAuthentication env elem i).
Proof. unfold continueAuthentication. quiet. Qed.

Lemma quiet_finishAuthentication env username :
  says quietEvent (finishAuthentication env username).
Proof. unfold finishAuthentication. quiet. Qed.
#[global] Hint Resolve quiet_continueAuthentication quiet_finishAuthentication : quiet.

Lemma quiet_startAuthentication env elem : says quietEvent (startAuthentication env elem).
Proof. unfold startAuthentication. quiet. Qed.

Lemma quiet_bindResource env iq : says quietEvent (bindResource env iq).
Proof. unfold bindResource. quiet. Qed.

Lemma quiet_startSession iq : says quietEvent (startSession iq).
Proof. unfold startSession. quiet. Qed.
#[global] Hint Resolve quiet_startAuthentication quiet_bindResource quiet_startSession : quiet.

Lemma quiet_handleConnecting env elem : says quietEvent (handleConnecting env elem).
Proof. unfold handleConnecting. quiet. Qed.

Lemma quiet_handleConnected env elem : says quietEvent (handleConnected env elem).
Proof. unfold handleConnected. quiet. Qed.

Lemma quiet_handleAuthenticating env elem : says quietEvent (handleAuthenticating env elem).
Proof. unfold handleAuthenticating. quiet. Qed.

Lemma quiet_handleAuthenticated env elem : says quietEvent (handleAuthenticated env elem).
Proof. unfold handleAuthenticated. quiet. Qed.



(** ** Stanzas as the stream builds them *)

Lemma NewPresenceFromElement_Some elem from to presence :
  xml.NewPresenceFromElement elem from to = Some presence ->
  xml.Name elem = "presence" /\ xml.prElem presence = elem
  /\ xml.prFrom presence = from /\ xml.prTo presence = to.
Proof.
  unfold xml.NewPresenceFromElement. intros H.
  destruct (bool_decide (xml.Name elem = "presence")) eqn:Hn; [|discriminate H].
  apply bool_decide_eq_true_1 in Hn. cbn [negb] in H.
  destruct (negb _); [discriminate H|].
  destruct (xml.Child "priority" (xml.Elements elem)).
  - destruct (xml.Atoi _); [|discriminate H]. cbn in H.
    destruct (_ || _); [discriminate H|]. injection H as <-. auto.
  - injection H as <-. auto.
Qed.

Lemma NewMessageFromElement_Some elem from to message :
  xml.NewMessageFromElement elem from to = Some message ->
  xml.Name elem = "message" /\ message = xml.mkMessage elem from to.
Proof.
  unfold xml.NewMessageFromElement. intros H.
  destruct (bool_decide (xml.Name elem = "message")) eqn:Hn; [|discriminate H].
  apply bool_decide_eq_true_1 in Hn. cbn [negb] in H.
  destruct (negb _); [discriminate H|]. injection H as <-. auto.
Qed.

Lemma extractAddresses_inr env s elem validateFrom fromJID toJID :
  extractAddresses env s elem validateFrom = inr (fromJID, toJID) ->
  fromJID = JID s
  /\ (if bool_decide (xml.To elem = "") then toJID = xml.ToBareJID (JID s)
      else xml.NewJIDString (stringprep env) (xml.To elem) false = Some toJID)
  /\ (validateFrom = true -> xml.From elem <> "" ->
      isValidFrom env s (xml.From elem) = true).
Proof.
  unfold extractAddresses. intros H.
  destruct (validateFrom && _ && negb _) eqn:Hfrom; [discriminate H|].
  assert (Hto : bool_decide (0 < String.length (xml.To elem))%nat
                = negb (bool_decide (xml.To elem = ""))).
  { destruct (xml.To elem); reflexivity. }
  rewrite Hto in H. destruct (bool_decide (xml.To elem = "")); cbn [negb] in H.
  - injection H as <- <-. split; [reflexivity|]. split; [reflexivity|].
    intros -> Hne. rewrite (length_pos_nonempty _ Hne) in Hfrom. cbn in Hfrom.
    destruct (isValidFrom env s (xml.From elem)); [reflexivity|discriminate Hfrom].
  - destruct (xml.NewJIDString _ _ _) as [j|]; [|discriminate H].
    injection H as <- <-. split; [reflexivity|]. split; [reflexivity|].
    intros -> Hne. rewrite (length_pos_nonempty _ Hne) in Hfrom. cbn in Hfrom.
    destruct (isValidFrom env s (xml.From elem)); [reflexivity|discriminate Hfrom].
Qed.

(** X5: a stanza that the stream builds from an element is that element,
    of the kind its name says; its sender is the JID of the stream,
    whatever the element says, and a [from] that is checked has passed
    isValidFrom; its destination is the bare JID of the stream when the
    element has no [to], and the JID that [to] parses to otherwise; and
    the namespace of the element is empty or jabber:client. *)
Theorem X5_buildStanza_result (env : Env) (s : stream) (elem : xml.Element)
    (validateFrom : bool) (stanza : xml.Stanza) :
  buildStanza env s elem validateFrom = inr stanza ->
  xml.toElement stanza = elem
  /\ xml.FromJID stanza = JID s
  /\ (xml.To elem = "" -> xml.ToJID stanza = xml.ToBareJID (JID s))
  /\ (xml.To elem <> "" ->
      xml.NewJIDString (stringprep env) (xml.To elem) false = Some (xml.ToJID stanza))
  /\ (validateFrom = true -> xml.From elem <> "" ->
      isValidFrom env s (xml.From elem) = true)
  /\ (xml.Namespace elem = "" \/ xml.Namespace elem = jabberClientNamespace)
  /\ xml.Name elem = match stanza with
                     | xml.StIQ _ => "iq"
                     | xml.StPresence _ => "presence"
                     | xml.StMessage _ => "message"
                     end.
Proof.
  unfold buildStanza. intros H.
  destruct (validateNamespace elem) eqn:Hns; [discriminate H|].
  assert (Hns' : xml.Namespace elem = "" \/ xml.Namespace elem = jabberClientNamespace).
  { unfold validateNamespace in Hns.
    destruct (bool_decide_reflect (String.length (xml.Namespace elem) = 0%nat)) as [Hl|Hl].
    - left. destruct (xml.Namespace elem); [reflexivity|discriminate Hl].
    - cbn [orb] in Hns.
      destruct (bool_decide_reflect (xml.Namespace elem = jabberClientNamespace));
        [right; assumption|discriminate Hns]. }
  destruct (extractAddresses env s elem validateFrom) as [?|[fromJID toJID]] eqn:Haddr;
    [discriminate H|].
  destruct (extractAddresses_inr _ _ _ _ _ _ Haddr) as (-> & Hto & Hfrom).
  assert (Hto1 : xml.To elem = "" -> toJID = xml.ToBareJID (JID s)).
  { intros Hempty. rewrite bool_decide_eq_true_2 in Hto by exact Hempty. exact Hto. }
  assert (Hto2 : xml.To elem <> "" ->
            xml.NewJIDString (stringprep env) (xml.To elem) false = Some toJID).
  { intros Hne. rewrite bool_decide_eq_false_2 in Hto by exact Hne. exact Hto. }
  destruct (bool_decide (xml.Name elem = "iq")).
  { destruct (xml.NewIQFromElement elem (JID s) toJID) as [iq|] eqn:Hiq; [|discriminate H].
    apply NewIQFromElement_Some in Hiq as [Hname ->]. injection H as <-.
    cbn. auto 10. }
  destruct (bool_decide (xml.Name elem = "presence")).
  { destruct (xml.NewPresenceFromElement elem (JID s) toJID) as [p|] eqn:Hp;
      [|discriminate H].
    apply NewPresenceFromElement_Some in Hp as (Hname & He & Hf & Ht).
    injection H as <-. cbn. rewrite He, Hf, Ht. auto 10. }
  destruct (bool_decide (xml.Name elem = "message")); [|discriminate H].
  destruct (xml.NewMessageFromElement elem (JID s) toJID) as [m|] eqn:Hm; [|discriminate H].
  apply NewMessageFromElement_Some in Hm as [Hname ->]. injection H as <-.
  cbn. auto 10.
Qed.

(** A message of the example session that claims to be from carol is not
    built; one that names no sender, or alice, is, as from alice. *)
Lemma X5_buildStanza_result_witness :
  exists stanza,
    buildStanza Demo.env Demo.inSession
      (Demo.el "message" [("type", "chat"); ("from", "alice@localhost")] []) true
    = inr stanza
    /\ xml.FromJID stanza = xml.mkJID "alice" "localhost" "phone"
    /\ xml.ToJID stanza = xml.mkJID "alice" "localhost" "".
Proof.
  destruct (buildStanza Demo.env Demo.inSession
              (Demo.el "message" [("type", "chat"); ("from", "alice@localhost")] []) true)
    as [err|stanza] eqn:Hbuild; [vm_compute in Hbuild; discriminate Hbuild|].
  exists stanza. split; [reflexivity|].
  destruct (X5_buildStanza_result Demo.env Demo.inSession _ true stanza Hbuild)
    as (_ & Hfrom & Hto & _).
  split; [rewrite Hfrom; vm_compute; reflexivity|].
  rewrite Hto by (vm_compute; reflexivity). vm_compute; reflexivity.
Defined.

Lemma validateNamespace_cases elem :
  validateNamespace elem
  = if bool_decide (xml.Namespace elem = "")
       || bool_decide (xml.Namespace elem = jabberClientNamespace)
    then None else Some streamerror.ErrInvalidNamespace.
Proof.
  unfold validateNamespace.
  replace (bool_decide (String.length (xml.Namespace elem) = 0%nat))
    with (bool_decide (xml.Namespace elem = "")); [reflexivity|].
  destruct (xml.Namespace elem); reflexivity.
Qed.

(** X6: the checks of buildStanza, in their order.  A namespace that is
    neither empty nor jabber:client is the stream error invalid-namespace;
    then a [from] that is checked, not empty and not valid is the stream
    error invalid-from, and is not looked at when it is not checked; then
    a [to] that does not parse is the stanza error jid-malformed; then a
    name other than iq, presence and message is the stream error
    unsupported-stanza-type. *)
Theorem X6_buildStanza_checks (env : Env) (s : stream) (elem : xml.Element)
    (validateFrom : bool) :
  let nsOk := xml.Namespace elem = "" \/ xml.Namespace elem = jabberClientNamespace in
  let fromOk := validateFrom = false \/ xml.From elem = ""
                \/ isValidFrom env s (xml.From elem) = true in
  let toOk := xml.To elem = ""
              \/ is_Some (xml.NewJIDString (stringprep env) (xml.To elem) false) in
  (~ nsOk ->
   buildStanza env s elem validateFrom = inl (StreamErr streamerror.ErrInvalidNamespace))
  /\ (nsOk -> ~ fromOk ->
      buildStanza env s elem validateFrom = inl (StreamErr streamerror.ErrInvalidFrom))
  /\ (nsOk -> fromOk -> ~ toOk ->
      buildStanza env s elem validateFrom = inl (StanzaErr xml.ErrJidMalformed))
  /\ (nsOk -> fromOk -> toOk ->
      xml.Name elem <> "iq" -> xml.Name elem <> "presence" -> xml.Name elem <> "message" ->
      buildStanza env s elem validateFrom
      = inl (StreamErr streamerror.ErrUnsupportedStanzaType)).
Proof.
  intros nsOk fromOk toOk. unfold buildStanza. rewrite validateNamespace_cases.
  assert (Hns : nsOk <-> bool_decide (xml.Namespace elem = "")
                         || bool_decide (xml.Namespace elem = jabberClientNamespace) = true).
  { unfold nsOk. rewrite orb_true_iff, !bool_decide_eq_true. reflexivity. }
  split.
  { intros Hbad. destruct (_ || _); [|reflexivity]. exfalso. apply Hbad, Hns. reflexivity. }
  assert (Hfrom : fromOk <->
            validateFrom && bool_decide (0 < String.length (xml.From elem))%nat
            && negb (isValidFrom env s (xml.From elem)) = false).
  { unfold fromOk.
    replace (bool_decide (0 < String.length (xml.From elem))%nat)
      with (negb (bool_decide (xml.From elem = "")))
      by (destruct (xml.From elem); reflexivity).
    destruct validateFrom, (bool_decide_reflect (xml.From elem = "")),
      (isValidFrom env s (xml.From elem)); cbn; split; auto;
      intros [H|[H|H]]; try discriminate; try contradiction; auto. }
  assert (Hlen : bool_decide (0 < String.length (xml.To elem))%nat
                 = negb (bool_decide (xml.To elem = "")))
    by (destruct (xml.To elem); reflexivity).
  split; [|split].
  - intros Hok Hbad. apply Hns in Hok. rewrite Hok. unfold extractAddresses.
    destruct (validateFrom && _ && negb _); [reflexivity|].
    exfalso. apply Hbad, Hfrom. reflexivity.
  - intros Hok Hf Hbad. apply Hns in Hok. rewrite Hok. unfold extractAddresses.
    apply Hfrom in Hf. rewrite Hf, Hlen.
    destruct (bool_decide_reflect (xml.To elem = "")) as [Hto|Hto]; cbn [negb].
    + exfalso. apply Hbad. left. exact Hto.
    + destruct (xml.NewJIDString _ _ _) eqn:Hparse; [|reflexivity].
      exfalso. apply Hbad. right. eauto.
  - intros Hok Hf Ht Hiq Hpr Hmsg. apply Hns in Hok. rewrite Hok.
    unfold extractAddresses. apply Hfrom in Hf. rewrite Hf, Hlen.
    rewrite (bool_decide_eq_false_2 _ Hiq), (bool_decide_eq_false_2 _ Hpr),
      (bool_decide_eq_false_2 _ Hmsg).
    destruct (bool_decide_reflect (xml.To elem = "")) as [Hto|Hto]; cbn [negb];
      [reflexivity|].
    destruct Ht as [Ht|[j Hj]]; [contradiction|]. rewrite Hj. reflexivity.
Qed.

(** A message in the namespace of the server-to-server streams, in the
    example session. *)
Lemma X6_buildStanza_checks_witness :
  buildStanza Demo.env Demo.inSession
    (Demo.el "message" [("xmlns", "jabber:server"); ("to", "bob@localhost")] []) true
  = inl (StreamErr streamerror.ErrInvalidNamespace).
Proof.
  destruct (X6_buildStanza_checks Demo.env Demo.inSession
              (Demo.el "message" [("xmlns", "jabber:server"); ("to", "bob@localhost")] [])
              true) as [Hns _].
  apply Hns. intros [H|H]; vm_compute in H; discriminate H.
Defined.

Lemma handleElementError_spec env elem err s :
  exists s' out,
    handleElementError env elem err s = Done tt s' out
    /\ Forall quietEvent out
    /\ match err with
       | StreamErr strmErr =>
           s' = set_state disconnected (set_ctx (router.Terminate (ctx s)) s)
           /\ written out = [streamerror.Element strmErr]
       | StanzaErr stanzaErr =>
           s' = s /\ written out = [xml.NewErrorElementFromElement elem stanzaErr []]
       | OtherErr _ => s' = s /\ written out = []
       end.
Proof.
  pose proof (quiet_handleElementError env elem err s) as Hq.
  destruct err as [strmErr|stanzaErr|msg]; cbn [handleElementError] in *.
  - destruct (disconnectWithStreamError_ends env strmErr s) as (out & Hrun & Hw).
    rewrite Hrun in *. eexists _, _.
    split; [reflexivity|]. split; [exact Hq|]. split; [reflexivity|].
    rewrite written_app, Hw. reflexivity.
  - eexists _, _. split; [reflexivity|]. split; [exact Hq|]. split; reflexivity.
  - eexists _, _. split; [reflexivity|]. split; [exact Hq|]. split; reflexivity.
Qed.



(** ** Negotiation: state connected *)

(** X8: in state connected, an element that is none of starttls, auth
    and iq ends the stream: a message or a presence with the stream error
    not-authorized, any other element with unsupported-stanza-type; an
    auth element outside the SASL namespace, and a starttls element with
    a namespace other than that of TLS, end it with invalid-namespace. *)
Theorem X8_connected_rejects (env : Env) (fuel : nat) (s : stream) (elem : xml.Element) :
  state s = connected ->
  xml.Name elem <> "close" ->
  let expected :=
    if bool_decide (xml.Name elem = "starttls") then
      if bool_decide (xml.Namespace elem = "") || bool_decide (xml.Namespace elem = tlsNamespace)
      then None else Some streamerror.ErrInvalidNamespace
    else if bool_decide (xml.Name elem = "auth") then
      if bool_decide (xml.Namespace elem = saslNamespace)
      then None else Some streamerror.ErrInvalidNamespace
    else if bool_decide (xml.Name elem = "iq") then None
    else if bool_decide (xml.Name elem = "message") || bool_decide (xml.Name elem = "presence")
    then Some streamerror.ErrNotAuthorized
    else Some streamerror.ErrUnsupportedStanzaType in
  forall strmErr, expected = Some strmErr ->
    exists out,
      handleElement env fuel elem s
      = Done tt (set_state disconnected (set_ctx (router.Terminate (ctx s)) s))
          (out ++ [UnregisterStream; Close])
      /\ written out = [streamerror.Element strmErr].
Proof.
  intros Hstate Hname expected strmErr Hexp.
  rewrite (handleElement_dispatch env fuel s elem (not_close_by_name s elem Hname)), Hstate.
  unfold handleConnected. rewrite bind_unfold. unfold get at 1.
  assert (Hlen : bool_decide (0 < String.length (xml.Namespace elem))%nat
                 = negb (bool_decide (xml.Namespace elem = "")))
    by (destruct (xml.Namespace elem); reflexivity).
  rewrite Hlen. subst expected.
  destruct (disconnectWithStreamError_ends env strmErr s) as (out & Hrun & Hw).
  destruct (bool_decide (xml.Name elem = "starttls")).
  { destruct (bool_decide (xml.Namespace elem = "")),
      (bool_decide (xml.Namespace elem = tlsNamespace)); cbn [negb andb orb] in *;
      try discriminate Hexp; injection Hexp as <-; rewrite Hrun; eauto. }
  destruct (bool_decide (xml.Name elem = "auth")).
  { destruct (bool_decide (xml.Namespace elem = saslNamespace)); cbn [negb] in *;
      try discriminate Hexp; injection Hexp as <-; rewrite Hrun; eauto. }
  destruct (bool_decide (xml.Name elem = "iq")); [discriminate Hexp|].
  destruct (_ || _); injection Hexp as <-; rewrite Hrun; eauto.
Qed.

(** A message before authentication, on the example stream after its
    first open. *)
Lemma X8_connected_rejects_witness :
  exists out,
    handleElement Demo.env 1 (Scenes.messageTo "chat" "bob@localhost") (Demo.opened Disallow)
    = Done tt (set_state disconnected
                 (set_ctx (router.Terminate (ctx (Demo.opened Disallow)))
                    (Demo.opened Disallow)))
        (out ++ [UnregisterStream; Close])
    /\ written out = [streamerror.Element streamerror.ErrNotAuthorized].
Proof.
  apply (X8_connected_rejects Demo.env 1 (Demo.opened Disallow)
           (Scenes.messageTo "chat" "bob@localhost")).
  - vm_compute; reflexivity.
  - discriminate.
  - vm_compute; reflexivity.
Defined.

(** X9: in state connected, a starttls element (with the TLS namespace or
    none) on a stream that is not secured is answered with proceed; the
    transport starts TLS, the parser is made anew, the stream is secured
    and back in state connecting, and nothing else of it has changed.
    The transport kind is not looked at. *)
Theorem X9_starttls_proceeds (env : Env) (fuel : nat) (s : stream) (elem : xml.Element) :
  state s = connected ->
  IsSecured s = false ->
  xml.Name elem = "starttls" ->
  xml.Namespace elem = "" \/ xml.Namespace elem = tlsNamespace ->
  let s' := set_state connecting
              (set_ctx (router.SetBool true securedCtxKey (ctx s)) s) in
  handleElement env fuel elem s
  = Done tt s' [WriteElement (xml.NewElementNamespace "proceed" tlsNamespace);
                StartTLS; NewParser]
  /\ IsSecured s' = true
  /\ xml.Child "starttls" (unauthenticatedFeatures s') = None
  /\ (authrs s <> [] ->
      xml.Child "mechanisms" (unauthenticatedFeatures s')
      = Some (mechanismsFeature (authrs s))).
Proof.
  intros Hstate Hsec Hname Hns s'.
  assert (Hsec' : IsSecured s' = true) by (subst s'; ctx_simpl; reflexivity).
  split; [|split; [exact Hsec'|]].
  - rewrite (handleElement_dispatch env fuel s elem)
      by (apply not_close_by_name; rewrite Hname; discriminate).
    rewrite Hstate. unfold handleConnected. rewrite bind_unfold. unfold get at 1.
    rewrite Hname. rewrite (bool_decide_eq_true_2 ("starttls" = "starttls")) by reflexivity.
    assert (Hok : bool_decide (0 < String.length (xml.Namespace elem))%nat
                  && negb (bool_decide (xml.Namespace elem = tlsNamespace)) = false).
    { destruct Hns as [-> | ->]; [reflexivity|].
      rewrite (bool_decide_eq_true_2 (tlsNamespace = tlsNamespace)) by reflexivity.
      apply andb_false_r. }
    rewrite Hok. unfold proceedStartTLS. rewrite bind_unfold. unfold get at 1.
    rewrite Hsec. reflexivity.
  - destruct (unauthenticatedFeatures_children s') as (Htls & Hmech & _).
    rewrite Htls, Hmech, Hsec', andb_false_r, orb_true_r. split; [reflexivity|].
    intros Hne. subst s'. cbn [authrs set_state set_ctx andb].
    rewrite bool_decide_eq_false_2 by exact Hne. reflexivity.
Qed.

Lemma X9_starttls_proceeds_witness :
  exists s',
    handleElement Demo.env 1 Demo.starttls (Demo.opened Disallow)
    = Done tt s' [WriteElement (xml.NewElementNamespace "proceed" tlsNamespace);
                  StartTLS; NewParser]
    /\ state s' = connecting /\ IsSecured s' = true.
Proof.
  destruct (X9_starttls_proceeds Demo.env 1 (Demo.opened Disallow) Demo.starttls)
    as (Hrun & Hsec & _).
  - vm_compute; reflexivity.
  - vm_compute; reflexivity.
  - vm_compute; reflexivity.
  - right. vm_compute; reflexivity.
  - eexists. split; [exact Hrun|]. split; [reflexivity|exact Hsec].
Defined.

(** ** SASL *)

Lemma handleElement_auth env fuel s elem :
  state s = connected ->
  xml.Name elem = "auth" ->
  xml.Namespace elem = saslNamespace ->
  handleElement env fuel elem s = startAuthentication env elem s.
Proof.
  intros Hstate Hname Hns.
  rewrite (handleElement_dispatch env fuel s elem)
    by (apply not_close_by_name; rewrite Hname; discriminate).
  rewrite Hstate. unfold handleConnected. rewrite bind_unfold. unfold get at 1.
  rewrite Hname, Hns.
  rewrite (bool_decide_eq_false_2 ("auth" = "starttls")) by discriminate.
  rewrite (bool_decide_eq_true_2 ("auth" = "auth")) by reflexivity.
  rewrite (bool_decide_eq_true_2 (saslNamespace = saslNamespace)) by reflexivity.
  cbn [negb]. destruct (startAuthentication env elem s); reflexivity.
Qed.

(** X10: an auth element that names a mechanism which no authenticator of
    the stream has is answered with the SASL failure invalid-mechanism,
    and the stream is left as it was; it is so in particular on a stream
    with no authenticator at all. *)
Theorem X10_unknown_mechanism (env : Env) (fuel : nat) (s : stream) (elem : xml.Element) :
  state s = connected ->
  xml.Name elem = "auth" ->
  xml.Namespace elem = saslNamespace ->
  (forall authr, authr ∈ authrs s ->
     auth.Mechanism authr <> xml.Get "mechanism" (xml.Attributes elem)) ->
  handleElement env fuel elem s
  = Done tt s [WriteElement
                 (xml.AppendElement (xml.NewElementName "invalid-mechanism")
                    (xml.NewElementNamespace "failure" saslNamespace))].
Proof.
  intros Hstate Hname Hns Hnone.
  rewrite (handleElement_auth env fuel s elem Hstate Hname Hns).
  unfold startAuthentication. rewrite bind_unfold. unfold get at 1.
  destruct (list_find _ (authrs s)) as [[i authr]|] eqn:Hfind; [|reflexivity].
  apply list_find_Some in Hfind as (Hi & Hm & _).
  exfalso. apply (Hnone authr); [|exact Hm].
  apply list_elem_of_lookup. eauto.
Qed.

Lemma X10_unknown_mechanism_witness :
  handleElement Demo.env 1
    (Demo.el "auth" [("xmlns", saslNamespace); ("mechanism", "DIGEST-MD5")] [])
    (Demo.opened Disallow)
  = Done tt (Demo.opened Disallow)
      [WriteElement (xml.AppendElement (xml.NewElementName "invalid-mechanism")
                       (xml.NewElementNamespace "failure" saslNamespace))].
Proof.
  apply (X10_unknown_mechanism Demo.env 1 (Demo.opened Disallow)).
  - vm_compute; reflexivity.
  - vm_compute; reflexivity.
  - vm_compute; reflexivity.
  - intros authr Hin. vm_compute in Hin.
    repeat (apply elem_of_cons in Hin as [->|Hin]; [vm_compute; discriminate|]).
    by apply elem_of_nil in Hin.
Defined.

(** X11: the first authenticator of the stream that has the mechanism of
    an auth element is handed the element, in state connected and with no
    authenticator active.  When it answers with an error, the failure is
    written with the condition of the error (temporary-auth-failure for an
    error that is not a SASL error) and the stream stays in state
    connected, not authenticated.  When it answers without error and is
    authenticated, the user name it gives is set in the context together
    with the flag authenticated and the JID of that user at the domain of
    the stream, and the stream restarts: new parser, state connecting.
    When it answers without error and is not yet authenticated, it
    becomes the active authenticator and the state is authenticating. *)
Theorem X11_authentication_outcomes (env : Env) (fuel : nat) (s : stream)
    (elem : xml.Element) (i : nat) (authr authr' : auth.Authenticator)
    (err : option auth.Failure) :
  state s = connected ->
  activeAuthr s = None ->
  xml.Name elem = "auth" ->
  xml.Namespace elem = saslNamespace ->
  list_find (fun a => auth.Mechanism a = xml.Get "mechanism" (xml.Attributes elem))
    (authrs s) = Some (i, authr) ->
  auth.ProcessElement (authBehaviour env) authr elem = (authr', err) ->
  exists s' out,
    handleElement env fuel elem s = Done tt s' out
    /\ authrs s' = <[i := authr']> (authrs s)
    /\ Domain s' = Domain s /\ IsSecured s' = IsSecured s /\ Resource s' = Resource s
    /\ match err with
       | Some failure =>
           out = [WriteElement
                    (xml.AppendElement
                       match failure with
                       | auth.SASLError condition => condition
                       | auth.Failed _ => auth.ErrSASLTemporaryAuthFailure
                       end (xml.NewElementNamespace "failure" saslNamespace))]
           /\ state s' = connected /\ ctx s' = ctx s /\ activeAuthr s' = None
       | None =>
           if auth.Authenticated (authBehaviour env) authr' then
             out = [NewParser]
             /\ state s' = connecting
             /\ IsAuthenticated s' = true
             /\ Username s' = auth.Username (authBehaviour env) authr'
             /\ JID s' = xml.mkJID (auth.Username (authBehaviour env) authr') (Domain s) ""
             /\ activeAuthr s' = None
           else
             out = []
             /\ state s' = authenticating /\ ctx s' = ctx s /\ activeAuthr s' = Some i
       end.
Proof.
  intros Hstate Hactive Hname Hns Hfind Hproc.
  rewrite (handleElement_auth env fuel s elem Hstate Hname Hns).
  pose proof Hfind as Hi. apply list_find_Some in Hi as (Hi & _ & _).
  assert (Hlookup : <[i := authr']> (authrs s) !! i = Some authr').
  { apply list_lookup_insert_eq. apply lookup_lt_Some in Hi. exact Hi. }
  unfold startAuthentication, continueAuthentication, failAuthentication,
    finishAuthentication, resetActiveAuthr.
  unfold_m. cbn [app]. rewrite Hfind. cbn [app]. rewrite Hi, Hproc. cbn [app].
  destruct err as [failure|].
  - destruct failure as [condition|msg]; cbn [app activeAuthr set_authrs];
      rewrite Hactive; cbn [app];
      eexists _, _; (split; [reflexivity|]); repeat split; auto.
  - cbn [app authrs set_authrs]. rewrite Hlookup.
    destruct (auth.Authenticated (authBehaviour env) authr');
      cbn [app activeAuthr set_authrs]; rewrite ?Hactive; cbn [app];
      eexists _, _; (split; [reflexivity|]);
      cbn [authrs set_state set_ctx set_authrs set_activeAuthr state activeAuthr];
      repeat split; auto; ctx_simpl; reflexivity.
Qed.

(** The PLAIN login of the example stream, on its second open. *)
Lemma X11_authentication_outcomes_witness :
  let s := Demo.after [Demo.starttls; Demo.streamOpen "localhost"] (Demo.opened Disallow) in
  exists s',
    handleElement Demo.env 1 Demo.authPlain s = Done tt s' [NewParser]
    /\ state s' = connecting
    /\ IsAuthenticated s' = true
    /\ Username s' = "alice"
    /\ JID s' = xml.mkJID "alice" "localhost" "".
Proof.
  intros s.
  destruct (X11_authentication_outcomes Demo.env 1 s Demo.authPlain 0
              auth.NewPlain (auth.mkAuthenticator auth.Plain [Demo.authPlain]) None)
    as (s' & out & Hrun & _ & _ & _ & _ & Hcase).
  - vm_compute; reflexivity.
  - vm_compute; reflexivity.
  - vm_compute; reflexivity.
  - vm_compute; reflexivity.
  - vm_compute; reflexivity.
  - vm_compute; reflexivity.
  - change (auth.Authenticated (authBehaviour Demo.env)
              (auth.mkAuthenticator auth.Plain [Demo.authPlain])) with true in Hcase.
    destruct Hcase as (-> & Hstate & Hauth & Huser & Hjid & _).
    exists s'. split; [exact Hrun|]. split; [exact Hstate|]. split; [exact Hauth|].
    split; [exact Huser|]. exact Hjid.
Defined.

(** ** Compression, binding and session: state authenticated *)

Lemma handleElement_compress env fuel s elem :
  state s = authenticated ->
  xml.Name elem = "compress" ->
  xml.Namespace elem = compressProtocolNamespace ->
  handleElement env fuel elem s = compress env elem s.
Proof.
  intros Hstate Hname Hns.
  rewrite (handleElement_dispatch env fuel s elem)
    by (apply not_close_by_name; rewrite Hname; discriminate).
  rewrite Hstate. unfold handleAuthenticated. rewrite bind_unfold. unfold get at 1.
  rewrite Hname, Hns.
  rewrite (bool_decide_eq_true_2 ("compress" = "compress")) by reflexivity.
  rewrite (bool_decide_eq_true_2 (compressProtocolNamespace = compressProtocolNamespace))
    by reflexivity.
  cbn [negb]. destruct (compress env elem s); reflexivity.
Qed.

(** X12: a compress element in state authenticated.  On a stream that is
    not compressed: without a method, or with an empty one, the failure
    setup-failed is written; with a method other than zlib, the failure
    unsupported-method; in both cases the stream is left as it was.  With
    the method zlib the flag compressed is set, compressed is written, the
    transport is told to compress at the configured level, and the stream
    restarts.  The kind of the transport and the configured level are not
    looked at.  Compression is enabled in no other case. *)
Theorem X12_compress_outcomes (env : Env) (fuel : nat) (s : stream) (elem : xml.Element) :
  state s = authenticated ->
  IsCompressed s = false ->
  xml.Name elem = "compress" ->
  xml.Namespace elem = compressProtocolNamespace ->
  let method := match xml.Child "method" (xml.Elements elem) with
                | Some m => xml.Text m
                | None => ""
                end in
  let failure (condition : string) :=
    WriteElement (xml.AppendElement (xml.NewElementName condition)
                    (xml.NewElementNamespace "failure" compressProtocolNamespace)) in
  handleElement env fuel elem s
  = if bool_decide (method = "") then Done tt s [failure "setup-failed"]
    else if bool_decide (method = "zlib") then
      Done tt (set_state connecting
                 (set_ctx (router.SetBool true compressedCtxKey (ctx s)) s))
        [WriteElement (xml.NewElementNamespace "compressed" compressProtocolNamespace);
         EnableCompression (Level (Compression (cfg s)));
         NewParser]
    else Done tt s [failure "unsupported-method"].
Proof.
  intros Hstate Hcomp Hname Hns method failure.
  rewrite (handleElement_compress env fuel s elem Hstate Hname Hns).
  unfold compress. rewrite bind_unfold. unfold get at 1. rewrite Hcomp.
  subst method. destruct (xml.Child "method" (xml.Elements elem)) as [m|]; [|reflexivity].
  replace (bool_decide (String.length (xml.Text m) = 0%nat))
    with (bool_decide (xml.Text m = "")) by (destruct (xml.Text m); reflexivity).
  destruct (bool_decide (xml.Text m = "")); [reflexivity|].
  destruct (bool_decide (xml.Text m = "zlib")); reflexivity.
Qed.

(** The example stream after login, asked to compress with zlib and with
    another method. *)
Lemma X12_compress_outcomes_witness :
  count isEnableCompression
    (events (handleElement Demo.env 1 (Scenes.compressWith "zlib") (Demo.loggedIn Disallow)))
  = 1%nat
  /\ handleElement Demo.env 1 (Scenes.compressWith "lzw") (Demo.loggedIn Disallow)
     = Done tt (Demo.loggedIn Disallow)
         [WriteElement (xml.AppendElement (xml.NewElementName "unsupported-method")
                          (xml.NewElementNamespace "failure" compressProtocolNamespace))].
Proof.
  split.
  - rewrite (X12_compress_outcomes Demo.env 1 (Demo.loggedIn Disallow)
               (Scenes.compressWith "zlib")); vm_compute; reflexivity.
  - rewrite (X12_compress_outcomes Demo.env 1 (Demo.loggedIn Disallow)
               (Scenes.compressWith "lzw")); vm_compute; reflexivity.
Defined.

(** X13: a stream that is compressed answers a further compress element
    with the stream error unsupported-stanza-type and ends; so does a
    stream in state authenticated for a compress element outside the
    compression namespace, and for any element that is neither compress
    nor iq. *)
Theorem X13_authenticated_rejects (env : Env) (fuel : nat) (s : stream)
    (elem : xml.Element) :
  state s = authenticated ->
  xml.Name elem <> "close" ->
  xml.Name elem <> "iq" ->
  (xml.Name elem = "compress" -> xml.Namespace elem = compressProtocolNamespace ->
   IsCompressed s = true) ->
  exists out,
    handleElement env fuel elem s
    = Done tt (set_state disconnected (set_ctx (router.Terminate (ctx s)) s))
        (out ++ [UnregisterStream; Close])
    /\ written out = [streamerror.Element streamerror.ErrUnsupportedStanzaType].
Proof.
  intros Hstate Hclose Hiq Hcomp.
  rewrite (handleElement_dispatch env fuel s elem (not_close_by_name s elem Hclose)), Hstate.
  unfold handleAuthenticated. rewrite bind_unfold. unfold get at 1.
  destruct (disconnectWithStreamError_ends env streamerror.ErrUnsupportedStanzaType s)
    as (out & Hrun & Hw).
  rewrite (bool_decide_eq_false_2 _ Hiq).
  destruct (bool_decide_reflect (xml.Name elem = "compress")) as [Hn|Hn].
  - destruct (bool_decide_reflect (xml.Namespace elem = compressProtocolNamespace))
      as [Hns|Hns]; cbn [negb].
    + unfold compress. rewrite bind_unfold. unfold get at 1.
      rewrite (Hcomp Hn Hns), Hrun. eauto.
    + rewrite Hrun. eauto.
  - rewrite Hrun. eauto.
Qed.

Lemma X13_authenticated_rejects_witness :
  exists out,
    handleElement Demo.env 1 Demo.presenceElem (Demo.loggedIn Disallow)
    = Done tt (set_state disconnected
                 (set_ctx (router.Terminate (ctx (Demo.loggedIn Disallow)))
                    (Demo.loggedIn Disallow)))
        (out ++ [UnregisterStream; Close])
    /\ written out = [streamerror.Element streamerror.ErrUnsupportedStanzaType].
Proof.
  apply (X13_authenticated_rejects Demo.env 1 (Demo.loggedIn Disallow) Demo.presenceElem).
  - vm_compute; reflexivity.
  - discriminate.
  - discriminate.
  - intros H. discriminate H.
Defined.

Lemma handleElement_bind env fuel s elem iq :
  state s = authenticated ->
  Resource s = "" ->
  buildStanza env s elem true = inr (xml.StIQ iq) ->
  handleElement env fuel elem s = bindResource env iq s.
Proof.
  intros Hstate Hres Hbuild.
  rewrite (handleElement_authenticated_iq env fuel s elem iq Hstate Hbuild), Hres.
  reflexivity.
Qed.

(** X14: a bind request on an authenticated stream without a resource,
    when no stream of the same bare JID has the requested resource, or
    when the policy is replace.  The resource is the text of the resource
    child, or what uuid.New yields when there is none.  Under replace the
    last stream of the router's answer that has the resource is asked to
    disconnect with resource-constraint.  When the JID of user, domain and
    resource is valid, the resource and the JID are set in the context,
    the result carries user@domain/resource, and the stream is registered
    as authenticated with the router; the state stays authenticated. *)
Theorem X14_bind_requested_resource (env : Env) (fuel : nat) (s : stream)
    (elem : xml.Element) (iq : xml.IQ) (bind : xml.Element) (userJID : xml.JID) :
  let requested := match xml.Child "resource" (xml.Elements bind) with
                   | Some resourceElem => xml.Text resourceElem
                   | None => uuidNew env
                   end in
  let found := fold_left (fun stm s' =>
                   if bool_decide (router.Resource s' = requested) then Some s' else stm)
                 (StreamsMatchingJID env (xml.ToBareJID (JID s))) None in
  state s = authenticated ->
  Resource s = "" ->
  buildStanza env s elem true = inr (xml.StIQ iq) ->
  xml.ChildNamespace "bind" bindNamespace (xml.Elements (xml.iqElem iq)) = Some bind ->
  found = None \/ ResourceConflict (cfg s) = Replace ->
  xml.NewJID (stringprep env) (Username s) (Domain s) requested false = Some userJID ->
  exists s',
    handleElement env fuel elem s
    = Done tt s'
        (match found with
         | Some stm => [DisconnectPeer stm streamerror.ErrResourceConstraint]
         | None => []
         end
         ++ [WriteElement
               (bindResult iq (Username s +:+ "@" +:+ Domain s +:+ "/" +:+ requested));
             AuthenticateStream])
    /\ Resource s' = requested
    /\ JID s' = userJID
    /\ Username s' = Username s /\ Domain s' = Domain s
    /\ state s' = authenticated.
Proof.
  intros requested found Hstate Hres Hbuild Hbind Hcase Hjid.
  rewrite (handleElement_bind env fuel s elem iq Hstate Hres Hbuild).
  unfold bindResource. rewrite bind_unfold. unfold get at 1. rewrite Hbind.
  fold requested. fold found.
  set (s1 := set_ctx (router.SetString requested resourceCtxKey (ctx s)) s).
  set (s' := set_ctx (router.SetObject (router.VJID (Some userJID)) jidCtxKey (ctx s1)) s1).
  assert (Hu : Username s' = Username s) by (subst s' s1; ctx_simpl; reflexivity).
  assert (Hd : Domain s' = Domain s) by (subst s' s1; ctx_simpl; reflexivity).
  assert (Hr : Resource s' = requested) by (subst s' s1; ctx_simpl; reflexivity).
  exists s'.
  split; [|split; [exact Hr|]; split; [subst s' s1; ctx_simpl; reflexivity|]; auto].
  destruct found as [stm|].
  - destruct Hcase as [Hnone|Hreplace]; [discriminate Hnone|]. rewrite Hreplace, Hjid.
    unfold_m. cbn [app]. fold s1. fold s'. rewrite Hu, Hd, Hr. reflexivity.
  - rewrite Hjid. unfold_m. cbn [app]. fold s1. fold s'. rewrite Hu, Hd, Hr. reflexivity.
Qed.

(** Alice, logged in under the policy replace, asks for the resource
    home that another of her streams holds. *)
Lemma X14_bind_requested_resource_witness :
  exists (iq : xml.IQ) (s' : stream),
    handleElement Demo.env 1 (Demo.bindIQ "home") (Demo.loggedIn Replace)
    = Done tt s'
        [DisconnectPeer (router.mkC2S "stream-alice-home" "home")
           streamerror.ErrResourceConstraint;
         WriteElement (bindResult iq "alice@localhost/home");
         AuthenticateStream]
    /\ Resource s' = "home".
Proof.
  destruct (X14_bind_requested_resource Demo.env 1 (Demo.loggedIn Replace)
              (Demo.bindIQ "home")
              (xml.mkIQ (Demo.bindIQ "home")
                 (xml.mkJID "alice" "localhost" "") (xml.mkJID "alice" "localhost" ""))
              (Demo.el "bind" [("xmlns", bindNamespace)]
                 [xml.mkElement "resource" [] "home" []])
              (xml.mkJID "alice" "localhost" "home"))
    as (s' & Hrun & Hres & _).
  - vm_compute; reflexivity.
  - vm_compute; reflexivity.
  - vm_compute; reflexivity.
  - vm_compute; reflexivity.
  - right. vm_compute; reflexivity.
  - vm_compute; reflexivity.
  - eexists _, s'. split; [exact Hrun | exact Hres].
Defined.

(** X15: a bind request that is refused leaves the stream as it was.  An
    iq without a bind child in the bind namespace is answered with
    not-allowed.  When the JID of user, domain and the resource to bind is
    not valid, the answer is bad-request; under replace the stream that
    holds the resource has been asked to disconnect all the same. *)
Theorem X15_bind_refused (env : Env) (fuel : nat) (s : stream) (elem : xml.Element)
    (iq : xml.IQ) :
  state s = authenticated ->
  Resource s = "" ->
  buildStanza env s elem true = inr (xml.StIQ iq) ->
  (xml.ChildNamespace "bind" bindNamespace (xml.Elements (xml.iqElem iq)) = None ->
   handleElement env fuel elem s = Done tt s [WriteElement (xml.NotAllowedError iq)])
  /\ (forall bind,
        xml.ChildNamespace "bind" bindNamespace (xml.Elements (xml.iqElem iq)) = Some bind ->
        let requested := match xml.Child "resource" (xml.Elements bind) with
                         | Some resourceElem => xml.Text resourceElem
                         | None => uuidNew env
                         end in
        let found := fold_left (fun stm s' =>
                         if bool_decide (router.Resource s' = requested) then Some s'
                         else stm)
                       (StreamsMatchingJID env (xml.ToBareJID (JID s))) None in
        found = None \/ ResourceConflict (cfg s) = Replace ->
        xml.NewJID (stringprep env) (Username s) (Domain s) requested false = None ->
        handleElement env fuel elem s
        = Done tt s
            (match found with
             | Some stm => [DisconnectPeer stm streamerror.ErrResourceConstraint]
             | None => []
             end ++ [WriteElement (xml.BadRequestError iq)])).
Proof.
  intros Hstate Hres Hbuild.
  rewrite (handleElement_bind env fuel s elem iq Hstate Hres Hbuild).
  unfold bindResource. rewrite bind_unfold. unfold get. split.
  - intros ->. reflexivity.
  - intros bind -> Hcase Hjid. cbv zeta.
    match type of Hcase with ?f = None \/ _ => set (found := f) in * end.
    destruct found as [stm|].
    + destruct Hcase as [Hnone|Hreplace]; [discriminate Hnone|].
      rewrite Hreplace, Hjid. reflexivity.
    + rewrite Hjid. reflexivity.
Qed.

(** An iq that is no bind request, on the example stream after login. *)
Lemma X15_bind_refused_witness :
  exists iq : xml.IQ,
    handleElement Demo.env 1 Demo.sessionIQ (Demo.loggedIn Disallow)
    = Done tt (Demo.loggedIn Disallow) [WriteElement (xml.NotAllowedError iq)].
Proof.
  eexists.
  eapply (X15_bind_refused Demo.env 1 (Demo.loggedIn Disallow) Demo.sessionIQ).
  - vm_compute; reflexivity.
  - vm_compute; reflexivity.
  - vm_compute; reflexivity.
  - vm_compute; reflexivity.
Defined.

(** ** Starting the session *)

Lemma get_bind {B} (k : stream -> M B) (s : stream) : (get ≫= k) s = k s s.
Proof. rewrite bind_unfold. unfold get. destruct (k s s); reflexivity. Qed.

Lemma emit_bind {B} (ev : Event) (k : unit -> M B) (s : stream) :
  (emit ev ≫= k) s
  = match k tt s with
    | Done b s' out => Done b s' (ev :: out)
    | OutOfFuel out => OutOfFuel (ev :: out)
    end.
Proof. reflexivity. Qed.

Lemma modify_bind {B} (f : stream -> stream) (k : unit -> M B) (s : stream) :
  (modify f ≫= k) s = k tt (f s).
Proof. rewrite bind_unfold. unfold modify. destruct (k tt (f s)); reflexivity. Qed.

Lemma cond_modify_bind {B} (b : bool) (f : stream -> stream) (k : unit -> M B) s :
  ((if b then modify f else skip) ≫= k) s = k tt (if b then f s else s).
Proof. destruct b; [apply modify_bind|]. rewrite bind_unfold. cbn. destruct (k tt s); reflexivity. Qed.

Lemma cond_modify2_bind {B} (b : bool) (f g : stream -> stream) (k : unit -> M B) s :
  ((if b then modify f;; modify g else skip) ≫= k) s = k tt (if b then g (f s) else s).
Proof.
  destruct b.
  - rewrite bind_unfold. change ((modify f;; modify g) s) with (Done tt (g (f s)) []).
    cbv beta iota. destruct (k tt (g (f s))); reflexivity.
  - rewrite bind_unfold. cbn. destruct (k tt s); reflexivity.
Qed.

Lemma proj_if {A} (g : stream -> A) (b : bool) (x y : stream) :
  g (if b then x else y) = if b then g x else g y.
Proof. destruct b; reflexivity. Qed.

Lemma if_same {A} (b : bool) (x : A) : (if b then x else x) = x.
Proof. destruct b; reflexivity. Qed.

Lemma if_snoc {A} (b : bool) (l : list A) (h : A) :
  (if b then l ++ [h] else l) = l ++ if b then [h] else [].
Proof. destruct b; [reflexivity | rewrite app_nil_r; reflexivity]. Qed.

Ltac peel x :=
  unfold x; clear x; rewrite ?proj_if;
  cbn [cfg tr id connectTm state ctx authrs activeAuthr iqHandlers roster discoInfo
       register ping blockCmd offline
       set_iqHandlers set_roster set_discoInfo set_ping set_blockCmd set_offline];
  rewrite ?if_same, ?if_snoc.

Lemma initializeModules_spec s :
  exists s',
    initializeModules s = Done tt s' [RegisterDefaultEntities]
    /\ iqHandlers s' = iqHandlers s ++ filter (fun h => moduleEnabled s h) moduleOrder
    /\ roster s' = true /\ discoInfo s' = true
    /\ ping s' = (enabled "ping" (cfg s) || ping s)
    /\ blockCmd s' = (enabled "blocking_command" (cfg s) || blockCmd s)
    /\ offline s' = (enabled "offline" (cfg s) || offline s)
    /\ state s' = state s /\ ctx s' = ctx s /\ cfg s' = cfg s /\ tr s' = tr s
    /\ register s' = register s /\ authrs s' = authrs s.
Proof.
  unfold initializeModules. rewrite get_bind. cbv zeta.
  rewrite modify_bind. set (s1 := set_discoInfo true s).
  rewrite modify_bind. cbv beta. set (s2 := set_iqHandlers _ s1).
  rewrite emit_bind.
  rewrite modify_bind. set (s3 := set_roster true s2).
  rewrite modify_bind. cbv beta. set (s4 := set_iqHandlers _ s3).
  rewrite cond_modify_bind. cbv beta. set (s5 := if enabled "last_activity" _ then _ else _).
  rewrite cond_modify_bind. cbv beta. set (s6 := if enabled "private" _ then _ else _).
  rewrite cond_modify_bind. cbv beta. set (s7 := if enabled "vcard" _ then _ else _).
  rewrite cond_modify_bind. cbv beta. set (s8 := if register s then _ else _).
  rewrite cond_modify_bind. cbv beta. set (s9 := if enabled "version" _ then _ else _).
  rewrite cond_modify2_bind. cbv beta.
  set (s10 := if enabled "blocking_command" _ then _ else _).
  rewrite cond_modify2_bind. cbv beta. set (s11 := if enabled "ping" _ then _ else _).
  exists (if enabled "offline" (cfg s) then set_offline true s11 else s11).
  split; [destruct (enabled "offline" (cfg s)); reflexivity|].
  set (s12 := if enabled "offline" _ then _ else _).
  repeat split;
    peel s12; peel s11; peel s10; peel s9; peel s8; peel s7; peel s6; peel s5; peel s4;
    peel s3; peel s2; peel s1; try reflexivity.
  rewrite <- !app_assoc. f_equal. unfold moduleOrder, moduleEnabled, filter.
  cbn [list_filter app].
  destruct (enabled "last_activity" (cfg s)), (enabled "private" (cfg s)),
    (enabled "vcard" (cfg s)), (register s), (enabled "version" (cfg s)),
    (enabled "blocking_command" (cfg s)), (enabled "ping" (cfg s)); reflexivity.
Qed.

(** X16: an iq on an authenticated stream that has a resource.  With a
    session child in the session namespace the result is written, the
    modules are set up and the state is session-started: the IQ handlers
    are those of the stream's configuration, appended in the order
    disco, roster, last activity, private, vcard, registration, version,
    blocking command, ping; pinging starts when ping is enabled; the
    context is as before.  Without that child the answer is not-allowed
    and the stream is as it was. *)
Theorem X16_session_start (env : Env) (fuel : nat) (s : stream) (elem : xml.Element)
    (iq : xml.IQ) :
  state s = authenticated ->
  Resource s <> "" ->
  buildStanza env s elem true = inr (xml.StIQ iq) ->
  match xml.ChildNamespace "session" sessionNamespace (xml.Elements (xml.iqElem iq)) with
  | Some _ =>
      exists s',
        handleElement env fuel elem s
        = Done tt s'
            ([WriteElement (xml.ResultIQ iq); RegisterDefaultEntities]
             ++ if ping s' then [StartPinging] else [])
        /\ state s' = sessionStarted
        /\ iqHandlers s' = iqHandlers s ++ filter (fun h => moduleEnabled s h) moduleOrder
        /\ roster s' = true
        /\ ping s' = (enabled "ping" (cfg s) || ping s)
        /\ offline s' = (enabled "offline" (cfg s) || offline s)
        /\ ctx s' = ctx s
  | None =>
      handleElement env fuel elem s = Done tt s [WriteElement (xml.NotAllowedError iq)]
  end.
Proof.
  intros Hstate Hres Hbuild.
  rewrite (handleElement_authenticated_iq env fuel s elem iq Hstate Hbuild).
  rewrite bool_decide_eq_false_2
    by (destruct (Resource s); [contradiction|discriminate]).
  unfold startSession. rewrite get_bind.
  rewrite bool_decide_eq_false_2
    by (destruct (Resource s); [contradiction|discriminate]).
  destruct (xml.ChildNamespace _ _ _) as [sess|]; [|reflexivity].
  destruct (initializeModules_spec s)
    as (s1 & Hinit & Hh & Hr & _ & Hp & _ & Ho & _ & Hc & _).
  exists (set_state sessionStarted s1).
  split; [|repeat split; assumption].
  unfold writeElement. rewrite emit_bind, bind_unfold, Hinit, get_bind.
  cbn [ping set_state].
  destruct (ping s1); reflexivity.
Qed.

(** The session request on the example stream after the bind. *)
Lemma X16_session_start_witness :
  exists (iq : xml.IQ) (s' : stream),
    handleElement Demo.env 1 Demo.sessionIQ
      (Demo.after [Demo.bindIQ "phone"] (Demo.loggedIn Disallow))
    = Done tt s'
        ([WriteElement (xml.ResultIQ iq); RegisterDefaultEntities]
         ++ if ping s' then [StartPinging] else [])
    /\ state s' = sessionStarted.
Proof.
  pose proof (X16_session_start Demo.env 1
                (Demo.after [Demo.bindIQ "phone"] (Demo.loggedIn Disallow))
                Demo.sessionIQ
                (xml.mkIQ Demo.sessionIQ (xml.mkJID "alice" "localhost" "phone")
                   (xml.mkJID "alice" "localhost" ""))) as H.
  destruct H as (s' & Hrun & Hstate & _).
  - vm_compute; reflexivity.
  - vm_compute; discriminate.
  - vm_compute; reflexivity.
  - eexists _, s'. split; [exact Hrun | exact Hstate].
Defined.

(** ** Stanzas in a started session *)

Lemma buildStanza_not_close env s elem validateFrom stanza :
  buildStanza env s elem validateFrom = inr stanza -> xml.Name elem <> "close".
Proof.
  unfold buildStanza. intros H Hclose. rewrite Hclose in H.
  destruct (validateNamespace elem); [discriminate H|].
  destruct (extractAddresses env s elem validateFrom) as [?|[fromJID toJID]];
    [discriminate H|].
  rewrite !(bool_decide_eq_false_2 ("close" = _)) in H by discriminate.
  discriminate H.
Qed.

Lemma handleElement_session env fuel s elem stanza :
  state s = sessionStarted ->
  buildStanza env s elem true = inr stanza ->
  handleElement env fuel elem s
  = match processStanza env fuel stanza s with
    | Done a s' out => Done a s' (deadline s ++ out)
    | OutOfFuel out => OutOfFuel (deadline s ++ out)
    end.
Proof.
  intros Hstate Hbuild.
  rewrite (handleElement_dispatch env fuel s elem
             (not_close_by_name s elem (buildStanza_not_close _ _ _ _ _ Hbuild))).
  rewrite Hstate. unfold handleSessionStarted. rewrite get_bind, bind_unfold.
  rewrite Hbuild. unfold isComponentDomain, deadline.
  destruct (ping s); unfold_m; destruct (processStanza env fuel stanza s); reflexivity.
Qed.

Lemma processStanza_dispatch env fuel stanza s :
  isBlockedJID env s (xml.ToJID stanza) = false ->
  processStanza env fuel stanza s
  = match stanza with
    | xml.StPresence stanza => processPresence env stanza s
    | xml.StIQ stanza => processIQ env stanza s
    | xml.StMessage stanza => processMessage env fuel stanza s
    end.
Proof.
  intros Hfree. unfold processStanza. rewrite get_bind, Hfree.
  destruct stanza; reflexivity.
Qed.

(** X17: a stanza of a started session whose destination the user has
    blocked is answered with the not-acceptable stanza error that carries
    the blocked element; it is neither routed nor handed to a module, and
    the stream is as it was. *)
Theorem X17_blocked_destination (env : Env) (fuel : nat) (s : stream)
    (elem : xml.Element) (stanza : xml.Stanza) :
  state s = sessionStarted ->
  buildStanza env s elem true = inr stanza ->
  isBlockedJID env s (xml.ToJID stanza) = true ->
  exists resp,
    handleElement env fuel elem s = Done tt s (deadline s ++ [WriteElement resp])
    /\ isStanzaError "not-acceptable" resp
    /\ (exists errEl, last (xml.Elements resp) = Some errEl
          /\ is_Some (xml.ChildNamespace "blocked" blockedErrorNamespace
                        (xml.Elements errEl)))
    /\ xml.IsServer (xml.ToJID stanza) && IsLocalDomain env (xml.Domain (xml.ToJID stanza))
       = false.
Proof.
  intros Hstate Hbuild Hblocked. exists (blockedResponse stanza).
  rewrite (handleElement_session env fuel s elem stanza Hstate Hbuild).
  unfold processStanza. rewrite get_bind, Hblocked.
  split; [reflexivity|].
  split; [apply (NewErrorElementFromElement_isStanzaError _ xml.ErrNotAcceptable)|].
  split.
  - unfold blockedResponse. rewrite Elements_NewErrorElementFromElement.
    eexists. split; [apply last_snoc|]. vm_compute. eauto.
  - unfold isBlockedJID in Hblocked. destruct (_ && _); [discriminate Hblocked|reflexivity].
Qed.

(** Alice, in the example session, writes to mallory, whom she has
    blocked. *)
Lemma X17_blocked_destination_witness :
  exists resp,
    handleElement Demo.env 1 (Demo.chatTo "mallory@localhost") Demo.inSession
    = Done tt Demo.inSession (deadline Demo.inSession ++ [WriteElement resp])
    /\ isStanzaError "not-acceptable" resp.
Proof.
  destruct (X17_blocked_destination Demo.env 1 Demo.inSession
              (Demo.chatTo "mallory@localhost")
              (xml.StMessage
                 (xml.mkMessage (Demo.chatTo "mallory@localhost")
                    (xml.mkJID "alice" "localhost" "phone")
                    (xml.mkJID "mallory" "localhost" ""))))
    as (resp & Hrun & Herr & _).
  - vm_compute; reflexivity.
  - vm_compute; reflexivity.
  - vm_compute; reflexivity.
  - exists resp. split; [exact Hrun | exact Herr].
Defined.

(** X18: a stanza of a started session to a domain that is not local,
    and that the user has not blocked, is dropped: nothing is routed,
    written or handed to a module, and the stream is as it was, for an
    iq, a presence and a message alike. *)
Theorem X18_foreign_domain_dropped (env : Env) (fuel : nat) (s : stream)
    (elem : xml.Element) (stanza : xml.Stanza) :
  state s = sessionStarted ->
  buildStanza env s elem true = inr stanza ->
  isBlockedJID env s (xml.ToJID stanza) = false ->
  IsLocalDomain env (xml.Domain (xml.ToJID stanza)) = false ->
  handleElement env fuel elem s = Done tt s (deadline s).
Proof.
  intros Hstate Hbuild Hfree Hforeign.
  rewrite (handleElement_session env fuel s elem stanza Hstate Hbuild).
  rewrite (processStanza_dispatch env fuel stanza s Hfree).
  destruct stanza as [iq|presence|message]; cbn in Hforeign.
  - unfold processIQ. rewrite get_bind. cbn. rewrite Hforeign. cbn.
    rewrite app_nil_r. reflexivity.
  - unfold processPresence. rewrite get_bind. cbn. rewrite Hforeign. cbn.
    rewrite app_nil_r. reflexivity.
  - unfold processMessage. cbn. rewrite Hforeign. cbn.
    rewrite app_nil_r. reflexivity.
Qed.

(** Alice, in the example session, writes to a user of another server. *)
Lemma X18_foreign_domain_dropped_witness :
  handleElement Demo.env 1 (Demo.chatTo "dave@example.org") Demo.inSession
  = Done tt Demo.inSession (deadline Demo.inSession).
Proof.
  apply (X18_foreign_domain_dropped Demo.env 1 Demo.inSession
           (Demo.chatTo "dave@example.org")
           (xml.StMessage
              (xml.mkMessage (Demo.chatTo "dave@example.org")
                 (xml.mkJID "alice" "localhost" "phone")
                 (xml.mkJID "dave" "example.org" "")))).
  - vm_compute; reflexivity.
  - vm_compute; reflexivity.
  - vm_compute; reflexivity.
  - vm_compute; reflexivity.
Defined.

(** *** IQs *)

Lemma find_first {A} (p : A -> bool) (l : list A) (i : nat) (h : A) :
  l !! i = Some h -> p h = true ->
  (forall j h', (j < i)%nat -> l !! j = Some h' -> p h' = false) ->
  List.find p l = Some h.
Proof.
  revert i. induction l as [|a l IH]; intros i Hi Hp Hbefore; [discriminate Hi|].
  destruct i as [|i]; cbn in Hi |- *.
  - injection Hi as ->. rewrite Hp. reflexivity.
  - rewrite (Hbefore 0%nat a) by (cbn; first [lia | reflexivity]).
    apply (IH i Hi Hp). intros j h' Hj Hl. apply (Hbefore (S j) h'); [lia | exact Hl].
Qed.

Lemma find_none {A} (p : A -> bool) (l : list A) :
  (forall h, h ∈ l -> p h = false) -> List.find p l = None.
Proof.
  induction l as [|a l IH]; intros Hall; [reflexivity|]. cbn.
  rewrite (Hall a) by (apply elem_of_cons; left; reflexivity).
  apply IH. intros h Hin. apply Hall, elem_of_cons. right. exact Hin.
Qed.

(** X19: an iq of a started session to a local domain, addressed to the
    server or to a bare JID whose user has not blocked the sender.  It is
    not routed.  It goes to the first of the stream's IQ handlers, in
    their order, that matches it, and to that one alone; when none
    matches, a get or a set is answered with service-unavailable and a
    result or an error is dropped.  The stream is as it was. *)
Theorem X19_iq_handler_choice (env : Env) (fuel : nat) (s : stream)
    (elem : xml.Element) (iq : xml.IQ) :
  state s = sessionStarted ->
  buildStanza env s elem true = inr (xml.StIQ iq) ->
  isBlockedJID env s (xml.ToJID iq) = false ->
  IsLocalDomain env (xml.Domain (xml.ToJID iq)) = true ->
  xml.Node (xml.ToJID iq) = ""
  \/ IsBlockedJID env (JID s) (xml.Node (xml.ToJID iq)) = false ->
  xml.IsFullWithUser (xml.ToJID iq) = false ->
  (forall i h,
     iqHandlers s !! i = Some h -> MatchesIQ env h iq = true ->
     (forall j h', (j < i)%nat -> iqHandlers s !! j = Some h' ->
                   MatchesIQ env h' iq = false) ->
     handleElement env fuel elem s = Done tt s (deadline s ++ [ProcessIQ h iq]))
  /\ ((forall h, h ∈ iqHandlers s -> MatchesIQ env h iq = false) ->
      handleElement env fuel elem s
      = Done tt s
          (deadline s ++ if xml.IsGet iq || xml.IsSet iq
                         then [WriteElement (xml.ServiceUnavailableError iq)] else [])).
Proof.
  intros Hstate Hbuild Hfree Hlocal Hdest Hbare.
  rewrite (handleElement_session env fuel s elem _ Hstate Hbuild).
  rewrite (processStanza_dispatch env fuel (xml.StIQ iq) s Hfree).
  unfold processIQ. rewrite get_bind, Hlocal, Hbare. cbn [negb].
  assert (Hd : bool_decide (0 < String.length (xml.Node (xml.ToJID iq)))%nat
               && IsBlockedJID env (JID s) (xml.Node (xml.ToJID iq)) = false).
  { destruct Hdest as [->| ->]; [reflexivity | apply andb_false_r]. }
  rewrite Hd. split.
  - intros i h Hi Hm Hbefore.
    rewrite (find_first (fun handler => MatchesIQ env handler iq) _ i h Hi Hm Hbefore).
    reflexivity.
  - intros Hnone.
    rewrite (find_none (fun handler => MatchesIQ env handler iq) _ Hnone).
    destruct (xml.IsGet iq || xml.IsSet iq); cbn; rewrite ?app_nil_r; reflexivity.
Qed.

(** The ping to the server in the example session, where no handler
    matches. *)
Lemma X19_iq_handler_choice_witness :
  exists iq : xml.IQ,
    handleElement Demo.env 1 Demo.pingServer Demo.inSession
    = Done tt Demo.inSession
        (deadline Demo.inSession ++ [WriteElement (xml.ServiceUnavailableError iq)]).
Proof.
  exists (xml.mkIQ Demo.pingServer (xml.mkJID "alice" "localhost" "phone")
            (xml.mkJID "" "localhost" "")).
  destruct (X19_iq_handler_choice Demo.env 1 Demo.inSession Demo.pingServer
              (xml.mkIQ Demo.pingServer (xml.mkJID "alice" "localhost" "phone")
                 (xml.mkJID "" "localhost" ""))) as [_ Hnone].
  - vm_compute; reflexivity.
  - vm_compute; reflexivity.
  - vm_compute; reflexivity.
  - vm_compute; reflexivity.
  - left. reflexivity.
  - vm_compute; reflexivity.
  - rewrite Hnone by (intros h _; reflexivity). reflexivity.
Defined.

(** X20: an iq of a started session to a user of a local domain.  When
    that user has blocked the sender, the iq is not routed: a get or a
    set is answered with service-unavailable, a result or an error is
    dropped.  Otherwise an iq to a full JID is handed to the router once
    and to no handler of the stream; the one answer of the router that is
    reported to the sender is resource-not-found, as service-unavailable
    and whatever the type of the iq.  The stream is as it was. *)
Theorem X20_iq_to_user (env : Env) (fuel : nat) (s : stream)
    (elem : xml.Element) (iq : xml.IQ) :
  state s = sessionStarted ->
  buildStanza env s elem true = inr (xml.StIQ iq) ->
  isBlockedJID env s (xml.ToJID iq) = false ->
  IsLocalDomain env (xml.Domain (xml.ToJID iq)) = true ->
  xml.Node (xml.ToJID iq) <> "" ->
  (IsBlockedJID env (JID s) (xml.Node (xml.ToJID iq)) = true ->
   handleElement env fuel elem s
   = Done tt s
       (deadline s ++ if xml.IsGet iq || xml.IsSet iq
                      then [WriteElement (xml.ServiceUnavailableError iq)] else []))
  /\ (IsBlockedJID env (JID s) (xml.Node (xml.ToJID iq)) = false ->
      xml.Resource (xml.ToJID iq) <> "" ->
      handleElement env fuel elem s
      = Done tt s
          (deadline s ++ RouteCall (xml.StIQ iq)
           :: match Route env (xml.StIQ iq) with
              | Some router.ErrResourceNotFound =>
                  [WriteElement (xml.ServiceUnavailableError iq)]
              | _ => []
              end)).
Proof.
  intros Hstate Hbuild Hfree Hlocal Hnode.
  rewrite (handleElement_session env fuel s elem _ Hstate Hbuild).
  rewrite (processStanza_dispatch env fuel (xml.StIQ iq) s Hfree).
  unfold processIQ. rewrite get_bind, Hlocal. cbn [negb].
  rewrite (bool_decide_eq_true_2 (0 < String.length (xml.Node (xml.ToJID iq)))%nat)
    by (destruct (xml.Node (xml.ToJID iq)); [contradiction | cbn; lia]).
  split.
  - intros ->. cbn [andb].
    destruct (xml.IsGet iq || xml.IsSet iq); cbn; rewrite ?app_nil_r; reflexivity.
  - intros -> Hres. cbn [andb]. unfold xml.IsFullWithUser.
    rewrite !bool_decide_eq_false_2 by assumption. cbn [negb andb].
    destruct (Route env (xml.StIQ iq)) as [[]|]; reflexivity.
Qed.

(** An iq of the example session to a resource of carol that is not
    bound. *)
Lemma X20_iq_to_user_witness :
  exists iq : xml.IQ,
    handleElement Demo.env 1
      (Demo.el "iq" [("id", "v1"); ("type", "result"); ("to", "carol@localhost/phone")] [])
      Demo.inSession
    = Done tt Demo.inSession
        (deadline Demo.inSession
         ++ [RouteCall (xml.StIQ iq); WriteElement (xml.ServiceUnavailableError iq)]).
Proof.
  eexists.
  destruct (X20_iq_to_user Demo.env 1 Demo.inSession
              (Demo.el "iq" [("id", "v1"); ("type", "result");
                             ("to", "carol@localhost/phone")] [])
              (xml.mkIQ
                 (Demo.el "iq" [("id", "v1"); ("type", "result");
                                ("to", "carol@localhost/phone")] [])
                 (xml.mkJID "alice" "localhost" "phone")
                 (xml.mkJID "carol" "localhost" "phone"))) as [_ Hroute].
  - vm_compute; reflexivity.
  - vm_compute; reflexivity.
  - vm_compute; reflexivity.
  - vm_compute; reflexivity.
  - discriminate.
  - rewrite Hroute; [reflexivity | vm_compute; reflexivity | discriminate].
Defined.

(** *** Messages *)

(** X21: a message of a started session to a local domain, when the
    answer of the router is not resource-not-found.  It is handed to the
    router once.  The sender is answered, with service-unavailable, only
    when the account does not exist or the sender is blocked; a message
    to a user who is not connected is archived when the offline module is
    there, unless it is a chat or groupchat message with a body; any
    other error of the router is dropped.  The stream is as it was. *)
Theorem X21_message_outcomes (env : Env) (fuel : nat) (s : stream)
    (elem : xml.Element) (message : xml.Message) :
  state s = sessionStarted ->
  buildStanza env s elem true = inr (xml.StMessage message) ->
  isBlockedJID env s (xml.ToJID message) = false ->
  IsLocalDomain env (xml.Domain (xml.ToJID message)) = true ->
  Route env (xml.StMessage message) <> Some router.ErrResourceNotFound ->
  handleElement env (S fuel) elem s
  = Done tt s
      (deadline s ++ RouteCall (xml.StMessage message)
       :: match Route env (xml.StMessage message) with
          | None => []
          | Some router.ErrNotAuthenticated =>
              if offline s
                 && negb ((xml.IsChat message || xml.IsGroupChat message)
                          && xml.IsMessageWithBody message)
              then [ArchiveMessage message] else []
          | Some router.ErrNotExistingAccount | Some router.ErrBlockedJID =>
              [WriteElement (xml.ServiceUnavailableError message)]
          | Some _ => []
          end).
Proof.
  intros Hstate Hbuild Hfree Hlocal Hroute.
  rewrite (handleElement_session env (S fuel) s elem _ Hstate Hbuild).
  rewrite (processStanza_dispatch env (S fuel) (xml.StMessage message) s Hfree).
  unfold processMessage. rewrite Hlocal. cbn [negb sendMessage].
  rewrite emit_bind.
  destruct (Route env (xml.StMessage message)) as [[]|];
    try reflexivity; try contradiction.
  unfold_m. destruct (offline s); [|reflexivity]. cbn [andb].
  destruct ((xml.IsChat message || xml.IsGroupChat message)
            && xml.IsMessageWithBody message); reflexivity.
Qed.

(** Alice, in the example session, writes to a user the server does not
    know. *)
Lemma X21_message_outcomes_witness :
  exists message : xml.Message,
    handleElement Demo.env 1 (Demo.chatTo "dave@localhost") Demo.inSession
    = Done tt Demo.inSession
        (deadline Demo.inSession
         ++ [RouteCall (xml.StMessage message);
             WriteElement (xml.ServiceUnavailableError message)]).
Proof.
  eexists.
  rewrite (X21_message_outcomes Demo.env 0 Demo.inSession (Demo.chatTo "dave@localhost")
             (xml.mkMessage (Demo.chatTo "dave@localhost")
                (xml.mkJID "alice" "localhost" "phone")
                (xml.mkJID "dave" "localhost" ""))).
  - reflexivity.
  - vm_compute; reflexivity.
  - vm_compute; reflexivity.
  - vm_compute; reflexivity.
  - vm_compute; reflexivity.
  - vm_compute; discriminate.
Defined.

(** *** Presences *)

(** X22: a presence of a started session addressed to the bare JID of
    the user becomes the presence of the stream.  Nothing is routed or
    written.  With a roster it is broadcast, after the pending approval
    notifications and the presences of the contacts when these were not
    delivered before.  The offline messages are delivered when the
    offline module is there, the priority of this presence is not
    negative and they were not delivered before; a negative priority
    leaves them for a later presence.  *)
Theorem X22_own_presence (env : Env) (fuel : nat) (s : stream)
    (elem : xml.Element) (presence : xml.Presence) :
  state s = sessionStarted ->
  buildStanza env s elem true = inr (xml.StPresence presence) ->
  isBlockedJID env s (xml.ToJID presence) = false ->
  IsLocalDomain env (xml.Domain (xml.ToJID presence)) = true ->
  xml.ToJID presence = xml.mkJID (Username s) (Domain s) "" ->
  exists s',
    handleElement env fuel elem s
    = Done tt s'
        (deadline s
         ++ (if roster s
             then (if rosterLatch s then []
                   else [DeliverPendingApprovalNotifications; ReceivePresences])
                  ++ [BroadcastPresence presence]
             else [])
         ++ (if offline s && (0 <=? xml.Priority presence)%Z && negb (offlineLatch s)
             then [DeliverOfflineMessages] else []))
    /\ Presence s' = Some presence
    /\ rosterLatch s' = (rosterLatch s || roster s)
    /\ offlineLatch s'
       = (offlineLatch s || (offline s && (0 <=? xml.Priority presence)%Z))
    /\ state s' = sessionStarted
    /\ Username s' = Username s /\ Domain s' = Domain s /\ Resource s' = Resource s
    /\ JID s' = JID s.
Proof.
  intros Hstate Hbuild Hfree Hlocal Hto.
  rewrite (handleElement_session env fuel s elem _ Hstate Hbuild).
  rewrite (processStanza_dispatch env fuel (xml.StPresence presence) s Hfree).
  unfold processPresence. rewrite get_bind, Hlocal, Hto.
  unfold xml.IsBare, xml.IsFullWithUser. cbn [xml.Node xml.Domain xml.Resource negb].
  rewrite !bool_decide_eq_true_2 by reflexivity. cbn [negb andb orb].
  rewrite andb_false_r.
  unfold rosterLatch, offlineLatch. unfold_m.
  destruct (roster s) eqn:Hr, (router.Bool rosterOnceCtxKey (ctx s)) eqn:Hrl,
    (offline s) eqn:Ho, (0 <=? xml.Priority presence)%Z eqn:Hp,
    (router.Bool offlineOnceCtxKey (ctx s)) eqn:Hol;
    unfold router.Bool in Hrl, Hol;
    repeat (ctx_simpl;
            cbn [app negb andb orb ctx set_ctx roster offline state xml.Priority];
            rewrite ?Hr, ?Hrl, ?Ho, ?Hp, ?Hol);
    eexists; (split; [reflexivity|]);
    repeat split; ctx_simpl;
    cbn [app negb andb orb ctx set_ctx roster offline state];
    rewrite ?Hrl, ?Hol; try assumption; reflexivity.
Qed.

(** The first presence of alice in the example session, where the
    offline module is enabled. *)
Lemma X22_own_presence_witness :
  exists (presence : xml.Presence) (s' : stream),
    handleElement Demo.env 1 Demo.presenceElem Demo.inSession
    = Done tt s'
        [DeliverPendingApprovalNotifications; ReceivePresences;
         BroadcastPresence presence; DeliverOfflineMessages]
    /\ Presence s' = Some presence
    /\ offlineLatch s' = true.
Proof.
  destruct (X22_own_presence Demo.env 1 Demo.inSession Demo.presenceElem
              (xml.mkPresence Demo.presenceElem (xml.mkJID "alice" "localhost" "phone")
                 (xml.mkJID "alice" "localhost" "") 0))
    as (s' & Hrun & Hpresence & _ & Hlatch & _).
  - vm_compute; reflexivity.
  - vm_compute; reflexivity.
  - vm_compute; reflexivity.
  - vm_compute; reflexivity.
  - vm_compute; reflexivity.
  - eexists _, s'. split; [exact Hrun|]. split; [exact Hpresence|].
    rewrite Hlatch. vm_compute; reflexivity.
Defined.

(** X23: a presence of a started session to somebody else on a local
    domain does not become the presence of the stream and delivers
    nothing.  To a bare JID other than the user's own it goes to the
    roster, when there is one, and is not routed; to a full JID with a
    user it is handed to the router once, whose answer is dropped, and
    not to the roster.  The stream is as it was. *)
Theorem X23_presence_to_others (env : Env) (fuel : nat) (s : stream)
    (elem : xml.Element) (presence : xml.Presence) :
  state s = sessionStarted ->
  buildStanza env s elem true = inr (xml.StPresence presence) ->
  isBlockedJID env s (xml.ToJID presence) = false ->
  IsLocalDomain env (xml.Domain (xml.ToJID presence)) = true ->
  (xml.Resource (xml.ToJID presence) = "" ->
   xml.Node (xml.ToJID presence) <> Username s
   \/ xml.Domain (xml.ToJID presence) <> Domain s ->
   handleElement env fuel elem s
   = Done tt s (deadline s ++ if roster s then [RosterProcessPresence presence] else []))
  /\ (xml.Resource (xml.ToJID presence) <> "" ->
      xml.Node (xml.ToJID presence) <> "" ->
      handleElement env fuel elem s
      = Done tt s (deadline s ++ [RouteCall (xml.StPresence presence)])).
Proof.
  intros Hstate Hbuild Hfree Hlocal.
  rewrite (handleElement_session env fuel s elem _ Hstate Hbuild).
  rewrite (processStanza_dispatch env fuel (xml.StPresence presence) s Hfree).
  unfold processPresence. rewrite get_bind, Hlocal.
  unfold xml.IsBare, xml.IsFullWithUser. cbn [negb]. split.
  - intros -> Hother. rewrite bool_decide_eq_true_2 by reflexivity. cbn [andb].
    assert (Hb : negb (bool_decide (xml.Node (xml.ToJID presence) = Username s))
                 || negb (bool_decide (xml.Domain (xml.ToJID presence) = Domain s))
                 = true).
    { destruct Hother as [H|H]; rewrite (bool_decide_eq_false_2 _ H);
        [reflexivity | apply orb_true_r]. }
    rewrite Hb. destruct (roster s); cbn; rewrite ?app_nil_r; reflexivity.
  - intros Hres Hnode.
    rewrite (bool_decide_eq_false_2 _ Hres), (bool_decide_eq_false_2 _ Hnode).
    reflexivity.
Qed.

(** A presence of the example session to the bare JID of bob. *)
Lemma X23_presence_to_others_witness :
  exists presence : xml.Presence,
    handleElement Demo.env 1 (Demo.el "presence" [("to", "bob@localhost")] [])
      Demo.inSession
    = Done tt Demo.inSession [RosterProcessPresence presence].
Proof.
  eexists.
  destruct (X23_presence_to_others Demo.env 1 Demo.inSession
              (Demo.el "presence" [("to", "bob@localhost")] [])
              (xml.mkPresence (Demo.el "presence" [("to", "bob@localhost")] [])
                 (xml.mkJID "alice" "localhost" "phone")
                 (xml.mkJID "bob" "localhost" "") 0)) as [Hbare _].
  - vm_compute; reflexivity.
  - vm_compute; reflexivity.
  - vm_compute; reflexivity.
  - vm_compute; reflexivity.
  - rewrite Hbare; [reflexivity | reflexivity | left; vm_compute; discriminate].
Defined.

(** ** The reader and the actor *)

Lemma disconnect_quietly env s :
  exists out,
    disconnect env None s
    = Done tt (set_state disconnected (set_ctx (router.Terminate (ctx s)) s)) out
    /\ written out = [] /\ count isWriteString out = 0%nat
    /\ last out = Some Close.
Proof.
  cbn [disconnect]. unfold disconnectClosingStream, updateLogoutInfo. unfold_m.
  repeat split_test; eexists; (split; [reflexivity|]); repeat split; reflexivity.
Qed.

(** X24: a read that fails on a stream that is not disconnected posts
    the disconnect, which ends the stream whatever its state is by then.
    What is written depends on the failure alone: nothing, not even the
    closing of the stream, when the peer went away (end of input, a close
    of the WebSocket, or the closing tag on a socket); policy-violation
    for a stanza that is too large; connection-timeout for a timeout of
    the network; invalid-xml for anything else, the closing tag on a
    transport that is not a socket included. *)
Theorem X24_read_error (env : Env) (fuel : nat) (s : stream) (err : parser.Error)
    (s2 : stream) :
  state s <> disconnected ->
  exists m out,
    doRead env fuel s (inr err) = Some m
    /\ m s2 = Done tt (set_state disconnected (set_ctx (router.Terminate (ctx s2)) s2)) out
    /\ written out
       = match err with
         | parser.EOF | parser.ErrUnexpectedEOF | parser.CloseError => []
         | parser.ErrStreamClosedByPeer =>
             if bool_decide (tr s = transport.Socket) then []
             else [streamerror.Element streamerror.ErrInvalidXML]
         | parser.ErrTooLargeStanza => [streamerror.Element streamerror.ErrPolicyViolation]
         | parser.NetError true => [streamerror.Element streamerror.ErrConnectionTimeout]
         | parser.NetError false | parser.Other _ =>
             [streamerror.Element streamerror.ErrInvalidXML]
         end
    /\ (written out = [] -> count isWriteString out = 0%nat).
Proof.
  intros Hstate. unfold doRead. rewrite bool_decide_eq_false_2 by exact Hstate.
  assert (Hquiet : exists out,
    disconnect env None s2
    = Done tt (set_state disconnected (set_ctx (router.Terminate (ctx s2)) s2)) out
    /\ written out = [] /\ (written out = [] -> count isWriteString out = 0%nat)).
  { destruct (disconnect_quietly env s2) as (out & Hrun & Hw & Hc & _). eauto. }
  assert (Hloud : forall strmErr, exists out,
    disconnect env (Some (StreamErr strmErr)) s2
    = Done tt (set_state disconnected (set_ctx (router.Terminate (ctx s2)) s2)) out
    /\ written out = [streamerror.Element strmErr]
    /\ (written out = [] -> count isWriteString out = 0%nat)).
  { intros strmErr. cbn [disconnect].
    destruct (disconnectWithStreamError_ends env strmErr s2) as (out & Hrun & Hw).
    eexists. split; [exact Hrun|]. rewrite written_app, Hw. cbn.
    split; [reflexivity | discriminate]. }
  destruct err as [| | | |[]| |msg]; cbn [discErr];
    try (destruct (Hquiet) as (out & Hrun & Hw & Hc); eexists _, out;
         split; [reflexivity|]; split; [exact Hrun|]; split; assumption).
  - destruct (bool_decide (tr s = transport.Socket)); cbn [negb].
    + destruct (Hquiet) as (out & Hrun & Hw & Hc); eexists _, out;
        split; [reflexivity|]; split; [exact Hrun|]; split; assumption.
    + destruct (Hloud streamerror.ErrInvalidXML) as (out & Hrun & Hw & Hc); eexists _, out;
        split; [reflexivity|]; split; [exact Hrun|]; split; assumption.
  - destruct (Hloud streamerror.ErrPolicyViolation) as (out & Hrun & Hw & Hc); eexists _, out;
      split; [reflexivity|]; split; [exact Hrun|]; split; assumption.
  - destruct (Hloud streamerror.ErrConnectionTimeout) as (out & Hrun & Hw & Hc);
      eexists _, out; split; [reflexivity|]; split; [exact Hrun|]; split; assumption.
  - destruct (Hloud streamerror.ErrInvalidXML) as (out & Hrun & Hw & Hc); eexists _, out;
      split; [reflexivity|]; split; [exact Hrun|]; split; assumption.
  - destruct (Hloud streamerror.ErrInvalidXML) as (out & Hrun & Hw & Hc); eexists _, out;
      split; [reflexivity|]; split; [exact Hrun|]; split; assumption.
Qed.

(** The reader meets the end of its input on the example stream that
    has only been opened. *)
Lemma X24_read_error_witness :
  exists m out,
    doRead Demo.env 1 (Demo.opened Disallow) (inr parser.EOF) = Some m
    /\ m (Demo.opened Disallow)
       = Done tt (set_state disconnected
                    (set_ctx (router.Terminate (ctx (Demo.opened Disallow)))
                       (Demo.opened Disallow))) out
    /\ written out = []
    /\ count isWriteString out = 0%nat.
Proof.
  destruct (X24_read_error Demo.env 1 (Demo.opened Disallow) parser.EOF
              (Demo.opened Disallow))
    as (m & out & Hread & Hrun & Hw & Hc).
  - vm_compute; discriminate.
  - exists m, out. auto.
Defined.

(** X25: over a WebSocket, the close element of the framing namespace
    ends the stream in whatever state it is, before the handler of the
    state sees it: nothing is written back, neither an element nor a
    closing of the stream, the context is terminated, and the last thing
    done is to close the transport. *)
Theorem X25_websocket_close (env : Env) (fuel : nat) (s : stream) (elem : xml.Element) :
  tr s = transport.WebSocket ->
  xml.Name elem = "close" ->
  xml.Namespace elem = framedStreamNamespace ->
  exists out,
    handleElement env fuel elem s
    = Done tt (set_state disconnected (set_ctx (router.Terminate (ctx s)) s)) out
    /\ written out = []
    /\ count isWriteString out = 0%nat
    /\ last out = Some Close.
Proof.
  intros Htr Hname Hns. unfold handleElement. rewrite get_bind.
  rewrite !bool_decide_eq_true_2 by assumption. cbn [andb].
  apply disconnect_quietly.
Qed.

(** A close on the WebSocket stream of the example, before it is opened. *)
Lemma X25_websocket_close_witness :
  exists out,
    handleElement Demo.env 1 (Demo.el "close" [("xmlns", framedStreamNamespace)] [])
      (Demo.fresh transport.WebSocket Disallow)
    = Done tt (set_state disconnected
                 (set_ctx (router.Terminate (ctx (Demo.fresh transport.WebSocket Disallow)))
                    (Demo.fresh transport.WebSocket Disallow))) out
    /\ written out = []
    /\ count isWriteString out = 0%nat
    /\ last out = Some Close.
Proof.
  apply (X25_websocket_close Demo.env 1 (Demo.fresh transport.WebSocket Disallow)
           (Demo.el "close" [("xmlns", framedStreamNamespace)] [])).
  - reflexivity.
  - reflexivity.
  - reflexivity.
Defined.

Lemma disconnect_state env err s :
  exists s' out, disconnect env err s = Done tt s' out /\ state s' = disconnected.
Proof.
  destruct err as [[strmErr| |]|]; cbn [disconnect];
    first [ destruct (disconnectWithStreamError_ends env strmErr s) as (out & -> & _)
          | destruct (disconnectClosingStream_ends env false s) as (out & -> & _) ];
    eexists _, _; split; reflexivity.
Qed.

(** X26: the actor runs what is posted in order and stops at the first
    post that leaves the stream disconnected.  What is posted after a
    disconnect is never run, and a run that holds a disconnect ends, if
    it ends, with the stream disconnected. *)
Theorem X26_actor_stops_at_disconnect (fuel : nat) (posts rest : list (Env * Post))
    (env : Env) (err : option error) (s : stream) :
  actorLoop fuel (posts ++ (env, Disconnect err) :: rest) s
  = actorLoop fuel (posts ++ [(env, Disconnect err)]) s
  /\ match actorLoop fuel (posts ++ (env, Disconnect err) :: rest) s with
     | Done _ s' _ => state s' = disconnected
     | OutOfFuel _ => True
     end.
Proof.
  revert s. induction posts as [|[env0 p] posts IH]; intros s.
  - cbn [app]. destruct (disconnect_state env err s) as (s' & out & Hrun & Hstate).
    rewrite !(actorLoop_stop env fuel (Disconnect err) _ s s' out Hrun Hstate).
    split; [reflexivity | exact Hstate].
  - cbn [app actorLoop]. rewrite !bind_unfold.
    destruct (runPost env0 fuel p s) as [[] s1 out|out]; [|split; reflexivity].
    rewrite !get_bind.
    destruct (bool_decide_reflect (state s1 = disconnected)) as [Hs1|Hs1].
    + split; [reflexivity | exact Hs1].
    + destruct (IH s1) as [-> Hend]. split; [reflexivity|].
      destruct (actorLoop fuel (posts ++ [(env, Disconnect err)]) s1); exact Hend.
Qed.

(** * The dialer of the server-to-server connections *)

Lemma trimDot_dot (host : string) : s2s.trimDot (host +:+ ".") = host.
Proof.
  induction host as [|a host IH]; [reflexivity|].
  change (String a host +:+ ".") with (String a (host +:+ ".")).
  cbn [s2s.trimDot]. destruct (host +:+ ".") eqn:Happ.
  - destruct host; discriminate Happ.
  - rewrite IH. reflexivity.
Qed.



Lemma ParseUint16_bound (port : string) : (s2s.ParseUint16 port <= 65535)%N.
Proof.
  unfold s2s.ParseUint16. destruct port; [lia|].
  destruct (s2s.parseDecimal 0 _) as [n|]; [|lia].
  destruct (N.ltb_spec 65535 n); lia.
Qed.



(** * The state machine *)

(** ** Running a handler for what holds at its end *)

Lemma post_bind {A B} (Q : B -> stream -> Prop) (m : M A) (f : A -> M B) s :
  post (fun a s' => post Q (f a s')) (m s) -> post Q ((m ≫= f) s).
Proof.
  rewrite bind_unfold. destruct (m s) as [a s' out|out]; cbn [post]; [|trivial].
  destruct (f a s'); trivial.
Qed.

Lemma post_get (Q : stream -> stream -> Prop) s : Q s s -> post Q (get s).
Proof. trivial. Qed.

Lemma post_emit (Q : unit -> stream -> Prop) ev s : Q tt s -> post Q (emit ev s).
Proof. trivial. Qed.

Lemma post_modify (Q : unit -> stream -> Prop) f s : Q tt (f s) -> post Q (modify f s).
Proof. trivial. Qed.

Lemma post_ret {A} (Q : A -> stream -> Prop) (a : A) s : Q a s -> post Q ((mret a : M A) s).
Proof. trivial. Qed.

Lemma post_openStream (Q : unit -> stream -> Prop) env s :
  Q tt s -> post Q (openStream env s).
Proof. destruct (openStream_spec env s) as (out & -> & _). trivial. Qed.

Lemma post_disconnectClosingStream (Q : unit -> stream -> Prop) env closeStream s :
  Q tt (set_state disconnected (set_ctx (router.Terminate (ctx s)) s)) ->
  post Q (disconnectClosingStream env closeStream s).
Proof.
  destruct (disconnectClosingStream_ends env closeStream s) as (out & -> & _). trivial.
Qed.

Lemma post_disconnectWithStreamError (Q : unit -> stream -> Prop) env err s :
  Q tt (set_state disconnected (set_ctx (router.Terminate (ctx s)) s)) ->
  post Q (disconnectWithStreamError env err s).
Proof.
  destruct (disconnectWithStreamError_ends env err s) as (out & -> & _). trivial.
Qed.

Lemma post_sendMessage (Q : unit -> stream -> Prop) env fuel message toJID s :
  Q tt s -> post Q (sendMessage env fuel message toJID s).
Proof.
  intros HQ. revert toJID. induction fuel as [|fuel IH]; intros toJID; [exact I|].
  cbn [sendMessage]. apply post_bind, post_emit.
  destruct (Route env (xml.StMessage message)) as [[]|];
    unfold skip, writeElement; try exact HQ; try apply IH.
  apply post_bind, post_get. destruct (offline s); [|exact HQ].
  destruct (_ && _); exact HQ.
Qed.

Lemma post_initializeModules (Q : unit -> stream -> Prop) s :
  (forall s',
     iqHandlers s' = iqHandlers s ++ filter (fun h => moduleEnabled s h) moduleOrder ->
     roster s' = true -> state s' = state s -> ctx s' = ctx s ->
     cfg s' = cfg s -> register s' = register s -> ping s' = (enabled "ping" (cfg s) || ping s) ->
     Q tt s') ->
  post Q (initializeModules s).
Proof.
  intros HQ.
  destruct (initializeModules_spec s)
    as (s' & -> & Hh & Hr & _ & Hp & _ & _ & Hs & Hc & Hcfg & _ & Hreg & _).
  apply HQ; assumption.
Qed.

Ltac run_head t :=
  lazymatch t with
  | ?f _ => run_head f
  | _ => t
  end.

(** One handler after the other, along every path. *)
Ltac run :=
  repeat (cbv beta zeta; first
    [ match goal with
      | |- post _ (mbind _ _ _) => apply post_bind
      | |- post _ (get _) => apply post_get
      | |- post _ (emit _ _) => apply post_emit
      | |- post _ (modify _ _) => apply post_modify
      | |- post _ (mret _ _) => apply post_ret
      | |- post _ (OutOfFuel _) => exact I
      | |- post _ (openStream _ _) => apply post_openStream
      | |- post _ (disconnectClosingStream _ _ _) => apply post_disconnectClosingStream
      | |- post _ (disconnectWithStreamError _ _ _) => apply post_disconnectWithStreamError
      | |- post _ (sendMessage _ _ _ _ _) => apply post_sendMessage
      | |- post _ (initializeModules _) => apply post_initializeModules; intros
      | |- post _ ((if ?b then _ else _) _) => destruct b eqn:?
      | |- post _ (match ?x with _ => _ end _) => destruct x eqn:?
      | |- post _ ?t => let h := run_head t in progress unfold h
      end ]).

(** X29: the changes of state.  Whatever is posted to the actor, in
    whatever state and environment, a stream that is connecting goes on to
    connected or authenticated; a connected one to authenticating or back
    to connecting; an authenticating one back to connected or to
    connecting; an authenticated one to session-started or back to
    connecting; and each of them may stay as it is or end disconnected.
    A started session only ends, and a disconnected stream stays so. *)
Theorem X29_state_machine (env : Env) (fuel : nat) (p : Post) (s : stream) :
  post (fun _ s' => edge (state s) (state s') = true) (runPost env fuel p s).
Proof.
  destruct p as [elem|element|err|]; cbn [runPost].
  - unfold handleElement. apply post_bind, post_get.
    destruct (_ && _).
    + run; cbn; destruct (state s); reflexivity.
    + destruct (state s) eqn:Hstate; run; cbn;
        repeat match goal with H : state _ = _ |- _ => rewrite H end; reflexivity.
  - run. cbn. destruct (state s); reflexivity.
  - run; cbn; destruct (state s); reflexivity.
  - run; cbn; destruct (state s); reflexivity.
Qed.


(** ** What the state says about the stream *)

Ltac fields :=
  unfold wellFormed, IsAuthenticated, Resource, moduleEnabled, router.Bool, router.String,
    router.SetString, router.SetBool, router.SetObject, router.Terminate in *;
  cbn [state roster iqHandlers ping offline register cfg ctx
       router.values router.terminated
       set_state set_ctx set_connectTm set_authrs set_activeAuthr] in *;
  repeat match goal with
         | H : state ?s' = state _ |- context [state ?s'] => rewrite H
         | H : ctx ?s' = ctx _ |- context [ctx ?s'] => rewrite H
         | H : cfg ?s' = cfg _ |- context [cfg ?s'] => rewrite H
         | H : register ?s' = register _ |- context [register ?s'] => rewrite H
         | H : roster ?s' = true |- context [roster ?s'] => rewrite H
         | H : iqHandlers ?s' = _ ++ _ |- context [iqHandlers ?s'] => rewrite H
         end;
  repeat first [ rewrite lookup_insert_eq in * | rewrite lookup_insert_ne in * by discriminate ];
  repeat match goal with
         | H : _ /\ _ |- _ => destruct H
         | H : negb _ = true |- _ => apply negb_true_iff in H
         | H : negb _ = false |- _ => apply negb_false_iff in H
         | H : bool_decide _ = false |- _ => apply bool_decide_eq_false in H
         | H : bool_decide _ = true |- _ => apply bool_decide_eq_true in H
         end.

Lemma wellFormed_runPost env fuel p s :
  wellFormed s -> post (fun _ s' => wellFormed s') (runPost env fuel p s).
Proof.
  intros Hinv. destruct p as [elem|element|err|]; cbn [runPost].
  - unfold handleElement. apply post_bind, post_get.
    destruct (_ && _).
    + run; fields; auto.
    + unfold wellFormed in Hinv. destruct (state s) eqn:Hstate; run.
      all: fields; cbn [state set_state]; rewrite ?Hstate.
      all: repeat split; try assumption; try congruence.
      all: try (intros Hempty;
                match goal with H : String.length _ <> 0%nat |- _ => apply H end;
                rewrite Hempty; reflexivity).
      all: match goal with H : iqHandlers _ = [] |- _ => rewrite H end; reflexivity.
  - run. exact Hinv.
  - destruct err as [[]|]; run; fields; auto.
  - run; fields; auto.
Qed.

Lemma wellFormed_actorLoop fuel posts s :
  wellFormed s -> post (fun _ s' => wellFormed s') (actorLoop fuel posts s).
Proof.
  revert s. induction posts as [|[env p] posts IH]; intros s Hinv; [exact Hinv|].
  cbn [actorLoop]. apply post_bind.
  pose proof (wellFormed_runPost env fuel p s Hinv) as Hrun.
  destruct (runPost env fuel p s) as [[] s1 out|out]; [|exact I]. cbn [post] in *.
  apply post_bind, post_get.
  destruct (bool_decide (state s1 = disconnected)); [exact Hrun | apply IH, Hrun].
Qed.

(** X30: what the state of a stream made by [New] says about it,
    whatever has been posted to its actor since and in whatever
    environments.  Connected or authenticating, it is not authenticated;
    authenticated or in a started session, it is.  A started session has
    a resource, its roster, and as IQ handlers those of its
    configuration in the order of initializeModules, each once; before the
    session there is no roster and no IQ handler.  So the features that
    a connecting stream offers once authenticated never hold the roster
    versioning feature, whatever the configuration says. *)
Theorem X30_reachable_streams (env0 : Env) (id0 : string) (t : transport.TransportType)
    (c : Config) (fuel : nat) (posts : list (Env * Post)) (s : stream) :
  final (actorLoop fuel posts (New env0 id0 t c)) = Some s ->
  wellFormed s
  /\ (state s = connecting -> xml.Child "ver" (authenticatedFeatures s) = None)
  /\ (state s = sessionStarted -> iqHandlers s = filter (configured c) moduleOrder).
Proof.
  intros Hfinal.
  assert (Hnew : wellFormed (New env0 id0 t c)) by (split; [reflexivity | split; reflexivity]).
  pose proof (wellFormed_actorLoop fuel posts _ Hnew) as Hinv.
  destruct (actorLoop_framing fuel posts _ s Hfinal) as (Hcfg & _).
  destruct (actorLoop fuel posts (New env0 id0 t c)) as [[] s' out|out];
    [|discriminate Hfinal].
  injection Hfinal as ->. cbn [post] in Hinv. split; [exact Hinv|].
  destruct Hinv as [Hreg Hinv]. split.
  - intros Hstate. rewrite Hstate in Hinv. destruct Hinv as [Hroster _].
    unfold authenticatedFeatures. rewrite Hroster. cbn [andb].
    destruct (negb (IsCompressed s) && _); reflexivity.
  - intros Hstate. rewrite Hstate in Hinv. destruct Hinv as (_ & _ & _ & ->).
    unfold moduleEnabled, configured. rewrite Hreg, Hcfg. reflexivity.
Qed.

(** The example session, from the first stream open to the session
    request, as one run of the actor. *)
Lemma X30_reachable_streams_witness :
  state Demo.inSession = sessionStarted
  /\ wellFormed Demo.inSession
  /\ iqHandlers Demo.inSession = [module.DiscoInfo; module.Roster; module.Register].
Proof.
  destruct (X30_reachable_streams Demo.env "stream-1" transport.Socket
              (Demo.config Disallow) 1
              (List.map (fun e => (Demo.env, ReadElement e))
                 [Demo.streamOpen "localhost"; Demo.starttls; Demo.streamOpen "localhost";
                  Demo.authPlain; Demo.streamOpen "localhost"; Demo.bindIQ "phone";
                  Demo.sessionIQ])
              Demo.inSession) as (Hinv & _ & Hhandlers).
  - vm_compute; reflexivity.
  - split; [vm_compute; reflexivity|]. split; [exact Hinv|].
    rewrite Hhandlers by (vm_compute; reflexivity). vm_compute; reflexivity.
Defined.
